(** * Container utilisation reports: the aggregation client, the table
      formatter and the stand-alone monitor script.

    The development embeds three Python modules:
    - [metrics_client.py]   (module [MetricsClient] below; the server
      imports it under the name gcp_metrics_client),
    - [metrics_server.py]   (module [MetricsServer]),
    - [kube-utilization-monitor.py] (module [Monitor]).

    Conventions of the embedding.
    - Python [int] values are [Z]. A Python [float] is a rational [Q],
      the exact value of the double: no infinities, no NaN. Sums, means
      and the numbers of the plain cells are taken exactly. In the
      colouring functions, where a comparison or a truncation decides
      the colour and the number shown, the arithmetic is the machine's:
      the float literals, the product and the quotient are rounded to
      the nearest double by [binary64].
    - A raised exception is the [Raise] branch of [result].
    - A [dict] is an association list in insertion order.
    - The four coroutines joined by [asyncio.gather] are run as one
      sequence of (query, series) deliveries, in the order the event loop
      hands the series to the loop bodies; every such sequence is an
      interleaving of the four result streams and conversely. *)

From Stdlib Require Import ZArith QArith Qminmax Qabs List String Ascii Bool Lia.
From Stdlib Require Import Sorting.Sorted Sorting.Permutation.
Import ListNotations.

Local Open Scope Z_scope.

(** ** Exceptions and the error monad *)

Inductive exception : Type :=
| IndexError
| ValueError
| StatisticsError
| ZeroDivisionError.

Inductive result (A : Type) : Type :=
| Ok (a : A)
| Raise (e : exception).

Arguments Ok {A} a.
Arguments Raise {A} e.

Definition bind {A B : Type} (r : result A) (k : A -> result B) : result B :=
  match r with
  | Ok a => k a
  | Raise e => Raise e
  end.

Notation "x <- r ;; k" := (bind r (fun x => k))
  (at level 61, r at next level, right associativity).

(** A [for] loop whose body may raise: the first exception ends the loop. *)
Fixpoint for_each {A S : Type} (body : A -> S -> result S) (l : list A) (s : S)
  : result S :=
  match l with
  | [] => Ok s
  | a :: l' => s' <- body a s ;; for_each body l' s'
  end.

Definition is_ok {A : Type} (r : result A) : bool :=
  match r with Ok _ => true | Raise _ => false end.

(** ** Strings *)

(** The double quote character, chr(34). *)
Definition dquote : string := String (ascii_of_nat 34) EmptyString.

(** [sep.join(parts)] *)
Fixpoint join (sep : string) (parts : list string) : string :=
  match parts with
  | [] => EmptyString
  | [p] => p
  | p :: rest => (p ++ sep ++ join sep rest)%string
  end.

(** [sub in s] on Python strings. *)
Fixpoint contains (sub s : string) : bool :=
  if prefix sub s then true
  else match s with
       | EmptyString => false
       | String _ s' => contains sub s'
       end.

(** ** Numbers *)

(** [x < y] on floats. *)
Definition Qltb (x y : Q) : bool :=
  Qnum x * QDen y <? Qnum y * QDen x.

(** [int(x)] of a float: truncation towards zero. *)
Definition int_of_float (x : Q) : Z := Z.quot (Qnum x) (QDen x).

(** [n / d], for a positive [d], rounded to the nearest integer, a tie
    to the even one. *)
Definition round_half_even (n d : Z) : Z :=
  let q := n / d in
  let r := n mod d in
  if 2 * r <? d then q
  else if d <? 2 * r then q + 1
  else if Z.even q then q else q + 1.

(** The smallest positive double is [1 / 2 ^ 1074]; every double is a
    whole number of these. *)
Definition smallest_subnormal_inv : positive := (2 ^ 1074)%positive.

(** The double nearest to a real that is not negative, a tie to the even
    significand. The real is counted in smallest subnormals; with at
    most 53 bits before the point it is rounded to a whole number of
    them (the subnormals and the first binade), otherwise to a multiple
    of the power of two that leaves 53 bits. *)
Definition binary64_magnitude (x : Q) : Q :=
  let n := Qnum x * Zpos smallest_subnormal_inv in
  let d := QDen x in
  let j := Z.max 0 (Z.log2 (n / d) - 52) in
  (round_half_even n (d * 2 ^ j) * 2 ^ j) # smallest_subnormal_inv.

(** The double nearest to the real [x]: what Python computes for a float
    literal, for a product of floats and for the quotient of two ints,
    given their exact value. *)
Definition binary64 (x : Q) : Q :=
  Qred (if Qnum x <? 0 then - binary64_magnitude (- x)
        else binary64_magnitude x).

(** The reals that round to a finite double: those of magnitude below
    [2 ^ 1024 - 2 ^ 970]. From there on a product of floats is [inf] and
    the quotient of two ints raises OverflowError; [binary64] says
    nothing about them. *)
Definition in_range (x : Q) : bool :=
  Qltb (Qabs x) (inject_Z (2 ^ 1024 - 2 ^ 970)).

(** The builtin [max(a, b)]: the first argument is kept unless the second
    is strictly greater. *)
Definition max_int (a b : Z) : Z := if a <? b then b else a.
Definition max_float (a b : Q) : Q := if Qltb a b then b else a.

(** [max(items, key=key)]: the first item with the greatest key;
    [ValueError] on an empty sequence. *)
Fixpoint max_from {A : Type} (ltb : A -> A -> bool) (best : A) (l : list A) : A :=
  match l with
  | [] => best
  | x :: l' => max_from ltb (if ltb best x then x else best) l'
  end.

Definition max_by {A K : Type} (ltb : K -> K -> bool) (key : A -> K)
  (items : list A) : result A :=
  match items with
  | [] => Raise ValueError
  | x :: l => Ok (max_from (fun a b => ltb (key a) (key b)) x l)
  end.

(** [sum(values)] starts from 0 and adds from the left. *)
Definition sum_int (l : list Z) : Z := fold_left Z.add l 0.
Definition sum_float (l : list Q) : Q := fold_left Qplus l (0 : Q).

Definition len {A : Type} (l : list A) : Z := Z.of_nat (List.length l).

(** [x / n] with a float numerator and an int denominator. *)
Definition div_float_int (x : Q) (n : Z) : result Q :=
  if n =? 0 then Raise ZeroDivisionError else Ok (x / inject_Z n)%Q.

(** [statistics.mean(data)]: [StatisticsError] on empty data. *)
Definition mean (data : list Q) : result Q :=
  match data with
  | [] => Raise StatisticsError
  | _ => Ok (sum_float data / inject_Z (len data))%Q
  end.

(** [seq[0]] *)
Definition first {A : Type} (l : list A) : result A :=
  match l with
  | [] => Raise IndexError
  | x :: _ => Ok x
  end.

(** ** Insertion-ordered dictionaries *)

Section Dict.
Context {K V : Type}.
Variable eqb : K -> K -> bool.

Definition dict : Type := list (K * V).

Fixpoint dict_get (k : K) (d : dict) : option V :=
  match d with
  | [] => None
  | (k', v) :: d' => if eqb k k' then Some v else dict_get k d'
  end.

(** [d[k] = v]: an existing key keeps its place, a new one goes last. *)
Fixpoint dict_set (k : K) (v : V) (d : dict) : dict :=
  match d with
  | [] => [(k, v)]
  | (k', v') :: d' =>
      if eqb k k' then (k', v) :: d' else (k', v') :: dict_set k v d'
  end.

(** [del d[k]] *)
Fixpoint dict_del (k : K) (d : dict) : dict :=
  match d with
  | [] => []
  | (k', v') :: d' =>
      if eqb k k' then d' else (k', v') :: dict_del k d'
  end.

Definition keys (d : dict) : list K := map fst d.
Definition values (d : dict) : list V := map snd d.
End Dict.

Arguments dict : clear implicits.

(** The entries a pass over the table keeps, each with its value
    rewritten: those [drop] rejects are left out. *)
Definition kept {K V : Type} (drop : K * V -> bool) (f : K * V -> V)
  (l : dict K V) : dict K V :=
  map (fun item => (fst item, f item))
    (List.filter (fun item => negb (drop item)) l).

(** * google.cloud.monitoring_v3, as far as the clients read it *)

Module Monitoring.

(** [point.value]: a typed value; the member that is not set reads as 0. *)
Record TypedValue : Type := {
  int64_value : Z;
  double_value : Q;
}.

Record Point : Type := {
  value : TypedValue;
}.

(** One series of [list_time_series]: the two resource labels and the
    system label the client reads, and the aligned points. *)
Record TimeSeries : Type := {
  namespace_name : string;              (* resource.labels['namespace_name'] *)
  container_name_label : string;        (* resource.labels['container_name'] *)
  top_level_controller_name_label : string;
                (* metadata.system_labels['top_level_controller_name'] *)
  points : list Point;
}.

Inductive Aligner : Type := ALIGN_MEAN | ALIGN_MAX | ALIGN_RATE.
Inductive Reducer : Type := REDUCE_MEAN | REDUCE_MAX.

(** The request [query] sends to [list_time_series] (the interval, which
    depends on the clock, is left out). *)
Record ListTimeSeriesRequest : Type := {
  name : string;
  filter : string;
  alignment_period_seconds : Z;
  per_series_aligner : Aligner;
  cross_series_reducer : Reducer;
  group_by_fields : list string;
}.

End Monitoring.

(** * metrics_client.py *)

Module MetricsClient.
Import Monitoring.

(** ** ContainerMetrics *)

Record ContainerMetrics : Type := {
  container_name : string;
  top_level_controller_name : string;
  namespace : string;
  memory_request : Z;
  avg_memory_usage : Q;
  avg_memory_request_utilization : Q;
  max_memory_usage : Z;
  unutilized_memory : Z;
  cpu_request : Q;
  avg_cpu_usage : Q;
  avg_cpu_request_utilization : Q;
  max_cpu_usage : Q;
  unutilized_cpu : Q;
}.

(** [ContainerMetrics(namespace=.., container_name=.., top_level_controller_name=..)]:
    every numeric field takes its default 0. *)
Definition new_ContainerMetrics (ns cn tl : string) : ContainerMetrics :=
  {| container_name := cn; top_level_controller_name := tl; namespace := ns;
     memory_request := 0; avg_memory_usage := 0;
     avg_memory_request_utilization := 0; max_memory_usage := 0;
     unutilized_memory := 0; cpu_request := 0; avg_cpu_usage := 0;
     avg_cpu_request_utilization := 0; max_cpu_usage := 0;
     unutilized_cpu := 0 |}.

(** Attribute assignments [container.field = v]. *)
Definition set_memory_request (v : Z) (c : ContainerMetrics) :=
  {| container_name := container_name c;
     top_level_controller_name := top_level_controller_name c;
     namespace := namespace c;
     memory_request := v;
     avg_memory_usage := avg_memory_usage c;
     avg_memory_request_utilization := avg_memory_request_utilization c;
     max_memory_usage := max_memory_usage c;
     unutilized_memory := unutilized_memory c;
     cpu_request := cpu_request c;
     avg_cpu_usage := avg_cpu_usage c;
     avg_cpu_request_utilization := avg_cpu_request_utilization c;
     max_cpu_usage := max_cpu_usage c;
     unutilized_cpu := unutilized_cpu c |}.

Definition set_avg_memory_usage (v : Q) (c : ContainerMetrics) :=
  {| container_name := container_name c;
     top_level_controller_name := top_level_controller_name c;
     namespace := namespace c;
     memory_request := memory_request c;
     avg_memory_usage := v;
     avg_memory_request_utilization := avg_memory_request_utilization c;
     max_memory_usage := max_memory_usage c;
     unutilized_memory := unutilized_memory c;
     cpu_request := cpu_request c;
     avg_cpu_usage := avg_cpu_usage c;
     avg_cpu_request_utilization := avg_cpu_request_utilization c;
     max_cpu_usage := max_cpu_usage c;
     unutilized_cpu := unutilized_cpu c |}.

Definition set_avg_memory_request_utilization (v : Q) (c : ContainerMetrics) :=
  {| container_name := container_name c;
     top_level_controller_name := top_level_controller_name c;
     namespace := namespace c;
     memory_request := memory_request c;
     avg_memory_usage := avg_memory_usage c;
     avg_memory_request_utilization := v;
     max_memory_usage := max_memory_usage c;
     unutilized_memory := unutilized_memory c;
     cpu_request := cpu_request c;
     avg_cpu_usage := avg_cpu_usage c;
     avg_cpu_request_utilization := avg_cpu_request_utilization c;
     max_cpu_usage := max_cpu_usage c;
     unutilized_cpu := unutilized_cpu c |}.

Definition set_max_memory_usage (v : Z) (c : ContainerMetrics) :=
  {| container_name := container_name c;
     top_level_controller_name := top_level_controller_name c;
     namespace := namespace c;
     memory_request := memory_request c;
     avg_memory_usage := avg_memory_usage c;
     avg_memory_request_utilization := avg_memory_request_utilization c;
     max_memory_usage := v;
     unutilized_memory := unutilized_memory c;
     cpu_request := cpu_request c;
     avg_cpu_usage := avg_cpu_usage c;
     avg_cpu_request_utilization := avg_cpu_request_utilization c;
     max_cpu_usage := max_cpu_usage c;
     unutilized_cpu := unutilized_cpu c |}.

Definition set_unutilized_memory (v : Z) (c : ContainerMetrics) :=
  {| container_name := container_name c;
     top_level_controller_name := top_level_controller_name c;
     namespace := namespace c;
     memory_request := memory_request c;
     avg_memory_usage := avg_memory_usage c;
     avg_memory_request_utilization := avg_memory_request_utilization c;
     max_memory_usage := max_memory_usage c;
     unutilized_memory := v;
     cpu_request := cpu_request c;
     avg_cpu_usage := avg_cpu_usage c;
     avg_cpu_request_utilization := avg_cpu_request_utilization c;
     max_cpu_usage := max_cpu_usage c;
     unutilized_cpu := unutilized_cpu c |}.

Definition set_cpu_request (v : Q) (c : ContainerMetrics) :=
  {| container_name := container_name c;
     top_level_controller_name := top_level_controller_name c;
     namespace := namespace c;
     memory_request := memory_request c;
     avg_memory_usage := avg_memory_usage c;
     avg_memory_request_utilization := avg_memory_request_utilization c;
     max_memory_usage := max_memory_usage c;
     unutilized_memory := unutilized_memory c;
     cpu_request := v;
     avg_cpu_usage := avg_cpu_usage c;
     avg_cpu_request_utilization := avg_cpu_request_utilization c;
     max_cpu_usage := max_cpu_usage c;
     unutilized_cpu := unutilized_cpu c |}.

Definition set_avg_cpu_usage (v : Q) (c : ContainerMetrics) :=
  {| container_name := container_name c;
     top_level_controller_name := top_level_controller_name c;
     namespace := namespace c;
     memory_request := memory_request c;
     avg_memory_usage := avg_memory_usage c;
     avg_memory_request_utilization := avg_memory_request_utilization c;
     max_memory_usage := max_memory_usage c;
     unutilized_memory := unutilized_memory c;
     cpu_request := cpu_request c;
     avg_cpu_usage := v;
     avg_cpu_request_utilization := avg_cpu_request_utilization c;
     max_cpu_usage := max_cpu_usage c;
     unutilized_cpu := unutilized_cpu c |}.

Definition set_avg_cpu_request_utilization (v : Q) (c : ContainerMetrics) :=
  {| container_name := container_name c;
     top_level_controller_name := top_level_controller_name c;
     namespace := namespace c;
     memory_request := memory_request c;
     avg_memory_usage := avg_memory_usage c;
     avg_memory_request_utilization := avg_memory_request_utilization c;
     max_memory_usage := max_memory_usage c;
     unutilized_memory := unutilized_memory c;
     cpu_request := cpu_request c;
     avg_cpu_usage := avg_cpu_usage c;
     avg_cpu_request_utilization := v;
     max_cpu_usage := max_cpu_usage c;
     unutilized_cpu := unutilized_cpu c |}.

Definition set_max_cpu_usage (v : Q) (c : ContainerMetrics) :=
  {| container_name := container_name c;
     top_level_controller_name := top_level_controller_name c;
     namespace := namespace c;
     memory_request := memory_request c;
     avg_memory_usage := avg_memory_usage c;
     avg_memory_request_utilization := avg_memory_request_utilization c;
     max_memory_usage := max_memory_usage c;
     unutilized_memory := unutilized_memory c;
     cpu_request := cpu_request c;
     avg_cpu_usage := avg_cpu_usage c;
     avg_cpu_request_utilization := avg_cpu_request_utilization c;
     max_cpu_usage := v;
     unutilized_cpu := unutilized_cpu c |}.

Definition set_unutilized_cpu (v : Q) (c : ContainerMetrics) :=
  {| container_name := container_name c;
     top_level_controller_name := top_level_controller_name c;
     namespace := namespace c;
     memory_request := memory_request c;
     avg_memory_usage := avg_memory_usage c;
     avg_memory_request_utilization := avg_memory_request_utilization c;
     max_memory_usage := max_memory_usage c;
     unutilized_memory := unutilized_memory c;
     cpu_request := cpu_request c;
     avg_cpu_usage := avg_cpu_usage c;
     avg_cpu_request_utilization := avg_cpu_request_utilization c;
     max_cpu_usage := max_cpu_usage c;
     unutilized_cpu := v |}.

(** ** The keyed table [self.container_metrics] *)

(** (namespace, container, top-level controller) *)
Definition ContainerKey : Type := (string * string * string)%type.

Definition key_eqb (a b : ContainerKey) : bool :=
  let '(a1, a2, a3) := a in
  let '(b1, b2, b3) := b in
  String.eqb a1 b1 && String.eqb a2 b2 && String.eqb a3 b3.

Definition container_metrics_t : Type := dict ContainerKey ContainerMetrics.

Definition container_key (metrics : TimeSeries) : ContainerKey :=
  (namespace_name metrics, container_name_label metrics,
   top_level_controller_name_label metrics).

(** ** [MetricsClient.query]: the request sent to the backend *)

Definition quoted (s : string) : string := (dquote ++ s ++ dquote)%string.

(** [f'resource.labels.namespace_name = {dquote}{namespace}{dquote}'] *)
Definition namespace_clause (namespace : string) : string :=
  ("resource.labels.namespace_name = " ++ quoted namespace)%string.

(** Truth value of [self.namespaces]: [None] and the empty list are false. *)
Definition truthy (namespaces : option (list string)) : bool :=
  match namespaces with
  | None | Some [] => false
  | Some (_ :: _) => true
  end.

Definition namespaces_list (namespaces : option (list string)) : list string :=
  match namespaces with None => [] | Some l => l end.

Definition query (project : string) (namespaces : option (list string))
  (aligner : Aligner) (reducer : Reducer) (query_filter : string)
  : ListTimeSeriesRequest :=
  let query_filter :=
    (query_filter ++ " AND resource.labels.namespace_name != "
       ++ quoted "kube-system")%string in
  let query_filter :=
    if truthy namespaces
    then (query_filter ++ " AND ("
            ++ join " OR " (map namespace_clause (namespaces_list namespaces))
            ++ ")")%string
    else query_filter in
  {| name := ("projects/" ++ project)%string;
     filter := query_filter;
     alignment_period_seconds := 60 * 60 * 3;
     per_series_aligner := aligner;
     cross_series_reducer := reducer;
     group_by_fields :=
       [ "resource.labels.namespace_name"%string;
         "resource.container_name"%string;
         "metadata.system_labels.top_level_controller_name"%string ] |}.

Definition metric_type (t : string) : string :=
  ("metric.type = " ++ quoted t)%string.

(** The eight queries, four per metric family. *)
Inductive memory_query : Type :=
| avg_memory_request_utilization_q
| max_memory_usage_q
| avg_memory_usage_q
| memory_request_q.

Inductive cpu_query : Type :=
| avg_cpu_request_utilization_q
| max_cpu_usage_q
| avg_cpu_usage_q
| cpu_request_q.

(** The [self.query(...)] call that opens each [query_*] coroutine. *)
Definition memory_query_request (project : string)
  (namespaces : option (list string)) (q : memory_query)
  : ListTimeSeriesRequest :=
  match q with
  | avg_memory_request_utilization_q =>
      query project namespaces ALIGN_MEAN REDUCE_MEAN
        (metric_type "kubernetes.io/container/memory/request_utilization")
  | max_memory_usage_q =>
      query project namespaces ALIGN_MAX REDUCE_MAX
        (metric_type "kubernetes.io/container/memory/used_bytes")
  | avg_memory_usage_q =>
      query project namespaces ALIGN_MEAN REDUCE_MEAN
        (metric_type "kubernetes.io/container/memory/used_bytes")
  | memory_request_q =>
      query project namespaces ALIGN_MAX REDUCE_MAX
        (metric_type "kubernetes.io/container/memory/request_bytes")
  end.

Definition cpu_query_request (project : string)
  (namespaces : option (list string)) (q : cpu_query)
  : ListTimeSeriesRequest :=
  match q with
  | avg_cpu_request_utilization_q =>
      query project namespaces ALIGN_MEAN REDUCE_MEAN
        (metric_type "kubernetes.io/container/cpu/request_utilization")
  | max_cpu_usage_q =>
      query project namespaces ALIGN_RATE REDUCE_MAX
        (metric_type "kubernetes.io/container/cpu/core_usage_time")
  | avg_cpu_usage_q =>
      query project namespaces ALIGN_RATE REDUCE_MEAN
        (metric_type "kubernetes.io/container/cpu/core_usage_time")
  | cpu_request_q =>
      query project namespaces ALIGN_MEAN REDUCE_MAX
        (metric_type "kubernetes.io/container/cpu/request_cores")
  end.

(** ** [upsert_container] *)

(** Returns the table (with a fresh record stored on first reference) and
    the record found or made. A dataclass instance is always true, so
    [not container] holds exactly when [get] returned [None]. *)
Definition upsert_container (metrics : TimeSeries) (d : container_metrics_t)
  : container_metrics_t * ContainerMetrics :=
  match dict_get key_eqb (container_key metrics) d with
  | Some container => (d, container)
  | None =>
      let container :=
        new_ContainerMetrics (namespace_name metrics)
          (container_name_label metrics)
          (top_level_controller_name_label metrics) in
      (dict_set key_eqb (container_key metrics) container d, container)
  end.

(** [container.field = v]: the record is the object stored under the
    series' key, so the write shows in the table. *)
Definition assign (metrics : TimeSeries)
  (set : ContainerMetrics -> ContainerMetrics)
  (state : container_metrics_t * ContainerMetrics) : container_metrics_t :=
  let '(d, container) := state in
  dict_set key_eqb (container_key metrics) (set container) d.

Definition double_values (metrics : TimeSeries) : list Q :=
  map (fun point => double_value (value point)) (points metrics).

(** ** The bodies of the eight [async for metrics in results] loops *)

Definition avg_memory_request_utilization_body (metrics : TimeSeries)
  (d : container_metrics_t) : result container_metrics_t :=
  let state := upsert_container metrics d in
  v <- mean (double_values metrics) ;;
  Ok (assign metrics (set_avg_memory_request_utilization v) state).

Definition max_memory_usage_body (metrics : TimeSeries)
  (d : container_metrics_t) : result container_metrics_t :=
  let state := upsert_container metrics d in
  p <- max_by Z.ltb (fun point => int64_value (value point)) (points metrics) ;;
  Ok (assign metrics (set_max_memory_usage (int64_value (value p))) state).

Definition avg_memory_usage_body (metrics : TimeSeries)
  (d : container_metrics_t) : result container_metrics_t :=
  let state := upsert_container metrics d in
  v <- mean (double_values metrics) ;;
  Ok (assign metrics (set_avg_memory_usage v) state).

Definition memory_request_body (metrics : TimeSeries)
  (d : container_metrics_t) : result container_metrics_t :=
  let state := upsert_container metrics d in
  p <- first (points metrics) ;;
  Ok (assign metrics (set_memory_request (int64_value (value p))) state).

Definition avg_cpu_request_utilization_body (metrics : TimeSeries)
  (d : container_metrics_t) : result container_metrics_t :=
  let state := upsert_container metrics d in
  v <- mean (double_values metrics) ;;
  Ok (assign metrics (set_avg_cpu_request_utilization v) state).

Definition max_cpu_usage_body (metrics : TimeSeries)
  (d : container_metrics_t) : result container_metrics_t :=
  let state := upsert_container metrics d in
  p <- max_by Qltb (fun point => double_value (value point)) (points metrics) ;;
  Ok (assign metrics (set_max_cpu_usage (double_value (value p))) state).

Definition avg_cpu_usage_body (metrics : TimeSeries)
  (d : container_metrics_t) : result container_metrics_t :=
  let state := upsert_container metrics d in
  p <- first (points metrics) ;;
  Ok (assign metrics (set_avg_cpu_usage (double_value (value p))) state).

Definition cpu_request_body (metrics : TimeSeries)
  (d : container_metrics_t) : result container_metrics_t :=
  let state := upsert_container metrics d in
  p <- first (points metrics) ;;
  Ok (assign metrics (set_cpu_request (double_value (value p))) state).

(** Each [query_*] coroutine, run alone over the series it is given. *)
Definition query_avg_memory_request_utilization :=
  for_each avg_memory_request_utilization_body.
Definition query_max_memory_usage := for_each max_memory_usage_body.
Definition query_avg_memory_usage := for_each avg_memory_usage_body.
Definition query_memory_request := for_each memory_request_body.
Definition query_avg_cpu_request_utilization :=
  for_each avg_cpu_request_utilization_body.
Definition query_max_cpu_usage := for_each max_cpu_usage_body.
Definition query_avg_cpu_usage := for_each avg_cpu_usage_body.
Definition query_cpu_request := for_each cpu_request_body.

(** ** [asyncio.gather] of the four coroutines of a family *)

Definition memory_body (q : memory_query) :=
  match q with
  | avg_memory_request_utilization_q => avg_memory_request_utilization_body
  | max_memory_usage_q => max_memory_usage_body
  | avg_memory_usage_q => avg_memory_usage_body
  | memory_request_q => memory_request_body
  end.

Definition cpu_body (q : cpu_query) :=
  match q with
  | avg_cpu_request_utilization_q => avg_cpu_request_utilization_body
  | max_cpu_usage_q => max_cpu_usage_body
  | avg_cpu_usage_q => avg_cpu_usage_body
  | cpu_request_q => cpu_request_body
  end.

(** A delivery is one series handed to the loop body of one query. The
    loop bodies do not await, so each runs to its end before the next
    delivery; the first exception is what [gather] re-raises. *)
Definition gather_memory (deliveries : list (memory_query * TimeSeries))
  (d : container_metrics_t) : result container_metrics_t :=
  for_each (fun delivery => memory_body (fst delivery) (snd delivery))
    deliveries d.

Definition gather_cpu (deliveries : list (cpu_query * TimeSeries))
  (d : container_metrics_t) : result container_metrics_t :=
  for_each (fun delivery => cpu_body (fst delivery) (snd delivery))
    deliveries d.

(** ** The loops that drop overprovisioner rows and derive the unutilized
       value *)

Definition memory_pass (d : container_metrics_t)
  (item : ContainerKey * ContainerMetrics) : container_metrics_t :=
  let '(container_key, metrics) := item in
  if contains "overprovisioner" (container_name metrics)
  then dict_del key_eqb container_key d
  else dict_set key_eqb container_key
         (set_unutilized_memory
            (max_int 0 (memory_request metrics - max_memory_usage metrics))
            metrics) d.

Definition cpu_pass (d : container_metrics_t)
  (item : ContainerKey * ContainerMetrics) : container_metrics_t :=
  let '(container_key, metrics) := item in
  if contains "overprovisioner" (container_name metrics)
  then dict_del key_eqb container_key d
  else dict_set key_eqb container_key
         (set_unutilized_cpu
            (max_float 0 (cpu_request metrics - max_cpu_usage metrics))
            metrics) d.

(** [query_memory_utilization]: [d] is [self.container_metrics] at the
    call (empty for a client just made); the result is the table left in
    the client and the list returned. *)
Definition query_memory_utilization
  (deliveries : list (memory_query * TimeSeries)) (d : container_metrics_t)
  : result (container_metrics_t * list ContainerMetrics) :=
  d <- gather_memory deliveries d ;;
  let d := fold_left memory_pass d d in
  Ok (d, values d).

Definition query_cpu_utilization
  (deliveries : list (cpu_query * TimeSeries)) (d : container_metrics_t)
  : result (container_metrics_t * list ContainerMetrics) :=
  d <- gather_cpu deliveries d ;;
  let d := fold_left cpu_pass d d in
  Ok (d, values d).

(** The attribute write each loop body ends with, as a function of the
    series alone (the value is computed before the record is touched). *)
Definition memory_write (q : memory_query) (metrics : TimeSeries)
  : result (ContainerMetrics -> ContainerMetrics) :=
  match q with
  | avg_memory_request_utilization_q =>
      v <- mean (double_values metrics) ;;
      Ok (set_avg_memory_request_utilization v)
  | max_memory_usage_q =>
      p <- max_by Z.ltb (fun point => int64_value (value point))
             (points metrics) ;;
      Ok (set_max_memory_usage (int64_value (value p)))
  | avg_memory_usage_q =>
      v <- mean (double_values metrics) ;;
      Ok (set_avg_memory_usage v)
  | memory_request_q =>
      p <- first (points metrics) ;;
      Ok (set_memory_request (int64_value (value p)))
  end.

Definition cpu_write (q : cpu_query) (metrics : TimeSeries)
  : result (ContainerMetrics -> ContainerMetrics) :=
  match q with
  | avg_cpu_request_utilization_q =>
      v <- mean (double_values metrics) ;;
      Ok (set_avg_cpu_request_utilization v)
  | max_cpu_usage_q =>
      p <- max_by Qltb (fun point => double_value (value point))
             (points metrics) ;;
      Ok (set_max_cpu_usage (double_value (value p)))
  | avg_cpu_usage_q =>
      p <- first (points metrics) ;;
      Ok (set_avg_cpu_usage (double_value (value p)))
  | cpu_request_q =>
      p <- first (points metrics) ;;
      Ok (set_cpu_request (double_value (value p)))
  end.

(** The record [upsert_container] makes for a series it has not seen. *)
Definition fresh (s : TimeSeries) : ContainerMetrics :=
  new_ContainerMetrics (namespace_name s) (container_name_label s)
    (top_level_controller_name_label s).

(** The identity of a record, read back from its three name fields. *)
Definition key_of (c : ContainerMetrics) : ContainerKey :=
  (namespace c, container_name c, top_level_controller_name c).

(** What the closing loop leaves of a table whose keys are distinct. *)
Definition is_overprovisioner (item : ContainerKey * ContainerMetrics) : bool :=
  contains "overprovisioner" (container_name (snd item)).

Definition with_unutilized_memory (item : ContainerKey * ContainerMetrics)
  : ContainerMetrics :=
  set_unutilized_memory
    (max_int 0 (memory_request (snd item) - max_memory_usage (snd item)))
    (snd item).

Definition with_unutilized_cpu (item : ContainerKey * ContainerMetrics)
  : ContainerMetrics :=
  set_unutilized_cpu
    (max_float 0 (cpu_request (snd item) - max_cpu_usage (snd item)))
    (snd item).

(** Whether a delivered series has at least one point. *)
Definition has_points {T : Type} (delivery : T * TimeSeries) : bool :=
  match points (snd delivery) with [] => false | _ :: _ => true end.

(** The field a query is responsible for still holds its default 0. *)
Definition memory_field_zero (q : memory_query) (c : ContainerMetrics) : Prop :=
  match q with
  | avg_memory_request_utilization_q => avg_memory_request_utilization c = 0%Q
  | max_memory_usage_q => max_memory_usage c = 0
  | avg_memory_usage_q => avg_memory_usage c = 0%Q
  | memory_request_q => memory_request c = 0
  end.

Definition cpu_field_zero (q : cpu_query) (c : ContainerMetrics) : Prop :=
  match q with
  | avg_cpu_request_utilization_q => avg_cpu_request_utilization c = 0%Q
  | max_cpu_usage_q => max_cpu_usage c = 0%Q
  | avg_cpu_usage_q => avg_cpu_usage c = 0%Q
  | cpu_request_q => cpu_request c = 0%Q
  end.

(** All five fields of a family hold their default 0. *)
Definition memory_fields_zero (c : ContainerMetrics) : Prop :=
  (forall q, memory_field_zero q c) /\ unutilized_memory c = 0.

Definition cpu_fields_zero (c : ContainerMetrics) : Prop :=
  (forall q, cpu_field_zero q c) /\ unutilized_cpu c = 0%Q.

(** The exception each loop body ends with on a series with no points. *)
Definition memory_exception (q : memory_query) : exception :=
  match q with
  | avg_memory_request_utilization_q => StatisticsError
  | max_memory_usage_q => ValueError
  | avg_memory_usage_q => StatisticsError
  | memory_request_q => IndexError
  end.

Definition cpu_exception (q : cpu_query) : exception :=
  match q with
  | avg_cpu_request_utilization_q => StatisticsError
  | max_cpu_usage_q => ValueError
  | avg_cpu_usage_q => IndexError
  | cpu_request_q => IndexError
  end.

Definition is_clean (c : ContainerMetrics) : Prop :=
  contains "overprovisioner" (container_name c) = false.



(** What holds of every entry of the table a gather on a new client
    leaves: the key is the identity of the record, the fields of the
    other family are 0, and so is each field whose query delivered no
    series for the key. *)
Definition memory_entry_ok (deliveries : list (memory_query * TimeSeries))
  (item : ContainerKey * ContainerMetrics) : Prop :=
  key_of (snd item) = fst item
  /\ cpu_fields_zero (snd item)
  /\ forall q,
       (forall s, In (q, s) deliveries -> container_key s <> fst item) ->
       memory_field_zero q (snd item).

Definition cpu_entry_ok (deliveries : list (cpu_query * TimeSeries))
  (item : ContainerKey * ContainerMetrics) : Prop :=
  key_of (snd item) = fst item
  /\ memory_fields_zero (snd item)
  /\ forall q,
       (forall s, In (q, s) deliveries -> container_key s <> fst item) ->
       cpu_field_zero q (snd item).

(** ** The table a gather leaves, key by key *)

Definition memory_query_eqb (a b : memory_query) : bool :=
  match a, b with
  | avg_memory_request_utilization_q, avg_memory_request_utilization_q
  | max_memory_usage_q, max_memory_usage_q
  | avg_memory_usage_q, avg_memory_usage_q
  | memory_request_q, memory_request_q => true
  | _, _ => false
  end.

Definition cpu_query_eqb (a b : cpu_query) : bool :=
  match a, b with
  | avg_cpu_request_utilization_q, avg_cpu_request_utilization_q
  | max_cpu_usage_q, max_cpu_usage_q
  | avg_cpu_usage_q, avg_cpu_usage_q
  | cpu_request_q, cpu_request_q => true
  | _, _ => false
  end.

(** The series one query was answered with, in the order delivered. *)
Definition stream {T : Type} (eqb : T -> T -> bool) (q : T)
  (deliveries : list (T * TimeSeries)) : list (T * TimeSeries) :=
  List.filter (fun delivery => eqb (fst delivery) q) deliveries.

(** Two schedules that hand each query the same series in the same
    order. *)
Definition same_streams {T : Type} (eqb : T -> T -> bool)
  (l l' : list (T * TimeSeries)) : Prop :=
  forall q, stream eqb q l = stream eqb q l'.

(** What one delivery does to the record under key [k]: nothing when the
    series has another key; else the write of its query, on the record
    there or on a fresh one. *)
Definition deliver {T : Type}
  (write : T -> TimeSeries -> result (ContainerMetrics -> ContainerMetrics))
  (k : ContainerKey) (acc : option ContainerMetrics)
  (delivery : T * TimeSeries) : option ContainerMetrics :=
  if key_eqb (container_key (snd delivery)) k then
    match write (fst delivery) (snd delivery) with
    | Ok set =>
        Some (set (match acc with
                   | Some c => c
                   | None => fresh (snd delivery)
                   end))
    | Raise _ => acc
    end
  else acc.

Definition record_under {T : Type}
  (write : T -> TimeSeries -> result (ContainerMetrics -> ContainerMetrics))
  (k : ContainerKey) (deliveries : list (T * TimeSeries))
  (acc : option ContainerMetrics) : option ContainerMetrics :=
  fold_left (deliver write k) deliveries acc.

(** The keys of a table in insertion order: a key is added, last, the
    first time it is seen. *)
Definition note_key (seen : list ContainerKey) (k : ContainerKey)
  : list ContainerKey :=
  if existsb (key_eqb k) seen then seen else seen ++ [k].

Definition keys_in_order {T : Type} (deliveries : list (T * TimeSeries))
  (seen : list ContainerKey) : list ContainerKey :=
  fold_left note_key
    (map (fun delivery => container_key (snd delivery)) deliveries) seen.

(** The answer of a call on a new client, computed key by key: for each
    key in the order first seen, the record the deliveries for that key
    build, left out when its container is an overprovisioner, with the
    unutilized value derived. *)
Definition memory_answer (deliveries : list (memory_query * TimeSeries))
  : list ContainerMetrics :=
  flat_map
    (fun k =>
       match record_under memory_write k deliveries None with
       | Some c =>
           if contains "overprovisioner" (container_name c) then []
           else [with_unutilized_memory (k, c)]
       | None => []
       end)
    (keys_in_order deliveries []).

Definition cpu_answer (deliveries : list (cpu_query * TimeSeries))
  : list ContainerMetrics :=
  flat_map
    (fun k =>
       match record_under cpu_write k deliveries None with
       | Some c =>
           if contains "overprovisioner" (container_name c) then []
           else [with_unutilized_cpu (k, c)]
       | None => []
       end)
    (keys_in_order deliveries []).

(** Whether the container a key names is not an overprovisioner. *)
Definition key_is_clean (k : ContainerKey) : bool :=
  negb (contains "overprovisioner" (snd (fst k))).

(** Two records agree on their names and on the five fields of a
    family. *)
Definition same_memory_fields (c c' : ContainerMetrics) : Prop :=
  key_of c' = key_of c
  /\ memory_request c' = memory_request c
  /\ avg_memory_usage c' = avg_memory_usage c
  /\ avg_memory_request_utilization c' = avg_memory_request_utilization c
  /\ max_memory_usage c' = max_memory_usage c
  /\ unutilized_memory c' = unutilized_memory c.

Definition same_cpu_fields (c c' : ContainerMetrics) : Prop :=
  key_of c' = key_of c
  /\ cpu_request c' = cpu_request c
  /\ avg_cpu_usage c' = avg_cpu_usage c
  /\ avg_cpu_request_utilization c' = avg_cpu_request_utilization c
  /\ max_cpu_usage c' = max_cpu_usage c
  /\ unutilized_cpu c' = unutilized_cpu c.

End MetricsClient.

(** * termcolor and tabulate, as far as the formatters use them *)

Inductive color : Type := red | yellow | green.

(** The text of a table cell, kept as the pieces the f-strings put
    together. *)
Inductive text : Type :=
| Str (s : string)                      (* a plain string *)
| Num (n : Z)                           (* an int, as [str(n)] *)
| Fixed0 (x : Q) (suffix : string)      (* f'{x:.0f}suffix' *)
| Percent0 (x : Q)                      (* f'{x:.0%}' *)
| Whole (n : Z) (suffix : string)       (* f'{n}suffix' *)
| Colored (t : text) (c : color)        (* termcolor.colored(text=t, color=c) *)
| WithParen (n : Z) (t : text).         (* f'{n} ({t})' *)

(** [tabulate.tabulate(tabular_data=rows, headers=headers)] *)
Record Tabulated : Type := {
  tabular_data : list (list text);
  headers : list string;
}.

(** [l.sort(key=key, reverse=True)]: a stable sort, greatest key first;
    records with equal keys keep their order. *)
Section SortDescending.
Context {A K : Type}.
Variable ltb : K -> K -> bool.
Variable key : A -> K.

(** [a] may stand before [b]: the key of [a] is not below the key of [b]. *)
Definition not_below (a b : A) : Prop := ltb (key a) (key b) = false.

Fixpoint insert_descending (x : A) (l : list A) : list A :=
  match l with
  | [] => [x]
  | y :: l' =>
      if ltb (key x) (key y) then y :: insert_descending x l'
      else x :: y :: l'
  end.

Fixpoint sort_descending (l : list A) : list A :=
  match l with
  | [] => []
  | x :: l' => insert_descending x (sort_descending l')
  end.
End SortDescending.

(** * metrics_server.py *)

Module MetricsServer.
Import MetricsClient.

Inductive OutputFormat : Type := table | json | csv.
Inductive MetricType : Type := memory | cpu.

(** [value < 0.3], [value < 0.6]: the literals are doubles. *)
Definition percentage_color (value : Q) : color :=
  if Qltb value (binary64 (3 # 10)) then red
  else if Qltb value (binary64 (6 # 10)) then yellow
  else green.

Definition percentage_gradient (value : Q) : text :=
  Colored (Percent0 value) (percentage_color value).

(** [int(value / 1024 ** 2)]: the quotient of the two ints is the double
    nearest to it. *)
Definition value_in_mb (value : Z) : Z :=
  int_of_float (binary64 (inject_Z value / inject_Z (1024 ^ 2))).

Definition memory_bytes_color (value : Z) : color :=
  if value_in_mb value >? 200 then red
  else if value_in_mb value >? 100 then yellow
  else green.

Definition memory_bytes_gradient (value : Z) : text :=
  Colored (Whole (value_in_mb value) "M") (memory_bytes_color value).

(** [int(value * 1000)]: the product is the double nearest to it. *)
Definition value_in_milicores (value : Q) : Z :=
  int_of_float (binary64 (value * inject_Z 1000)).

Definition cpu_color (value : Q) : color :=
  if value_in_milicores value >? 1000 then red
  else if value_in_milicores value >? 100 then yellow
  else green.

Definition cpu_gradient (value : Q) : text :=
  Colored (Num (value_in_milicores value)) (cpu_color value).

(** ** The memory table *)

Definition memory_row (metric : ContainerMetrics) : list text :=
  [ Str (namespace metric);
    Str (top_level_controller_name metric ++ "/" ++ container_name metric);
    Fixed0 (inject_Z (memory_request metric) / inject_Z (1024 ^ 2)) "M";
    Fixed0 (avg_memory_usage metric / inject_Z (1024 ^ 2)) "M";
    Fixed0 (inject_Z (max_memory_usage metric) / inject_Z (1024 ^ 2)) "M";
    percentage_gradient (avg_memory_request_utilization metric);
    memory_bytes_gradient (unutilized_memory metric) ].

Definition memory_headers : list string :=
  [ "Namespace"; "Deployment/Container"; "Request"; "Avg"; "Max";
    "Avg Utilization"; "Unutilized" ]%string.

(** [metrics.sort] reorders the caller's list in place; the model returns
    the table only. *)
Definition format_memory_metrics_as_table (metrics : list ContainerMetrics)
  : result Tabulated :=
  let metrics := sort_descending Z.ltb unutilized_memory metrics in
  let table := map memory_row metrics in
  mean_utilization <-
    div_float_int (sum_float (map avg_memory_request_utilization metrics))
      (len metrics) ;;
  let total_avg_memory_request_utilization :=
    percentage_gradient mean_utilization in
  total_avg_memory_usage <-
    div_float_int (sum_float (map avg_memory_usage metrics)) (len metrics) ;;
  let total_avg_memory_request := sum_int (map memory_request metrics) in
  let total_unutilized_memory := sum_int (map unutilized_memory metrics) in
  let table := table ++
    [ [ Str "Total";
        Str EmptyString;
        Fixed0 (inject_Z total_avg_memory_request / inject_Z (1024 ^ 3)) " GB";
        Fixed0 (total_avg_memory_usage / inject_Z (1024 ^ 2)) "M";
        Str EmptyString;
        total_avg_memory_request_utilization;
        Fixed0 (inject_Z total_unutilized_memory / inject_Z (1024 ^ 3)) " GB" ] ] in
  Ok {| tabular_data := table; headers := memory_headers |}.

(** ** The CPU table *)

Definition cpu_row (metric : ContainerMetrics) : list text :=
  [ Str (namespace metric);
    Str (top_level_controller_name metric ++ "/" ++ container_name metric);
    Num (int_of_float (cpu_request metric * inject_Z 1000));
    WithParen (int_of_float (avg_cpu_usage metric * inject_Z 1000))
      (percentage_gradient (avg_cpu_request_utilization metric));
    Num (int_of_float (max_cpu_usage metric * inject_Z 1000));
    cpu_gradient (unutilized_cpu metric) ].

Definition cpu_headers : list string :=
  [ "Namespace"; "Deployment/Container"; "Request"; "Avg"; "Max";
    "Unutilized" ]%string.

Definition format_cpu_metrics_as_table (metrics : list ContainerMetrics)
  : result Tabulated :=
  let metrics := sort_descending Qltb unutilized_cpu metrics in
  let table := map cpu_row metrics in
  mean_utilization <-
    div_float_int (sum_float (map avg_cpu_request_utilization metrics))
      (len metrics) ;;
  let total_avg_cpu_request_utilization :=
    percentage_gradient mean_utilization in
  total_avg_cpu_usage <-
    div_float_int (sum_float (map avg_cpu_usage metrics)) (len metrics) ;;
  let total_avg_cpu_request := sum_float (map cpu_request metrics) in
  let total_unutilized_cpu := sum_float (map unutilized_cpu metrics) in
  let table := table ++
    [ [ Str "Total";
        Str EmptyString;
        Num (int_of_float (total_avg_cpu_request * inject_Z 1000));
        Num (int_of_float (total_avg_cpu_usage * inject_Z 1000));
        Str EmptyString;
        Num (int_of_float (total_unutilized_cpu * inject_Z 1000)) ] ] in
  Ok {| tabular_data := table; headers := cpu_headers |}.

(** ** [format_metrics] *)

(** What the handler hands back to the framework. *)
Inductive returned : Type :=
| Response (content : Tabulated)           (* fastapi.Response(content=table + newline) *)
| Records (metrics : list ContainerMetrics) (* the list itself *)
| ReturnedNone.                            (* the function falls off its end *)

Definition format_metrics (metric_type : MetricType)
  (output_format : OutputFormat) (metrics : list ContainerMetrics)
  : result returned :=
  match output_format with
  | table =>
      table <-
        match metric_type with
        | memory => format_memory_metrics_as_table metrics
        | cpu => format_cpu_metrics_as_table metrics
        end ;;
      Ok (Response table)
  | json => Ok (Records metrics)
  | csv => Ok ReturnedNone
  end.



(** The order of the rows: the record above has at least the unutilized
    value of the record below. *)
Definition by_unutilized_memory (a b : ContainerMetrics) : Prop :=
  unutilized_memory b <= unutilized_memory a.

Definition by_unutilized_cpu (a b : ContainerMetrics) : Prop :=
  (unutilized_cpu b <= unutilized_cpu a)%Q.

(** ** [get_metrics] *)

(** The handler of GET /metrics/{metric_type}. The client is new, so its
    table is empty; of the two delivery lists (what the backend answers
    to the four queries of each family) only the one of the family asked
    for is used. Project, namespaces and duration shape the requests
    only. *)
Definition get_metrics (metric_type : MetricType)
  (output_format : OutputFormat)
  (memory_deliveries : list (memory_query * Monitoring.TimeSeries))
  (cpu_deliveries : list (cpu_query * Monitoring.TimeSeries))
  : result returned :=
  answer <-
    match metric_type with
    | memory => query_memory_utilization memory_deliveries []
    | cpu => query_cpu_utilization cpu_deliveries []
    end ;;
  format_metrics metric_type output_format (snd answer).

(** How alarming a colour is. *)
Definition severity (c : color) : Z :=
  match c with green => 0 | yellow => 1 | red => 2 end.

End MetricsServer.

(** * kube-utilization-monitor.py *)

Module Monitor.
Import Monitoring.

(** The script's own record: four stored fields and a property. *)
Record ContainerMetrics : Type := {
  container_name : string;
  top_level_controller_name : string;
  namespace : string;
  memory_request : Z;
  avg_memory_usage : Q;
  avg_memory_request_utilization : Q;
  max_memory_usage : Z;
}.

(** The [unutilized_memory] property. *)
Definition unutilized_memory (self : ContainerMetrics) : Z :=
  max_int 0 (memory_request self - max_memory_usage self).

Definition new_ContainerMetrics (ns cn tl : string) : ContainerMetrics :=
  {| container_name := cn; top_level_controller_name := tl; namespace := ns;
     memory_request := 0; avg_memory_usage := 0;
     avg_memory_request_utilization := 0; max_memory_usage := 0 |}.

Definition set_memory_request (v : Z) (c : ContainerMetrics) :=
  {| container_name := container_name c;
     top_level_controller_name := top_level_controller_name c;
     namespace := namespace c;
     memory_request := v;
     avg_memory_usage := avg_memory_usage c;
     avg_memory_request_utilization := avg_memory_request_utilization c;
     max_memory_usage := max_memory_usage c |}.

Definition set_avg_memory_usage (v : Q) (c : ContainerMetrics) :=
  {| container_name := container_name c;
     top_level_controller_name := top_level_controller_name c;
     namespace := namespace c;
     memory_request := memory_request c;
     avg_memory_usage := v;
     avg_memory_request_utilization := avg_memory_request_utilization c;
     max_memory_usage := max_memory_usage c |}.

Definition set_avg_memory_request_utilization (v : Q) (c : ContainerMetrics) :=
  {| container_name := container_name c;
     top_level_controller_name := top_level_controller_name c;
     namespace := namespace c;
     memory_request := memory_request c;
     avg_memory_usage := avg_memory_usage c;
     avg_memory_request_utilization := v;
     max_memory_usage := max_memory_usage c |}.

Definition set_max_memory_usage (v : Z) (c : ContainerMetrics) :=
  {| container_name := container_name c;
     top_level_controller_name := top_level_controller_name c;
     namespace := namespace c;
     memory_request := memory_request c;
     avg_memory_usage := avg_memory_usage c;
     avg_memory_request_utilization := avg_memory_request_utilization c;
     max_memory_usage := v |}.

Definition container_metrics_t : Type :=
  dict MetricsClient.ContainerKey ContainerMetrics.

Definition key_eqb := MetricsClient.key_eqb.

Definition container_key (metrics : TimeSeries) : MetricsClient.ContainerKey :=
  (namespace_name metrics, container_name_label metrics,
   top_level_controller_name_label metrics).

(** [int(datetime.timedelta(days=duration_days).total_seconds())] *)
Definition duration (duration_days : Z) : Z := duration_days * 86400.

(** ** [UtilizationMonitor.query] *)

Definition query (project : string) (namespaces : option (list string))
  (duration_days : Z)
  (aligner : Aligner) (reducer : Reducer) (query_filter : string)
  : ListTimeSeriesRequest :=
  let query_filter :=
    if MetricsClient.truthy namespaces
    then (query_filter ++ " AND ("
            ++ join " OR "
                 (map MetricsClient.namespace_clause
                    (MetricsClient.namespaces_list namespaces))
            ++ ")")%string
    else query_filter in
  {| name := ("projects/" ++ project)%string;
     filter := query_filter;
     alignment_period_seconds := duration duration_days;
     per_series_aligner := aligner;
     cross_series_reducer := reducer;
     group_by_fields :=
       [ "resource.labels.namespace_name"%string;
         "resource.container_name"%string;
         "metadata.system_labels.top_level_controller_name"%string ] |}.

Inductive memory_query : Type :=
| avg_memory_request_utilization_q
| max_memory_usage_q
| avg_memory_usage_q
| memory_request_q.

Definition memory_query_request (project : string)
  (namespaces : option (list string)) (duration_days : Z) (q : memory_query)
  : ListTimeSeriesRequest :=
  match q with
  | avg_memory_request_utilization_q =>
      query project namespaces duration_days ALIGN_MEAN REDUCE_MEAN
        (MetricsClient.metric_type
           "kubernetes.io/container/memory/request_utilization")
  | max_memory_usage_q =>
      query project namespaces duration_days ALIGN_MAX REDUCE_MAX
        (MetricsClient.metric_type "kubernetes.io/container/memory/used_bytes")
  | avg_memory_usage_q =>
      query project namespaces duration_days ALIGN_MEAN REDUCE_MEAN
        (MetricsClient.metric_type "kubernetes.io/container/memory/used_bytes")
  | memory_request_q =>
      query project namespaces duration_days ALIGN_MAX REDUCE_MAX
        (MetricsClient.metric_type
           "kubernetes.io/container/memory/request_bytes")
  end.

(** ** [upsert_container] and the four loop bodies *)

Definition upsert_container (metrics : TimeSeries) (d : container_metrics_t)
  : container_metrics_t * ContainerMetrics :=
  match dict_get key_eqb (container_key metrics) d with
  | Some container => (d, container)
  | None =>
      let container :=
        new_ContainerMetrics (namespace_name metrics)
          (container_name_label metrics)
          (top_level_controller_name_label metrics) in
      (dict_set key_eqb (container_key metrics) container d, container)
  end.

Definition assign (metrics : TimeSeries)
  (set : ContainerMetrics -> ContainerMetrics)
  (state : container_metrics_t * ContainerMetrics) : container_metrics_t :=
  let '(d, container) := state in
  dict_set key_eqb (container_key metrics) (set container) d.

Definition avg_memory_request_utilization_body (metrics : TimeSeries)
  (d : container_metrics_t) : result container_metrics_t :=
  let state := upsert_container metrics d in
  p <- first (points metrics) ;;
  Ok (assign metrics
        (set_avg_memory_request_utilization (double_value (value p))) state).

Definition max_memory_usage_body (metrics : TimeSeries)
  (d : container_metrics_t) : result container_metrics_t :=
  let state := upsert_container metrics d in
  p <- first (points metrics) ;;
  Ok (assign metrics (set_max_memory_usage (int64_value (value p))) state).

Definition avg_memory_usage_body (metrics : TimeSeries)
  (d : container_metrics_t) : result container_metrics_t :=
  let state := upsert_container metrics d in
  p <- first (points metrics) ;;
  Ok (assign metrics (set_avg_memory_usage (double_value (value p))) state).

Definition memory_request_body (metrics : TimeSeries)
  (d : container_metrics_t) : result container_metrics_t :=
  let state := upsert_container metrics d in
  p <- first (points metrics) ;;
  Ok (assign metrics (set_memory_request (int64_value (value p))) state).

Definition memory_body (q : memory_query) :=
  match q with
  | avg_memory_request_utilization_q => avg_memory_request_utilization_body
  | max_memory_usage_q => max_memory_usage_body
  | avg_memory_usage_q => avg_memory_usage_body
  | memory_request_q => memory_request_body
  end.

Definition gather_memory (deliveries : list (memory_query * TimeSeries))
  (d : container_metrics_t) : result container_metrics_t :=
  for_each (fun delivery => memory_body (fst delivery) (snd delivery))
    deliveries d.

(** ** [query_metrics] *)

Definition overprovisioner_pass (d : container_metrics_t)
  (item : MetricsClient.ContainerKey * ContainerMetrics)
  : container_metrics_t :=
  let '(container_key, metrics) := item in
  if contains "overprovisioner" (container_name metrics)
  then dict_del key_eqb container_key d
  else d.

Definition query_metrics (deliveries : list (memory_query * TimeSeries))
  (d : container_metrics_t) : result container_metrics_t :=
  d <- gather_memory deliveries d ;;
  Ok (fold_left overprovisioner_pass d d).

(** ** [print_utilization] *)

(** [value < 0.3], [value < 0.6]: the literals are doubles. *)
Definition percentage_color (value : Q) : color :=
  if Qltb value (binary64 (3 # 10)) then red
  else if Qltb value (binary64 (6 # 10)) then yellow
  else green.

Definition percentage_gradient (value : Q) : text :=
  Colored (Percent0 value) (percentage_color value).

Definition value_in_mb (value : Z) : Z :=
  int_of_float (binary64 (inject_Z value / inject_Z (1024 ^ 2))).

Definition mb_color (value : Z) : color :=
  if value_in_mb value >? 200 then red
  else if value_in_mb value >? 100 then yellow
  else green.

Definition mb_gradient (value : Z) : text :=
  Colored (Whole (value_in_mb value) " MB") (mb_color value).

Definition report_row (metrics : ContainerMetrics) : list text :=
  [ Str (namespace metrics);
    Str (top_level_controller_name metrics ++ "/" ++ container_name metrics);
    Fixed0 (inject_Z (memory_request metrics) / inject_Z (1024 ^ 2)) " MB";
    Fixed0 (avg_memory_usage metrics / inject_Z (1024 ^ 2)) " MB";
    Fixed0 (inject_Z (max_memory_usage metrics) / inject_Z (1024 ^ 2)) " MB";
    percentage_gradient (avg_memory_request_utilization metrics);
    mb_gradient (unutilized_memory metrics) ].

Definition report_headers : list string :=
  [ "Namespace"; "Deployment/Container"; "Mem Req"; "Avg Mem Usage";
    "Max Mem Usage"; "Avg Mem Req Util"; "Unutilized Mem" ]%string.

(** The result is the table handed to [print]. *)
Definition print_utilization (deliveries : list (memory_query * TimeSeries))
  (d : container_metrics_t) : result Tabulated :=
  d <- query_metrics deliveries d ;;
  let container_metrics :=
    sort_descending Z.ltb unutilized_memory (values d) in
  let table := map report_row container_metrics in
  mean_utilization <-
    div_float_int
      (sum_float (map avg_memory_request_utilization container_metrics))
      (len container_metrics) ;;
  let total_avg_memory_request_utilization :=
    percentage_gradient mean_utilization in
  total_avg_memory_usage <-
    div_float_int (sum_float (map avg_memory_usage container_metrics))
      (len container_metrics) ;;
  let total_avg_memory_request :=
    sum_int (map memory_request container_metrics) in
  let total_unutilized_memory :=
    sum_int (map unutilized_memory container_metrics) in
  let table := table ++
    [ [ Str "Total";
        Str EmptyString;
        Fixed0 (inject_Z total_avg_memory_request / inject_Z (1024 ^ 3)) " GB";
        Fixed0 (total_avg_memory_usage / inject_Z (1024 ^ 2)) " MB";
        Str EmptyString;
        total_avg_memory_request_utilization;
        Fixed0 (inject_Z total_unutilized_memory / inject_Z (1024 ^ 3)) " GB" ] ] in
  Ok {| tabular_data := table; headers := report_headers |}.

Definition memory_write (q : memory_query) (metrics : TimeSeries)
  : result (ContainerMetrics -> ContainerMetrics) :=
  p <- first (points metrics) ;;
  Ok (match q with
      | avg_memory_request_utilization_q =>
          set_avg_memory_request_utilization (double_value (value p))
      | max_memory_usage_q => set_max_memory_usage (int64_value (value p))
      | avg_memory_usage_q => set_avg_memory_usage (double_value (value p))
      | memory_request_q => set_memory_request (int64_value (value p))
      end).

Definition is_overprovisioner
  (item : MetricsClient.ContainerKey * ContainerMetrics) : bool :=
  contains "overprovisioner" (container_name (snd item)).

Definition is_clean (c : ContainerMetrics) : Prop :=
  contains "overprovisioner" (container_name c) = false.

(** The order of the report: the record above has at least the
    unutilized memory of the record below. *)
Definition by_unutilized_memory (a b : ContainerMetrics) : Prop :=
  unutilized_memory b <= unutilized_memory a.

End Monitor.

(** * Concrete inputs used below *)

Module Examples.
Import Monitoring.

Definition int_point (n : Z) : Point :=
  {| value := {| int64_value := n; double_value := 0 |} |}.

Definition double_point (x : Q) : Point :=
  {| value := {| int64_value := 0; double_value := x |} |}.

Definition series (ns cn tl : string) (ps : list Point) : TimeSeries :=
  {| namespace_name := ns; container_name_label := cn;
     top_level_controller_name_label := tl; points := ps |}.

(** A web container of deployment shop in namespace ns-a. *)
Definition web (ps : list Point) : TimeSeries := series "ns-a" "web" "shop" ps.

(** The sidecar the clients drop. *)
Definition sidecar (ps : list Point) : TimeSeries :=
  series "ns-a" "cluster-overprovisioner" "overprovisioner" ps.

Definition web_key : MetricsClient.ContainerKey :=
  ("ns-a", "web", "shop")%string.

(** One series per memory query for the web container, and the sidecar. *)
Definition memory_deliveries
  : list (MetricsClient.memory_query * TimeSeries) :=
  [ (MetricsClient.max_memory_usage_q, web [int_point 100; int_point 350]);
    (MetricsClient.memory_request_q, sidecar [int_point 4096]);
    (MetricsClient.memory_request_q, web [int_point 500]);
    (MetricsClient.avg_memory_usage_q, web [double_point 90; double_point 110]);
    (MetricsClient.avg_memory_request_utilization_q,
      web [double_point (1 # 5); double_point (2 # 5)]) ].

Definition cpu_deliveries : list (MetricsClient.cpu_query * TimeSeries) :=
  [ (MetricsClient.cpu_request_q, web [double_point 2]);
    (MetricsClient.max_cpu_usage_q,
      web [double_point (1 # 2); double_point (3 # 4)]);
    (MetricsClient.avg_cpu_usage_q, sidecar [double_point (1 # 10)]);
    (MetricsClient.avg_cpu_request_utilization_q,
      web [double_point (1 # 4)]) ].

Definition monitor_deliveries : list (Monitor.memory_query * TimeSeries) :=
  [ (Monitor.max_memory_usage_q, web [int_point 350]);
    (Monitor.memory_request_q, sidecar [int_point 4096]);
    (Monitor.memory_request_q, web [int_point 500]) ].

(** Usage results only: no request-bytes series for the container. *)
Definition usage_only : list (MetricsClient.memory_query * TimeSeries) :=
  [ (MetricsClient.max_memory_usage_q, web [int_point 100; int_point 350]);
    (MetricsClient.avg_memory_usage_q, web [double_point 90]) ].

(** A series whose points list is empty. *)
Definition no_points : TimeSeries := web [].

(** Two records as the client returns them: 500 MiB requested and 100 MiB
    peak, 300 MiB requested and 350 MiB peak; 2 cores requested and half
    a core peak, 1 core requested and 3 cores peak. *)
Definition container (cn : string) (request_mib peak_mib : Z)
  (cpu_request cpu_peak : Q) : MetricsClient.ContainerMetrics :=
  {| MetricsClient.container_name := cn;
     MetricsClient.top_level_controller_name := "shop";
     MetricsClient.namespace := "ns-a";
     MetricsClient.memory_request := request_mib * 1024 ^ 2;
     MetricsClient.avg_memory_usage := inject_Z (peak_mib * 1024 ^ 2) / 2;
     MetricsClient.avg_memory_request_utilization := 1 # 2;
     MetricsClient.max_memory_usage := peak_mib * 1024 ^ 2;
     MetricsClient.unutilized_memory :=
       max_int 0 (request_mib * 1024 ^ 2 - peak_mib * 1024 ^ 2);
     MetricsClient.cpu_request := cpu_request;
     MetricsClient.avg_cpu_usage := cpu_peak / 2;
     MetricsClient.avg_cpu_request_utilization := 1 # 4;
     MetricsClient.max_cpu_usage := cpu_peak;
     MetricsClient.unutilized_cpu := max_float 0 (cpu_request - cpu_peak) |}.

Definition two_containers : list MetricsClient.ContainerMetrics :=
  [ container "db" 300 350 1 3; container "web" 500 100 2 (1 # 2) ].

(** What the client and the monitor make of the example deliveries. *)
Definition memory_table : MetricsClient.container_metrics_t :=
  Eval vm_compute in
    match MetricsClient.query_memory_utilization memory_deliveries [] with
    | Ok (d, _) => d
    | Raise _ => []
    end.

Definition cpu_table : MetricsClient.container_metrics_t :=
  Eval vm_compute in
    match MetricsClient.query_cpu_utilization cpu_deliveries [] with
    | Ok (d, _) => d
    | Raise _ => []
    end.

Definition usage_only_table : MetricsClient.container_metrics_t :=
  Eval vm_compute in
    match MetricsClient.query_memory_utilization usage_only [] with
    | Ok (d, _) => d
    | Raise _ => []
    end.

Definition monitor_table : Monitor.container_metrics_t :=
  Eval vm_compute in
    match Monitor.query_metrics monitor_deliveries [] with
    | Ok d => d
    | Raise _ => []
    end.

Definition monitor_report : Tabulated :=
  Eval vm_compute in
    match Monitor.print_utilization monitor_deliveries [] with
    | Ok t => t
    | Raise _ => {| tabular_data := []; headers := [] |}
    end.

Definition usage_only_record : MetricsClient.ContainerMetrics :=
  Eval vm_compute in
    hd (MetricsClient.new_ContainerMetrics EmptyString EmptyString EmptyString)
      (values usage_only_table).

(** The table the gather of the example leaves, before the closing
    loop. *)
Definition memory_gathered : MetricsClient.container_metrics_t :=
  Eval vm_compute in
    match MetricsClient.gather_memory memory_deliveries [] with
    | Ok d => d
    | Raise _ => []
    end.

(** The same four streams, delivered in another order. *)
Definition memory_deliveries_reordered
  : list (MetricsClient.memory_query * TimeSeries) :=
  [ (MetricsClient.memory_request_q, sidecar [int_point 4096]);
    (MetricsClient.avg_memory_request_utilization_q,
      web [double_point (1 # 5); double_point (2 # 5)]);
    (MetricsClient.memory_request_q, web [int_point 500]);
    (MetricsClient.avg_memory_usage_q, web [double_point 90; double_point 110]);
    (MetricsClient.max_memory_usage_q, web [int_point 100; int_point 350]) ].

(** The client used again: a CPU call on the table the memory call
    left. *)
Definition both_table : MetricsClient.container_metrics_t :=
  Eval vm_compute in
    match MetricsClient.query_cpu_utilization cpu_deliveries memory_table with
    | Ok (d, _) => d
    | Raise _ => []
    end.

Definition web_after_memory : MetricsClient.ContainerMetrics :=
  Eval vm_compute in
    hd (MetricsClient.new_ContainerMetrics EmptyString EmptyString EmptyString)
      (values memory_table).

(** Two request-bytes series for the same container, one after the
    other. *)
Definition earlier_request : TimeSeries := web [int_point 800].
Definition later_request : TimeSeries := web [int_point 500; int_point 700].

(** Records in another order than the table shows them, two of them
    with the same unutilized values. *)
Definition three_containers : list MetricsClient.ContainerMetrics :=
  [ container "db" 300 350 1 3; container "web" 500 100 2 (1 # 2);
    container "cache" 200 260 1 2 ].

End Examples.

(** * Numbers: what the Python operations compute *)

Lemma Qltb_lt (x y : Q) : Qltb x y = true <-> (x < y)%Q.
Proof. unfold Qltb, Qlt. apply Z.ltb_lt. Qed.

Lemma Qltb_ge (x y : Q) : Qltb x y = false <-> (y <= x)%Q.
Proof. unfold Qltb, Qle. apply Z.ltb_ge. Qed.

Lemma max_int_max (a b : Z) : max_int a b = Z.max a b.
Proof. unfold max_int. destruct (Z.ltb_spec a b); lia. Qed.



Lemma int_of_float_inject_Z (n : Z) : int_of_float (inject_Z n) = n.
Proof. unfold int_of_float. simpl. apply Z.quot_1_r. Qed.

Lemma int_of_float_div_pos (n : Z) (p : positive) :
  int_of_float (inject_Z n / inject_Z (Zpos p)) = Z.quot n (Zpos p).
Proof.
  unfold int_of_float, Qdiv, Qmult, Qinv, inject_Z. simpl.
  rewrite Z.mul_1_r. reflexivity.
Qed.

(** [int(x)] is the integer part: a positive integer is at or below
    [int(x)] exactly when it is at or below [x]. *)
Lemma int_of_float_ge (x : Q) (k : Z) :
  0 < k -> (k <= int_of_float x <-> (inject_Z k <= x)%Q).
Proof.
  intros Hk. unfold int_of_float, Qle, inject_Z. simpl.
  destruct x as [n d]. simpl. rewrite Z.mul_1_r.
  pose proof (Pos2Z.is_pos d) as Hd.
  pose proof (Z.quot_rem' n (Zpos d)) as E.
  destruct (Z.le_gt_cases 0 n) as [Hn | Hn].
  - pose proof (Z.rem_bound_pos n (Zpos d) Hn Hd) as B.
    split; intros H; nia.
  - assert (Hn' : 0 <= - n) by lia.
    pose proof (Z.rem_bound_pos (- n) (Zpos d) Hn' Hd) as B.
    rewrite Z.rem_opp_l' in B.
    split; intros H; nia.
Qed.

Lemma quot_ge (v d k : Z) :
  0 < k -> 0 < d -> (k <= Z.quot v d <-> k * d <= v).
Proof.
  intros Hk Hd.
  pose proof (Z.quot_rem' v d) as E.
  destruct (Z.le_gt_cases 0 v) as [Hv | Hv].
  - pose proof (Z.rem_bound_pos v d Hv Hd) as B. split; intros H; nia.
  - assert (Hv' : 0 <= - v) by lia.
    pose proof (Z.rem_bound_pos (- v) d Hv' Hd) as B.
    rewrite Z.rem_opp_l' in B. split; intros H; nia.
Qed.

(** * Rounding to the nearest double *)

Lemma int_of_float_Qeq (x y : Q) :
  (x == y)%Q -> int_of_float x = int_of_float y.
Proof.
  unfold Qeq, int_of_float. destruct x as [n1 d1], y as [n2 d2]. simpl.
  intros E.
  rewrite <- (Z.quot_mul_cancel_r n1 (Zpos d1) (Zpos d2)) by lia.
  rewrite <- (Z.quot_mul_cancel_r n2 (Zpos d2) (Zpos d1)) by lia.
  rewrite E. f_equal. lia.
Qed.

Section Rounding.

Lemma round_half_even_spec (n d : Z) :
  0 < d ->
  (2 * d * round_half_even n d - d <= 2 * n <= 2 * d * round_half_even n d + d)
  /\ (2 * n = 2 * d * round_half_even n d - d ->
      Z.even (round_half_even n d) = true)
  /\ (2 * n = 2 * d * round_half_even n d + d ->
      Z.even (round_half_even n d) = true).
Proof.
  intros Hd. unfold round_half_even.
  pose proof (Z.div_mod n d ltac:(lia)) as E.
  pose proof (Z.mod_pos_bound n d Hd) as B.
  set (q := n / d) in *. set (r := n mod d) in *.
  destruct (Z.ltb_spec (2 * r) d) as [L | L].
  - repeat split; intros; nia.
  - destruct (Z.ltb_spec d (2 * r)) as [G | G].
    + repeat split; intros; nia.
    + assert (T : 2 * r = d) by lia.
      destruct (Z.even q) eqn:Ev.
      * repeat split; intros; try nia. exact Ev.
      * assert (Ev' : Z.even (q + 1) = true).
        { rewrite Z.add_1_r, Z.even_succ, <- Z.negb_even, Ev. reflexivity. }
        repeat split; intros; try nia; exact Ev'.
Qed.

Lemma round_half_even_le (n m d : Z) :
  0 < d -> n <= m * d -> round_half_even n d <= m.
Proof.
  intros Hd H. destruct (round_half_even_spec n d Hd) as ((L & _) & _).
  nia.
Qed.

Lemma round_half_even_ge (n m d : Z) :
  0 < d -> m * d <= n -> m <= round_half_even n d.
Proof.
  intros Hd H. destruct (round_half_even_spec n d Hd) as ((_ & R) & _).
  nia.
Qed.

Lemma round_half_even_exact (m d : Z) :
  0 < d -> round_half_even (m * d) d = m.
Proof.
  intros Hd. apply Z.le_antisymm.
  - apply round_half_even_le; lia.
  - apply round_half_even_ge; lia.
Qed.

Lemma round_half_even_mono (n1 d1 n2 d2 : Z) :
  0 < d1 -> 0 < d2 -> n1 * d2 <= n2 * d1 ->
  round_half_even n1 d1 <= round_half_even n2 d2.
Proof.
  intros H1 H2 H.
  destruct (round_half_even_spec n1 d1 H1) as ((La & _) & Ta & _).
  destruct (round_half_even_spec n2 d2 H2) as ((_ & Rb) & _ & Tb).
  set (a := round_half_even n1 d1) in *.
  set (b := round_half_even n2 d2) in *.
  destruct (Z.le_gt_cases a b) as [? | G]; [assumption | exfalso].
  assert (A1 : (2 * b + 1) * d1 <= 2 * n1) by nia.
  assert (B1 : 2 * n2 <= (2 * b + 1) * d2) by nia.
  assert (A2 : (2 * b + 1) * d1 * d2 <= 2 * n1 * d2) by nia.
  assert (B2 : 2 * n2 * d1 <= (2 * b + 1) * d2 * d1) by nia.
  assert (E1 : 2 * n1 * d2 = (2 * b + 1) * d1 * d2) by nia.
  assert (E2 : 2 * n2 * d1 = (2 * b + 1) * d2 * d1) by nia.
  assert (E3 : 2 * n1 = (2 * b + 1) * d1) by nia.
  assert (E4 : 2 * n2 = (2 * b + 1) * d2) by nia.
  assert (E5 : a = b + 1) by nia.
  assert (Ea : Z.even a = true) by (apply Ta; nia).
  assert (Eb : Z.even b = true) by (apply Tb; nia).
  rewrite E5, Z.add_1_r, Z.even_succ, <- Z.negb_even, Eb in Ea.
  discriminate.
Qed.

Lemma div_le_cross (n1 d1 n2 d2 : Z) :
  0 < d1 -> 0 < d2 -> n1 * d2 <= n2 * d1 -> n1 / d1 <= n2 / d2.
Proof.
  intros H1 H2 H. apply Z.div_le_lower_bound; [assumption |].
  pose proof (Z.mul_div_le n1 d1 H1). nia.
Qed.

Lemma binary64_magnitude_nonneg (x : Q) :
  0 <= Qnum x -> (0 <= binary64_magnitude x)%Q.
Proof.
  intros Hx. unfold binary64_magnitude, Qle. cbn [Qnum Qden].
  set (U := Zpos smallest_subnormal_inv).
  assert (HU : 0 < U) by apply Pos2Z.is_pos.
  set (j := Z.max 0 _).
  assert (Hp : 0 < 2 ^ j) by (apply Z.pow_pos_nonneg; lia).
  pose proof (Pos2Z.is_pos (Qden x)) as Hd.
  assert (0 <= round_half_even (Qnum x * U) (QDen x * 2 ^ j)).
  { apply round_half_even_ge; nia. }
  nia.
Qed.

Lemma binary64_magnitude_mono (x y : Q) :
  0 <= Qnum x -> (x <= y)%Q ->
  (binary64_magnitude x <= binary64_magnitude y)%Q.
Proof.
  intros Hx L. unfold Qle in L.
  unfold binary64_magnitude, Qle. cbn [Qnum Qden].
  set (U := Zpos smallest_subnormal_inv).
  assert (HU : 0 < U) by apply Pos2Z.is_pos.
  pose proof (Pos2Z.is_pos (Qden x)) as Hd1.
  pose proof (Pos2Z.is_pos (Qden y)) as Hd2.
  set (d1 := QDen x) in *. set (d2 := QDen y) in *.
  set (n1 := Qnum x * U). set (n2 := Qnum y * U).
  assert (C : n1 * d2 <= n2 * d1) by (unfold n1, n2; nia).
  assert (Hn1 : 0 <= n1) by (unfold n1; nia).
  pose proof (div_le_cross n1 d1 n2 d2 Hd1 Hd2 C) as Q12.
  assert (Q1 : 0 <= n1 / d1) by (apply Z.div_pos; lia).
  set (q1 := n1 / d1) in *. set (q2 := n2 / d2) in *.
  pose proof (Z.log2_le_mono q1 q2 Q12) as LG.
  remember (Z.max 0 (Z.log2 q1 - 52)) as j1 eqn:Ej1.
  remember (Z.max 0 (Z.log2 q2 - 52)) as j2 eqn:Ej2.
  assert (J1 : 0 <= j1) by lia. assert (J2 : 0 <= j2) by lia.
  assert (P1 : 0 < 2 ^ j1) by (apply Z.pow_pos_nonneg; lia).
  assert (P2 : 0 < 2 ^ j2) by (apply Z.pow_pos_nonneg; lia).
  set (a := round_half_even n1 (d1 * 2 ^ j1)).
  set (b := round_half_even n2 (d2 * 2 ^ j2)).
  enough (a * 2 ^ j1 <= b * 2 ^ j2) by nia.
  destruct (Z.eq_dec j1 j2) as [E | N].
  - unfold a, b. rewrite E.
    enough (round_half_even n1 (d1 * 2 ^ j2)
            <= round_half_even n2 (d2 * 2 ^ j2)) by nia.
    apply round_half_even_mono; nia.
  - assert (Lt : j1 < j2) by lia.
    assert (Hq2 : 0 < q2).
    { destruct (Z.le_gt_cases q2 0) as [Z0 | ?]; [| assumption].
      rewrite (Z.log2_nonpos q2 Z0) in Ej2. lia. }
    assert (Eq2 : Z.log2 q2 = 52 + j2) by lia.
    pose proof (Z.log2_spec q2 Hq2) as (S2 & _). rewrite Eq2 in S2.
    rewrite Z.pow_add_r in S2 by lia.
    assert (D2 : d2 * q2 <= n2) by (apply Z.mul_div_le; lia).
    assert (Hb : 2 ^ 52 <= b).
    { apply round_half_even_ge; [nia |]. nia. }
    assert (S1 : q1 < 2 ^ 53 * 2 ^ j1).
    { rewrite <- Z.pow_add_r by lia.
      destruct (Z.eq_dec q1 0) as [-> | Nz].
      - apply Z.pow_pos_nonneg; lia.
      - pose proof (Z.log2_spec q1 ltac:(lia)) as (_ & S1).
        eapply Z.lt_le_trans; [exact S1 |].
        apply Z.pow_le_mono_r; lia. }
    assert (D1 : n1 < d1 * (q1 + 1)).
    { pose proof (Z.mul_succ_div_gt n1 d1 Hd1). unfold q1. lia. }
    assert (Ha : a <= 2 ^ 53).
    { apply round_half_even_le; [nia |]. nia. }
    assert (PP : 2 * 2 ^ j1 <= 2 ^ j2).
    { replace (2 * 2 ^ j1) with (2 ^ (j1 + 1))
        by (rewrite Z.pow_add_r by lia; lia).
      apply Z.pow_le_mono_r; lia. }
    assert (T : 2 ^ 53 = 2 * 2 ^ 52) by reflexivity.
    assert (0 < 2 ^ 52) by lia.
    nia.
Qed.

Lemma binary64_mono (x y : Q) : (x <= y)%Q -> (binary64 x <= binary64 y)%Q.
Proof.
  intros L. unfold binary64. rewrite !Qred_correct.
  destruct (Z.ltb_spec (Qnum x) 0) as [Nx | Px];
    destruct (Z.ltb_spec (Qnum y) 0) as [Ny | Py].
  - apply Qopp_le_compat. apply binary64_magnitude_mono.
    + simpl. lia.
    + now apply Qopp_le_compat.
  - apply Qle_trans with 0%Q.
    + apply (Qopp_le_compat 0). apply binary64_magnitude_nonneg. simpl. lia.
    + now apply binary64_magnitude_nonneg.
  - exfalso. unfold Qle in L.
    pose proof (Pos2Z.is_pos (Qden x)). pose proof (Pos2Z.is_pos (Qden y)).
    nia.
  - now apply binary64_magnitude_mono.
Qed.

Lemma binary64_Qeq (x y : Q) : (x == y)%Q -> binary64 x = binary64 y.
Proof.
  intros E.
  assert (H : (binary64 x == binary64 y)%Q).
  { apply Qle_antisym; apply binary64_mono; rewrite E; apply Qle_refl. }
  unfold binary64 in *. rewrite !Qred_correct in H.
  now apply Qred_complete.
Qed.

(** A number of at most 53 bits, times a power of two that is no
    smaller than the smallest subnormal, is a double. *)
Lemma binary64_magnitude_exact (m e : Z) :
  0 <= m < 2 ^ 53 -> 0 <= e ->
  binary64_magnitude ((m * 2 ^ e) # smallest_subnormal_inv)
  = (m * 2 ^ e) # smallest_subnormal_inv.
Proof.
  intros Hm He. unfold binary64_magnitude. cbn [Qnum Qden].
  set (U := Zpos smallest_subnormal_inv).
  assert (HU : 0 < U) by apply Pos2Z.is_pos.
  rewrite Z.div_mul by lia.
  assert (Pe : 0 < 2 ^ e) by (apply Z.pow_pos_nonneg; lia).
  set (j := Z.max 0 (Z.log2 (m * 2 ^ e) - 52)).
  assert (J : 0 <= j <= e).
  { unfold j. destruct (Z.eq_dec m 0) as [-> | Nz].
    - rewrite Z.mul_0_l. simpl. lia.
    - rewrite Z.log2_mul_pow2 by lia.
      assert (Z.log2 m < 53) by (apply Z.log2_lt_pow2; lia).
      lia. }
  replace (m * 2 ^ e * U) with ((m * 2 ^ (e - j)) * (U * 2 ^ j)).
  - rewrite round_half_even_exact.
    + f_equal. rewrite <- Z.mul_assoc, <- Z.pow_add_r by lia.
      f_equal. f_equal. lia.
    + assert (0 < 2 ^ j) by (apply Z.pow_pos_nonneg; lia). nia.
  - replace e with ((e - j) + j) at 2 by lia.
    rewrite Z.pow_add_r by lia. ring.
Qed.

Lemma binary64_exact (m e : Z) :
  Z.abs m < 2 ^ 53 -> 0 <= e ->
  (binary64 ((m * 2 ^ e) # smallest_subnormal_inv)
   == (m * 2 ^ e) # smallest_subnormal_inv)%Q.
Proof.
  intros Hm He. unfold binary64. rewrite Qred_correct. cbn [Qnum].
  assert (Pe : 0 < 2 ^ e) by (apply Z.pow_pos_nonneg; lia).
  destruct (Z.ltb_spec (m * 2 ^ e) 0) as [N | P].
  - assert (E : (- ((m * 2 ^ e) # smallest_subnormal_inv))%Q
                = ((- m) * 2 ^ e) # smallest_subnormal_inv).
    { unfold Qopp. cbn [Qnum Qden]. f_equal. ring. }
    rewrite E, binary64_magnitude_exact by nia.
    unfold Qopp, Qeq. cbn [Qnum Qden]. ring.
  - rewrite binary64_magnitude_exact by nia. reflexivity.
Qed.

(** Inside a binade the doubles are a grid of step [2 ^ j] smallest
    subnormals, and rounding is to the nearest point of the grid. *)
Lemma binary64_magnitude_in_binade (x : Q) (j : Z) :
  0 <= j ->
  2 ^ (52 + j) * QDen x <= Qnum x * Zpos smallest_subnormal_inv
    < 2 ^ (53 + j) * QDen x ->
  binary64_magnitude x
  = (round_half_even (Qnum x * Zpos smallest_subnormal_inv)
       (QDen x * 2 ^ j) * 2 ^ j) # smallest_subnormal_inv.
Proof.
  intros Hj (Lo & Hi). unfold binary64_magnitude.
  set (U := Zpos smallest_subnormal_inv) in *.
  pose proof (Pos2Z.is_pos (Qden x)) as Hd.
  assert (L : Z.log2 (Qnum x * U / QDen x) = 52 + j).
  { apply Z.log2_unique; [lia |]. split.
    - apply Z.div_le_lower_bound; lia.
    - apply Z.div_lt_upper_bound; [lia |].
      replace (Z.succ (52 + j)) with (53 + j) by lia. lia. }
  rewrite L. replace (Z.max 0 (52 + j - 52)) with j by lia.
  reflexivity.
Qed.

(** Below the midpoint of two neighbouring doubles the lower one is
    chosen. *)
Lemma binary64_below_midpoint (k j : Z) (y : Q) :
  0 <= j -> 2 ^ 52 < k <= 2 ^ 53 ->
  (y < ((2 * k - 1) * 2 ^ j) # (2 * smallest_subnormal_inv))%Q ->
  (binary64 y <= ((k - 1) * 2 ^ j) # smallest_subnormal_inv)%Q.
Proof.
  intros Hj Hk Hy.
  assert (Pj : 0 < 2 ^ j) by (apply Z.pow_pos_nonneg; lia).
  pose proof (Pos2Z.is_pos (Qden y)) as Hd.
  destruct (Qlt_le_dec y (((k - 1) * 2 ^ j) # smallest_subnormal_inv))
    as [Lo | Hi].
  - rewrite <- (binary64_exact (k - 1) j) by lia.
    apply binary64_mono. now apply Qlt_le_weak.
  - unfold Qlt in Hy. unfold Qle in Hi. cbn [Qnum Qden] in Hy, Hi.
    rewrite Pos2Z.inj_mul in Hy.
    unfold binary64. rewrite Qred_correct.
    set (U := Zpos smallest_subnormal_inv) in *.
    assert (HU : 0 < U) by apply Pos2Z.is_pos.
    assert (Ny : 0 <= Qnum y) by nia.
    destruct (Z.ltb_spec (Qnum y) 0) as [? | _]; [lia |].
    rewrite (binary64_magnitude_in_binade y j Hj).
    + unfold Qle. cbn [Qnum Qden]. fold U.
      enough (round_half_even (Qnum y * U) (QDen y * 2 ^ j) <= k - 1) by nia.
      destruct (round_half_even_spec (Qnum y * U) (QDen y * 2 ^ j)
                  ltac:(nia)) as ((L & _) & _).
      set (m := round_half_even _ _) in *.
      assert ((2 * m - 1) * (QDen y * 2 ^ j) < (2 * k - 1) * (QDen y * 2 ^ j))
        by nia.
      assert (0 < QDen y * 2 ^ j) by nia.
      nia.
    + fold U. rewrite !Z.pow_add_r by lia. split; nia.
Qed.

Lemma int_of_float_mono (x y : Q) :
  (x <= y)%Q -> int_of_float x <= int_of_float y.
Proof.
  unfold Qle, int_of_float. destruct x as [n1 d1], y as [n2 d2].
  cbn [Qnum Qden]. intros H.
  pose proof (Pos2Z.is_pos d1) as H1. pose proof (Pos2Z.is_pos d2) as H2.
  destruct (Z.le_gt_cases 0 n1) as [P1 | N1];
    destruct (Z.le_gt_cases 0 n2) as [P2 | N2].
  - rewrite !Z.quot_div_nonneg by lia. now apply div_le_cross.
  - nia.
  - rewrite (Z.quot_div_nonneg n2) by lia.
    replace (n1 ÷ Z.pos d1) with (- (- n1 / Z.pos d1))
      by (rewrite <- Z.quot_div_nonneg, Z.quot_opp_l by lia; lia).
    assert (0 <= - n1 / Z.pos d1) by (apply Z.div_pos; lia).
    assert (0 <= n2 / Z.pos d2) by (apply Z.div_pos; lia).
    lia.
  - replace (n1 ÷ Z.pos d1) with (- (- n1 / Z.pos d1)).
    + replace (n2 ÷ Z.pos d2) with (- (- n2 / Z.pos d2)).
      * apply Z.opp_le_mono. rewrite !Z.opp_involutive.
        apply div_le_cross; [lia | lia | nia].
      * rewrite <- Z.quot_div_nonneg, Z.quot_opp_l by lia. lia.
    + rewrite <- Z.quot_div_nonneg, Z.quot_opp_l by lia. lia.
Qed.


(** At and above the midpoint of two neighbouring doubles of which the
    upper is the even one, the upper one is chosen; below it, the
    lower. *)
Lemma binary64_reaches (k j : Z) (y : Q) :
  0 <= j -> 2 ^ 52 < k < 2 ^ 53 ->
  (binary64 (((2 * k - 1) * 2 ^ j) # (2 * smallest_subnormal_inv))
   == (k * 2 ^ j) # smallest_subnormal_inv)%Q ->
  ((k * 2 ^ j) # smallest_subnormal_inv <= binary64 y)%Q
  <-> (((2 * k - 1) * 2 ^ j) # (2 * smallest_subnormal_inv) <= y)%Q.
Proof.
  intros Hj Hk Tie. split.
  - intros R.
    destruct (Qlt_le_dec y
                (((2 * k - 1) * 2 ^ j) # (2 * smallest_subnormal_inv)))
      as [Lo | Hi]; [exfalso | exact Hi].
    pose proof (binary64_below_midpoint k j y Hj ltac:(lia) Lo) as B.
    pose proof (Qle_trans _ _ _ R B) as C.
    unfold Qle in C. cbn [Qnum Qden] in C.
    assert (0 < 2 ^ j) by (apply Z.pow_pos_nonneg; lia).
    pose proof (Pos2Z.is_pos smallest_subnormal_inv). nia.
  - intros R. rewrite <- Tie. now apply binary64_mono.
Qed.

Lemma int_div_in_subnormals (n : Z) :
  (inject_Z n / inject_Z (1024 ^ 2)
   == (n * 2 ^ 1054) # smallest_subnormal_inv)%Q.
Proof.
  assert (C : Zpos smallest_subnormal_inv = 2 ^ 1054 * 1048576)
    by (vm_compute; reflexivity).
  change (1024 ^ 2) with 1048576.
  unfold Qeq, Qdiv, Qmult, Qinv, inject_Z. cbn [Qnum Qden].
  rewrite C. cbn [Pos.mul]. ring.
Qed.

End Rounding.

Section RoundingError.

(** The double chosen is within one part in [2 ^ 53] of the real, unless
    both are below one (where the grid of the subnormals is coarser in
    proportion). *)
Lemma binary64_magnitude_error (y : Q) :
  0 <= Qnum y ->
  ((binary64_magnitude y * inject_Z (2 ^ 53) <= y * inject_Z (2 ^ 53 + 1))%Q
   /\ (y * inject_Z (2 ^ 53 - 1)
       <= binary64_magnitude y * inject_Z (2 ^ 53))%Q)
  \/ ((y < 1)%Q /\ (binary64_magnitude y < 1)%Q).
Proof.
  intros Hy. unfold binary64_magnitude.
  assert (Big : 2 ^ 53 < Zpos smallest_subnormal_inv)
    by (vm_compute; reflexivity).
  set (U := Zpos smallest_subnormal_inv) in *.
  pose proof (Pos2Z.is_pos (Qden y)) as Hd.
  set (n := Qnum y * U). set (d := QDen y) in *.
  assert (Hn : 0 <= n) by (unfold n; nia).
  assert (Hq : 0 <= n / d) by (apply Z.div_pos; lia).
  assert (D1 : d * (n / d) <= n) by (apply Z.mul_div_le; lia).
  assert (D2 : n < d * (n / d + 1)).
  { pose proof (Z.mul_succ_div_gt n d Hd). lia. }
  set (q := n / d) in *.
  assert (T : 2 ^ 53 = 2 * 2 ^ 52) by reflexivity.
  assert (T0 : 0 < 2 ^ 52) by reflexivity.
  set (P := 2 ^ 53) in *. set (H := 2 ^ 52) in *.
  destruct (Z.le_gt_cases (Z.log2 q - 52) 0) as [Small | Large].
  - right. replace (Z.max 0 (Z.log2 q - 52)) with 0 by lia.
    change (2 ^ 0) with 1. rewrite !Z.mul_1_r.
    assert (S : q < P).
    { destruct (Z.eq_dec q 0) as [-> | Nz]; [lia |].
      unfold P. apply Z.log2_lt_pow2; lia. }
    assert (R : round_half_even n d <= P)
      by (apply round_half_even_le; nia).
    unfold Qlt. cbn [Qnum Qden]. fold U d.
    split; [| lia]. unfold n in *. nia.
  - left. replace (Z.max 0 (Z.log2 q - 52)) with (Z.log2 q - 52) by lia.
    set (j := Z.log2 q - 52) in *.
    assert (Pj : 0 < 2 ^ j) by (apply Z.pow_pos_nonneg; lia).
    assert (Q0 : 0 < q).
    { destruct (Z.le_gt_cases q 0) as [Z0 | ?]; [| assumption].
      unfold j in Large. rewrite (Z.log2_nonpos q Z0) in Large. lia. }
    pose proof (Z.log2_spec q Q0) as (S & _).
    replace (Z.log2 q) with (52 + j) in S by (unfold j; lia).
    rewrite Z.pow_add_r in S by lia. fold H in S.
    destruct (round_half_even_spec n (d * 2 ^ j) ltac:(nia))
      as ((Lo & Hi) & _).
    set (m := round_half_even n (d * 2 ^ j)) in *.
    set (p := 2 ^ j) in *.
    assert (DH : d * p * H <= n) by nia.
    unfold Qle, Qmult, inject_Z. cbn [Qnum Qden].
    rewrite !Pos2Z.inj_mul. fold U d. rewrite !Z.mul_1_r.
    fold n. split.
    + replace (m * p * P * d) with (P * (d * p * m)) by ring.
      replace (Qnum y * (P + 1) * U) with (n * (P + 1)) by (unfold n; ring).
      nia.
    + replace (Qnum y * (P - 1) * U) with (n * (P - 1)) by (unfold n; ring).
      replace (m * p * P * d) with (P * (d * p * m)) by ring.
      nia.
Qed.

Lemma int_of_float_floor (r : Q) :
  (0 <= r)%Q ->
  0 <= int_of_float r
  /\ (inject_Z (int_of_float r) <= r)%Q
  /\ (r < inject_Z (int_of_float r + 1))%Q.
Proof.
  intros R. unfold int_of_float. destruct r as [n d].
  unfold Qle, Qlt, inject_Z in *. cbn [Qnum Qden] in *.
  rewrite Z.mul_1_r in *.
  rewrite Z.quot_div_nonneg by lia.
  pose proof (Z.div_mod n (Zpos d) ltac:(lia)) as E.
  pose proof (Z.mod_pos_bound n (Zpos d) ltac:(lia)) as B.
  split; [apply Z.div_pos; lia |]. split; nia.
Qed.

Lemma binary64_nonneg (y : Q) :
  (0 <= y)%Q -> (binary64 y == binary64_magnitude y)%Q.
Proof.
  intros Hy. unfold binary64. rewrite Qred_correct.
  unfold Qle in Hy. cbn [Qnum Qden] in Hy. rewrite Z.mul_1_r in Hy.
  destruct (Z.ltb_spec (Qnum y) 0); [lia | reflexivity].
Qed.

Lemma scaled_up (a b : Q) :
  (a * inject_Z (2 ^ 53) <= b * inject_Z (2 ^ 53 + 1))%Q ->
  (a <= b * (1 + (1 # 2 ^ 53)))%Q.
Proof.
  intros H.
  assert (C : (1 + (1 # 2 ^ 53)
               == inject_Z (2 ^ 53 + 1) / inject_Z (2 ^ 53))%Q)
    by (vm_compute; reflexivity).
  rewrite C. unfold Qdiv. rewrite Qmult_assoc.
  apply Qle_shift_div_l; [reflexivity | exact H].
Qed.

Lemma scaled_down (a b : Q) :
  (b * inject_Z (2 ^ 53 - 1) < a * inject_Z (2 ^ 53))%Q ->
  (b * (1 - (1 # 2 ^ 53)) < a)%Q.
Proof.
  intros H.
  assert (C : (1 - (1 # 2 ^ 53)
               == inject_Z (2 ^ 53 - 1) / inject_Z (2 ^ 53))%Q)
    by (vm_compute; reflexivity).
  rewrite C. unfold Qdiv. rewrite Qmult_assoc.
  apply Qlt_shift_div_r; [reflexivity | exact H].
Qed.

End RoundingError.

(** * The colour tiers of the formatter *)

Section Tiers.
Import MetricsServer.

Lemma value_in_mb_exact (value : Z) :
  Z.abs value < 2 ^ 53 -> value_in_mb value = Z.quot value (1024 ^ 2).
Proof.
  intros H. unfold value_in_mb.
  pose proof (int_div_in_subnormals value) as E.
  change (1024 ^ 2) with 1048576 in *.
  rewrite <- (int_of_float_div_pos value 1048576).
  apply int_of_float_Qeq.
  rewrite (binary64_Qeq _ _ E), E.
  apply binary64_exact; lia.
Qed.

Lemma value_in_mb_mono (v w : Z) : v <= w -> value_in_mb v <= value_in_mb w.
Proof.
  intros L. unfold value_in_mb. apply int_of_float_mono, binary64_mono.
  unfold Qle, Qdiv, Qmult, Qinv, inject_Z. cbn. lia.
Qed.

Lemma value_in_milicores_mono (v w : Q) :
  (v <= w)%Q -> value_in_milicores v <= value_in_milicores w.
Proof.
  intros L. unfold value_in_milicores.
  apply int_of_float_mono, binary64_mono.
  apply Qmult_le_compat_r; [exact L | discriminate].
Qed.

Lemma double_0_3 : binary64 (3 # 10) = 5404319552844595 # 18014398509481984.
Proof. vm_compute. reflexivity. Qed.

Lemma double_0_6 : binary64 (6 # 10) = 5404319552844595 # 9007199254740992.
Proof. vm_compute. reflexivity. Qed.

Lemma percentage_color_tiers (value : Q) :
  (percentage_color value = red <-> (value < binary64 (3 # 10))%Q)
  /\ (percentage_color value = yellow
      <-> (binary64 (3 # 10) <= value)%Q /\ (value < binary64 (6 # 10))%Q)
  /\ (percentage_color value = green <-> (binary64 (6 # 10) <= value)%Q).
Proof.
  unfold percentage_color. rewrite double_0_3, double_0_6.
  destruct (Qltb value (5404319552844595 # 18014398509481984)) eqn:E1;
    destruct (Qltb value (5404319552844595 # 9007199254740992)) eqn:E2;
    try apply Qltb_lt in E1; try apply Qltb_ge in E1;
    try apply Qltb_lt in E2; try apply Qltb_ge in E2;
    unfold Qlt, Qle in *; cbn [Qnum Qden] in *;
    repeat split; intros; try discriminate; try lia.
Qed.

Lemma memory_bytes_color_tiers (value : Z) :
  (memory_bytes_color value = red <-> 201 * 1024 ^ 2 <= value)
  /\ (memory_bytes_color value = yellow
      <-> 101 * 1024 ^ 2 <= value < 201 * 1024 ^ 2)
  /\ (memory_bytes_color value = green
      <-> value < 101 * 1024 ^ 2).
Proof.
  assert (H2 : 201 <= value_in_mb value <-> 201 * 1024 ^ 2 <= value).
  { split; intros H.
    - destruct (Z.le_gt_cases (201 * 1024 ^ 2) value) as [? | G];
        [assumption | exfalso].
      pose proof (value_in_mb_mono value (201 * 1024 ^ 2 - 1) ltac:(lia)) as M.
      replace (value_in_mb (201 * 1024 ^ 2 - 1)) with 200 in M
        by (vm_compute; reflexivity).
      lia.
    - pose proof (value_in_mb_mono _ _ H) as M.
      replace (value_in_mb (201 * 1024 ^ 2)) with 201 in M
        by (vm_compute; reflexivity).
      exact M. }
  assert (H1 : 101 <= value_in_mb value <-> 101 * 1024 ^ 2 <= value).
  { split; intros H.
    - destruct (Z.le_gt_cases (101 * 1024 ^ 2) value) as [? | G];
        [assumption | exfalso].
      pose proof (value_in_mb_mono value (101 * 1024 ^ 2 - 1) ltac:(lia)) as M.
      replace (value_in_mb (101 * 1024 ^ 2 - 1)) with 100 in M
        by (vm_compute; reflexivity).
      lia.
    - pose proof (value_in_mb_mono _ _ H) as M.
      replace (value_in_mb (101 * 1024 ^ 2)) with 101 in M
        by (vm_compute; reflexivity).
      exact M. }
  unfold memory_bytes_color.
  destruct (Z.gtb_spec (value_in_mb value) 200);
    destruct (Z.gtb_spec (value_in_mb value) 100);
    repeat split; intros; try discriminate; try lia.
Qed.

Lemma value_in_milicores_reaches_1001 (value : Q) :
  1001 <= value_in_milicores value
  <-> (inject_Z 1001 - (1 # 2 ^ 44) <= value * inject_Z 1000)%Q.
Proof.
  unfold value_in_milicores. rewrite int_of_float_ge by lia.
  assert (E1 : (inject_Z 1001
                == ((1001 * 2 ^ 43) * 2 ^ 1031) # smallest_subnormal_inv)%Q)
    by (vm_compute; reflexivity).
  assert (E2 : (inject_Z 1001 - (1 # 2 ^ 44)
                == ((2 * (1001 * 2 ^ 43) - 1) * 2 ^ 1031)
                   # (2 * smallest_subnormal_inv))%Q)
    by (vm_compute; reflexivity).
  rewrite E2, E1. apply binary64_reaches.
  - lia.
  - vm_compute. split; reflexivity.
  - vm_compute. reflexivity.
Qed.

Lemma value_in_milicores_reaches_101 (value : Q) :
  101 <= value_in_milicores value
  <-> (inject_Z 101 - (1 # 2 ^ 47) <= value * inject_Z 1000)%Q.
Proof.
  unfold value_in_milicores. rewrite int_of_float_ge by lia.
  assert (E1 : (inject_Z 101
                == ((101 * 2 ^ 46) * 2 ^ 1028) # smallest_subnormal_inv)%Q)
    by (vm_compute; reflexivity).
  assert (E2 : (inject_Z 101 - (1 # 2 ^ 47)
                == ((2 * (101 * 2 ^ 46) - 1) * 2 ^ 1028)
                   # (2 * smallest_subnormal_inv))%Q)
    by (vm_compute; reflexivity).
  rewrite E2, E1. apply binary64_reaches.
  - lia.
  - vm_compute. split; reflexivity.
  - vm_compute. reflexivity.
Qed.

Lemma cpu_color_tiers (value : Q) :
  (cpu_color value = red
   <-> (inject_Z 1001 - (1 # 2 ^ 44) <= value * inject_Z 1000)%Q)
  /\ (cpu_color value = yellow
      <-> (inject_Z 101 - (1 # 2 ^ 47) <= value * inject_Z 1000)%Q
          /\ (value * inject_Z 1000 < inject_Z 1001 - (1 # 2 ^ 44))%Q)
  /\ (cpu_color value = green
      <-> (value * inject_Z 1000 < inject_Z 101 - (1 # 2 ^ 47))%Q).
Proof.
  unfold cpu_color.
  pose proof (value_in_milicores_reaches_1001 value) as H2.
  pose proof (value_in_milicores_reaches_101 value) as H1.
  assert (L : forall a b : Q, (a < b)%Q <-> ~ (b <= a)%Q).
  { intros a b. split; [apply Qlt_not_le | apply Qnot_le_lt]. }
  rewrite !L, <- !H2, <- !H1.
  destruct (Z.gtb_spec (value_in_milicores value) 1000);
    destruct (Z.gtb_spec (value_in_milicores value) 100);
    repeat split; intros; try discriminate; try lia.
Qed.


Lemma milicores_shown (value : Q) :
  (0 <= value)%Q ->
  0 <= value_in_milicores value
  /\ (inject_Z (value_in_milicores value)
      <= value * inject_Z 1000 * (1 + (1 # 2 ^ 53)))%Q
  /\ (value * inject_Z 1000 * (1 - (1 # 2 ^ 53))
      < inject_Z (value_in_milicores value + 1))%Q.
Proof.
  intros P. unfold value_in_milicores.
  set (y := (value * inject_Z 1000)%Q).
  assert (Hy : (0 <= y)%Q).
  { unfold y. apply Qmult_le_0_compat; [exact P | discriminate]. }
  assert (Ny : 0 <= Qnum y).
  { unfold Qle in Hy. cbn [Qnum Qden] in Hy. lia. }
  pose proof (binary64_nonneg y Hy) as B.
  pose proof (binary64_magnitude_nonneg y Ny) as R0.
  rewrite <- B in R0.
  destruct (int_of_float_floor (binary64 y) R0) as (S0 & S1 & S2).
  split; [exact S0 |].
  destruct (binary64_magnitude_error y Ny) as [(Up & Down) | (Y1 & R1)].
  - rewrite <- B in Up, Down. split.
    + apply scaled_up. eapply Qle_trans; [| exact Up].
      apply Qmult_le_compat_r; [exact S1 | discriminate].
    + apply scaled_down. eapply Qle_lt_trans; [exact Down |].
      apply Qmult_lt_compat_r; [reflexivity | exact S2].
  - rewrite <- B in R1.
    assert (Z0 : int_of_float (binary64 y) = 0).
    { destruct (Z.le_gt_cases 1 (int_of_float (binary64 y))) as [G | ?];
        [exfalso | lia].
      apply (int_of_float_ge _ 1 ltac:(lia)) in G.
      apply (Qle_not_lt _ _ G R1). }
    rewrite Z0. split.
    + apply scaled_up. change (inject_Z 0 * inject_Z (2 ^ 53))%Q with (0 * inject_Z (2^53))%Q.
      rewrite Qmult_0_l. apply Qmult_le_0_compat; [exact Hy | discriminate].
    + apply scaled_down.
      apply Qle_lt_trans with (y * inject_Z (2 ^ 53))%Q.
      * rewrite !(Qmult_comm y). apply Qmult_le_compat_r; [discriminate | exact Hy].
      * rewrite (Qmult_comm y). rewrite (Qmult_comm (inject_Z (0 + 1))).
        apply Qmult_lt_l; [reflexivity | exact Y1].
Qed.

End Tiers.

(** C7 (as amended). Every colouring function returns its text in one of
    three colours. The utilisation ratio is compared with the doubles
    0.3 and 0.6: below the first red, below the second yellow, else
    green. Unutilised memory is compared after the division by 1024 ** 2
    and truncation: shown is the whole number of MiB (for less than
    2 ^ 53 bytes), red from 201 MiB on, yellow from 101 MiB up to (not
    including) 201 MiB and green below 101 MiB. Unutilised CPU is
    compared after the product with 1000 is rounded to a double and
    truncated: red when the product is at least 1001 - 2 ^ -44, yellow
    when it is below that and at least 101 - 2 ^ -47, green below. *)
Theorem gradient_tiers :
  (forall value : Q,
     MetricsServer.percentage_gradient value
       = Colored (Percent0 value) (MetricsServer.percentage_color value)
     /\ (MetricsServer.percentage_color value = red
         <-> (value < binary64 (3 # 10))%Q)
     /\ (MetricsServer.percentage_color value = yellow
         <-> (binary64 (3 # 10) <= value)%Q
             /\ (value < binary64 (6 # 10))%Q)
     /\ (MetricsServer.percentage_color value = green
         <-> (binary64 (6 # 10) <= value)%Q))
  /\ (binary64 (3 # 10) = 5404319552844595 # 18014398509481984
      /\ binary64 (6 # 10) = 5404319552844595 # 9007199254740992)
  /\ (forall value : Z,
     in_range (inject_Z value / inject_Z (1024 ^ 2)) = true ->
     MetricsServer.memory_bytes_gradient value
       = Colored (Whole (MetricsServer.value_in_mb value) "M")
           (MetricsServer.memory_bytes_color value)
     /\ (Z.abs value < 2 ^ 53 ->
         MetricsServer.value_in_mb value = Z.quot value (1024 ^ 2))
     /\ (MetricsServer.memory_bytes_color value = red
         <-> 201 * 1024 ^ 2 <= value)
     /\ (MetricsServer.memory_bytes_color value = yellow
         <-> 101 * 1024 ^ 2 <= value < 201 * 1024 ^ 2)
     /\ (MetricsServer.memory_bytes_color value = green
         <-> value < 101 * 1024 ^ 2))
  /\ (forall value : Q,
     in_range (value * inject_Z 1000) = true ->
     MetricsServer.cpu_gradient value
       = Colored (Num (int_of_float (binary64 (value * inject_Z 1000))))
           (MetricsServer.cpu_color value)
     /\ (MetricsServer.cpu_color value = red
         <-> (inject_Z 1001 - (1 # 2 ^ 44) <= value * inject_Z 1000)%Q)
     /\ (MetricsServer.cpu_color value = yellow
         <-> (inject_Z 101 - (1 # 2 ^ 47) <= value * inject_Z 1000)%Q
             /\ (value * inject_Z 1000 < inject_Z 1001 - (1 # 2 ^ 44))%Q)
     /\ (MetricsServer.cpu_color value = green
         <-> (value * inject_Z 1000 < inject_Z 101 - (1 # 2 ^ 47))%Q)).
Proof.
  split; [| split; [| split]].
  - intros value. split; [reflexivity | apply percentage_color_tiers].
  - split; [apply double_0_3 | apply double_0_6].
  - intros value _. split; [reflexivity |].
    split; [apply value_in_mb_exact | apply memory_bytes_color_tiers].
  - intros value _. split; [reflexivity | apply cpu_color_tiers].
Qed.

Lemma gradient_tiers_witness :
  (MetricsServer.memory_bytes_color 209715201 = yellow
   <-> 101 * 1024 ^ 2 <= 209715201 < 201 * 1024 ^ 2)
  /\ (MetricsServer.cpu_color (binary64 (1001 # 1000)) = red
      <-> (inject_Z 1001 - (1 # 2 ^ 44)
           <= binary64 (1001 # 1000) * inject_Z 1000)%Q).
Proof.
  split.
  - apply (proj1 (proj2 (proj2 gradient_tiers)) 209715201).
    vm_compute. reflexivity.
  - apply (proj2 (proj2 (proj2 gradient_tiers)) (binary64 (1001 # 1000))).
    vm_compute. reflexivity.
Defined.

(** The boundary values: the doubles 0.3 and 0.6 are yellow and green;
    exactly 200 MiB is yellow and exactly 100 MiB green; exactly one
    core is yellow and the double 0.1 green. The double 1.001 is shown
    as 1000 in yellow (its product with 1000 rounds to the double below
    1001), the next double as 1001 in red. *)
Lemma gradient_boundaries :
  MetricsServer.percentage_color (binary64 (3 # 10)) = yellow
  /\ MetricsServer.percentage_color (binary64 (6 # 10)) = green
  /\ MetricsServer.memory_bytes_color (200 * 1024 ^ 2) = yellow
  /\ MetricsServer.memory_bytes_color (100 * 1024 ^ 2) = green
  /\ MetricsServer.cpu_color 1 = yellow
  /\ MetricsServer.cpu_color (binary64 (1 # 10)) = green
  /\ MetricsServer.cpu_gradient (binary64 (1001 # 1000))
     = Colored (Num 1000) yellow
  /\ MetricsServer.cpu_gradient (binary64 (1001 # 1000) + (1 # 2 ^ 52))
     = Colored (Num 1001) red.
Proof. vm_compute. repeat split. Qed.

(** C7, as stated, fails: 200 MiB and one byte is more than 200 MB and
    is shown yellow; the double 1.0005, more than 1000 millicores, is
    shown yellow. *)
Lemma gradient_tiers_not_on_exact_value :
  (200 * 1024 ^ 2 < 209715201
   /\ MetricsServer.memory_bytes_gradient 209715201
      = Colored (Whole 200 "M") yellow)
  /\ ((inject_Z 1000 < binary64 (10005 # 10000) * inject_Z 1000)%Q
      /\ MetricsServer.cpu_gradient (binary64 (10005 # 10000))
         = Colored (Num 1000) yellow).
Proof. vm_compute. repeat split. Qed.

(** * Formatting an empty list, and the csv format *)

(** C6 (the code at the failing input). With no records both table
    formatters stop at the first total, a division by the record count,
    with ZeroDivisionError. *)
Theorem format_empty_list_divides_by_zero :
  MetricsServer.format_memory_metrics_as_table [] = Raise ZeroDivisionError
  /\ MetricsServer.format_cpu_metrics_as_table [] = Raise ZeroDivisionError
  /\ (forall metric_type,
        MetricsServer.format_metrics metric_type MetricsServer.table []
        = Raise ZeroDivisionError).
Proof.
  split; [reflexivity | split; [reflexivity |]].
  intros []; reflexivity.
Qed.

(** C8 (the code at the failing input). For the csv format
    [format_metrics] takes neither branch and returns None, whatever the
    family and the records. *)
Theorem format_metrics_csv_returns_none :
  forall (metric_type : MetricsServer.MetricType)
         (metrics : list MetricsClient.ContainerMetrics),
    MetricsServer.format_metrics metric_type MetricsServer.csv metrics
    = Ok MetricsServer.ReturnedNone.
Proof. reflexivity. Qed.

(** * The filter string of a query *)

Lemma append_assoc (a b c : string) :
  ((a ++ b) ++ c = a ++ (b ++ c))%string.
Proof. induction a as [| ch a IH]; simpl; [reflexivity | now rewrite IH]. Qed.

(** The filter [MetricsClient.query] sends: the metric type it was given,
    the exclusion of kube-system and, for an allow-list that is not
    empty, the namespaces joined by OR. *)
Lemma client_filter (project : string) (namespaces : option (list string))
  (aligner : Monitoring.Aligner) (reducer : Monitoring.Reducer)
  (query_filter : string) :
  Monitoring.filter
    (MetricsClient.query project namespaces aligner reducer query_filter)
  = (query_filter
       ++ " AND resource.labels.namespace_name != "
       ++ MetricsClient.quoted "kube-system"
       ++ (if MetricsClient.truthy namespaces
           then " AND ("
                  ++ join " OR "
                       (map MetricsClient.namespace_clause
                          (MetricsClient.namespaces_list namespaces))
                  ++ ")"
           else EmptyString))%string.
Proof.
  unfold MetricsClient.query. cbn [Monitoring.filter].
  destruct (MetricsClient.truthy namespaces).
  - rewrite !append_assoc. reflexivity.
  - assert (E : forall s : string, (s ++ EmptyString)%string = s).
    { induction s as [| ch s IH]; simpl; [reflexivity | now rewrite IH]. }
    rewrite E. reflexivity.
Qed.

(** With the allow-list ns-a, ns-b every memory and CPU query of the
    client carries the exclusion and exactly the two namespaces. *)
Lemma client_filter_two_namespaces :
  (forall q,
     Monitoring.filter
       (MetricsClient.memory_query_request "p" (Some ["ns-a"; "ns-b"]%string) q)
     = (Monitoring.filter (MetricsClient.memory_query_request "p" None q)
          ++ " AND (resource.labels.namespace_name = "
          ++ MetricsClient.quoted "ns-a"
          ++ " OR resource.labels.namespace_name = "
          ++ MetricsClient.quoted "ns-b" ++ ")")%string)
  /\ (forall q,
     Monitoring.filter
       (MetricsClient.cpu_query_request "p" (Some ["ns-a"; "ns-b"]%string) q)
     = (Monitoring.filter (MetricsClient.cpu_query_request "p" None q)
          ++ " AND (resource.labels.namespace_name = "
          ++ MetricsClient.quoted "ns-a"
          ++ " OR resource.labels.namespace_name = "
          ++ MetricsClient.quoted "ns-b" ++ ")")%string)
  /\ Monitoring.filter
       (MetricsClient.memory_query_request "p" None
          MetricsClient.memory_request_q)
     = ("metric.type = "
          ++ MetricsClient.quoted "kubernetes.io/container/memory/request_bytes"
          ++ " AND resource.labels.namespace_name != "
          ++ MetricsClient.quoted "kube-system")%string.
Proof.
  split; [| split]; [intros [] | intros [] |]; reflexivity.
Qed.

(** C2 (the code at the failing input). The monitor script builds its
    filter without the kube-system exclusion: with no allow-list the
    filter is the metric type alone, and with the allow-list ns-a, ns-b
    it is the metric type and the two namespaces, kube-system nowhere in
    it. *)
Theorem monitor_filter_keeps_kube_system :
  (forall project duration_days aligner reducer query_filter,
     Monitoring.filter
       (Monitor.query project None duration_days aligner reducer query_filter)
     = query_filter)
  /\ Monitoring.filter
       (Monitor.memory_query_request "p" (Some ["ns-a"; "ns-b"]%string) 7
          Monitor.memory_request_q)
     = ("metric.type = "
          ++ MetricsClient.quoted "kubernetes.io/container/memory/request_bytes"
          ++ " AND (resource.labels.namespace_name = "
          ++ MetricsClient.quoted "ns-a"
          ++ " OR resource.labels.namespace_name = "
          ++ MetricsClient.quoted "ns-b" ++ ")")%string
  /\ (forall q,
        contains "kube-system"
          (Monitoring.filter
             (Monitor.memory_query_request "p"
                (Some ["ns-a"; "ns-b"]%string) 7 q))
        = false)
  /\ (forall q,
        contains "kube-system"
          (Monitoring.filter
             (MetricsClient.memory_query_request "p"
                (Some ["ns-a"; "ns-b"]%string) q))
        = true).
Proof.
  split; [reflexivity |].
  split; [reflexivity |].
  split; intros []; vm_compute; reflexivity.
Qed.

(** * Dictionaries: lookups, writes and the distinct-keys invariant *)

Section DictFacts.
Context {K V : Type}.
Variable eqb : K -> K -> bool.
Hypothesis eqb_eq : forall a b, eqb a b = true <-> a = b.

Lemma eqb_refl (k : K) : eqb k k = true.
Proof. now apply eqb_eq. Qed.

Lemma eqb_neq (a b : K) : a <> b -> eqb a b = false.
Proof.
  intros N. destruct (eqb a b) eqn:E; [| reflexivity].
  now apply eqb_eq in E.
Qed.

Lemma dict_get_In (k : K) (v : V) (d : dict K V) :
  dict_get eqb k d = Some v -> In (k, v) d.
Proof.
  induction d as [| [k' v'] d IH]; simpl; [discriminate |].
  destruct (eqb k k') eqn:E.
  - intros [= ->]. apply eqb_eq in E. subst. now left.
  - intros H. right. now apply IH.
Qed.

Lemma dict_get_None (k : K) (d : dict K V) :
  dict_get eqb k d = None -> ~ In k (keys d).
Proof.
  induction d as [| [k' v'] d IH]; simpl; [tauto |].
  destruct (eqb k k') eqn:E; [discriminate |].
  intros H [-> | I]; [| now apply IH].
  now rewrite eqb_refl in E.
Qed.

Lemma dict_get_set_same (k : K) (v : V) (d : dict K V) :
  dict_get eqb k (dict_set eqb k v d) = Some v.
Proof.
  induction d as [| [k' v'] d IH]; simpl.
  - now rewrite eqb_refl.
  - destruct (eqb k k') eqn:E; simpl; now rewrite E.
Qed.

Lemma dict_get_set_other (k k' : K) (v : V) (d : dict K V) :
  k <> k' -> dict_get eqb k' (dict_set eqb k v d) = dict_get eqb k' d.
Proof.
  intros N. induction d as [| [k0 v0] d IH]; simpl.
  - rewrite eqb_neq; [reflexivity | congruence].
  - destruct (eqb k k0) eqn:E; simpl.
    + apply eqb_eq in E. subst k0.
      rewrite eqb_neq by congruence. reflexivity.
    + now rewrite IH.
Qed.

(** A write keeps every property of the entries that the written entry
    has too. *)
Lemma dict_set_Forall (P : K * V -> Prop) (k : K) (v : V) (d : dict K V) :
  P (k, v) -> Forall P d -> Forall P (dict_set eqb k v d).
Proof.
  intros Pk F. induction F as [| [k' v'] d Px F IH]; simpl.
  - now repeat constructor.
  - destruct (eqb k k') eqn:E.
    + apply eqb_eq in E. subst. now constructor.
    + now constructor.
Qed.

Lemma keys_dict_set_in (k : K) (v : V) (d : dict K V) :
  In k (keys d) -> keys (dict_set eqb k v d) = keys d.
Proof.
  induction d as [| [k' v'] d IH]; simpl; [tauto |].
  destruct (eqb k k') eqn:E; simpl; [reflexivity |].
  intros [-> | I]; [now rewrite eqb_refl in E |].
  f_equal. now apply IH.
Qed.

Lemma keys_dict_set_notin (k : K) (v : V) (d : dict K V) :
  ~ In k (keys d) -> keys (dict_set eqb k v d) = keys d ++ [k].
Proof.
  induction d as [| [k' v'] d IH]; simpl; [reflexivity |].
  intros N. destruct (eqb k k') eqn:E.
  - apply eqb_eq in E. subst. tauto.
  - simpl. f_equal. apply IH. tauto.
Qed.

Lemma In_dec_keys (k : K) (d : dict K V) :
  In k (keys d) \/ ~ In k (keys d).
Proof.
  destruct (dict_get eqb k d) eqn:E.
  - left. apply dict_get_In in E. now apply (in_map fst) in E.
  - right. now apply dict_get_None.
Qed.

Lemma NoDup_dict_set (k : K) (v : V) (d : dict K V) :
  NoDup (keys d) -> NoDup (keys (dict_set eqb k v d)).
Proof.
  intros N. destruct (In_dec_keys k d) as [I | I].
  - now rewrite keys_dict_set_in.
  - rewrite keys_dict_set_notin by assumption.
    apply NoDup_app; [assumption | repeat constructor; simpl; tauto |].
    intros x Hx [<- | []]. tauto.
Qed.

Lemma dict_set_middle (k : K) (v m : V) (pre l : dict K V) :
  ~ In k (keys pre) ->
  dict_set eqb k v (pre ++ (k, m) :: l) = pre ++ (k, v) :: l.
Proof.
  induction pre as [| [k' v'] pre IH]; simpl; intros N.
  - now rewrite eqb_refl.
  - rewrite eqb_neq by (intros ->; tauto). f_equal. apply IH. tauto.
Qed.

Lemma dict_del_middle (k : K) (m : V) (pre l : dict K V) :
  ~ In k (keys pre) ->
  dict_del eqb k (pre ++ (k, m) :: l) = pre ++ l.
Proof.
  induction pre as [| [k' v'] pre IH]; simpl; intros N.
  - now rewrite eqb_refl.
  - rewrite eqb_neq by (intros ->; tauto). f_equal. apply IH. tauto.
Qed.

(** A loop over the snapshot [list(d.items())] that, entry by entry,
    either deletes the entry or rewrites its value, is a filter followed
    by a map when the keys are distinct. *)
Section Pass.
Variable drop : K * V -> bool.
Variable f : K * V -> V.
Variable step : dict K V -> K * V -> dict K V.
Hypothesis step_middle : forall pre k m l,
  ~ In k (keys pre) ->
  step (pre ++ (k, m) :: l) (k, m)
  = if drop (k, m) then pre ++ l else pre ++ (k, f (k, m)) :: l.

Lemma pass_from (l pre : dict K V) :
  NoDup (keys (pre ++ l)) ->
  fold_left step l (pre ++ l) = pre ++ kept drop f l.
Proof.
  revert pre. induction l as [| [k m] l IH]; intros pre N; [reflexivity |].
  assert (Npre : ~ In k (keys pre)).
  { unfold keys in *. rewrite map_app in N. simpl in N.
    apply NoDup_remove_2 in N. rewrite in_app_iff in N. tauto. }
  simpl. rewrite step_middle by assumption.
  unfold kept. simpl. destruct (drop (k, m)); simpl.
  - apply IH. unfold keys in *. rewrite map_app in *. simpl in N.
    now apply NoDup_remove_1 in N.
  - change ((k, f (k, m)) :: l) with ([(k, f (k, m))] ++ l).
    rewrite app_assoc. rewrite (IH (pre ++ [(k, f (k, m))])).
    + rewrite <- app_assoc. reflexivity.
    + unfold keys in *. rewrite <- app_assoc. rewrite map_app in *.
      exact N.
Qed.

Lemma pass_all (d : dict K V) :
  NoDup (keys d) -> fold_left step d d = kept drop f d.
Proof. intros N. apply (pass_from d []). exact N. Qed.
End Pass.

End DictFacts.

(** * The aggregation client: how a delivery changes the table *)

Section ClientFacts.
Import Monitoring MetricsClient.

Lemma key_eqb_eq (a b : ContainerKey) : key_eqb a b = true <-> a = b.
Proof.
  destruct a as [[a1 a2] a3], b as [[b1 b2] b3]. unfold key_eqb.
  rewrite !andb_true_iff, !String.eqb_eq. split.
  - intros [[-> ->] ->]. reflexivity.
  - intros [= -> -> ->]. tauto.
Qed.

Lemma memory_body_write (q : memory_query) (s : TimeSeries)
  (d : container_metrics_t) :
  memory_body q s d
  = (set <- memory_write q s ;; Ok (assign s set (upsert_container s d))).
Proof.
  destruct q; simpl;
    unfold avg_memory_request_utilization_body, max_memory_usage_body,
      avg_memory_usage_body, memory_request_body, bind;
    match goal with |- context [match ?r with Ok _ => _ | Raise _ => _ end] =>
      destruct r; reflexivity end.
Qed.

Lemma cpu_body_write (q : cpu_query) (s : TimeSeries)
  (d : container_metrics_t) :
  cpu_body q s d
  = (set <- cpu_write q s ;; Ok (assign s set (upsert_container s d))).
Proof.
  destruct q; simpl;
    unfold avg_cpu_request_utilization_body, max_cpu_usage_body,
      avg_cpu_usage_body, cpu_request_body, bind;
    match goal with |- context [match ?r with Ok _ => _ | Raise _ => _ end] =>
      destruct r; reflexivity end.
Qed.

(** The record a body writes to is the one stored under the key of the
    series, or a fresh one; what holds of both holds after the write. *)
Lemma assign_Forall (P : ContainerKey * ContainerMetrics -> Prop)
  (s : TimeSeries) (set : ContainerMetrics -> ContainerMetrics)
  (d : container_metrics_t) :
  P (container_key s, fresh s) ->
  (forall c, P (container_key s, c) -> P (container_key s, set c)) ->
  Forall P d ->
  Forall P (assign s set (upsert_container s d)).
Proof.
  intros Pnew Pset F. unfold assign, upsert_container.
  destruct (dict_get key_eqb (container_key s) d) as [c |] eqn:G.
  - apply (dict_set_Forall _ key_eqb_eq); [| assumption].
    apply Pset. apply (dict_get_In _ key_eqb_eq) in G.
    rewrite Forall_forall in F. now apply F.
  - apply (dict_set_Forall _ key_eqb_eq); [now apply Pset |].
    now apply (dict_set_Forall _ key_eqb_eq).
Qed.

Lemma assign_NoDup (s : TimeSeries)
  (set : ContainerMetrics -> ContainerMetrics) (d : container_metrics_t) :
  NoDup (keys d) -> NoDup (keys (assign s set (upsert_container s d))).
Proof.
  intros N. unfold assign, upsert_container.
  destruct (dict_get key_eqb (container_key s) d) as [c |].
  - now apply (NoDup_dict_set _ key_eqb_eq).
  - apply (NoDup_dict_set _ key_eqb_eq).
    now apply (NoDup_dict_set _ key_eqb_eq).
Qed.

(** After the write the table holds, under the key of the series, the
    record that was there (or a fresh one) with the one field replaced,
    and what it held under every other key. *)
Lemma assign_get (s : TimeSeries)
  (set : ContainerMetrics -> ContainerMetrics) (d : container_metrics_t) :
  dict_get key_eqb (container_key s) (assign s set (upsert_container s d))
  = Some (set (match dict_get key_eqb (container_key s) d with
               | Some c => c
               | None => fresh s
               end))
  /\ forall k, k <> container_key s ->
       dict_get key_eqb k (assign s set (upsert_container s d))
       = dict_get key_eqb k d.
Proof.
  unfold assign, upsert_container.
  destruct (dict_get key_eqb (container_key s) d) as [c |]; split.
  - apply (dict_get_set_same _ key_eqb_eq).
  - intros k N. apply (dict_get_set_other _ key_eqb_eq). congruence.
  - apply (dict_get_set_same _ key_eqb_eq).
  - intros k N. rewrite !(dict_get_set_other _ key_eqb_eq) by congruence.
    reflexivity.
Qed.

(** Induction over the deliveries of a gather. *)
Lemma gather_memory_inv (I : container_metrics_t -> Prop)
  (deliveries : list (memory_query * TimeSeries)) :
  (forall q s set d, In (q, s) deliveries -> memory_write q s = Ok set ->
     I d -> I (assign s set (upsert_container s d))) ->
  forall d d', I d -> gather_memory deliveries d = Ok d' -> I d'.
Proof.
  unfold gather_memory.
  induction deliveries as [| [q s] l IH]; intros Step d d' Id; simpl.
  - now intros [= <-].
  - rewrite memory_body_write. unfold bind at 1 2.
    destruct (memory_write q s) as [set |] eqn:W; [| discriminate].
    apply IH.
    + intros q0 s0 set0 d0 In0. apply Step. now right.
    + apply (Step q s); [now left | assumption | assumption].
Qed.

Lemma gather_cpu_inv (I : container_metrics_t -> Prop)
  (deliveries : list (cpu_query * TimeSeries)) :
  (forall q s set d, In (q, s) deliveries -> cpu_write q s = Ok set ->
     I d -> I (assign s set (upsert_container s d))) ->
  forall d d', I d -> gather_cpu deliveries d = Ok d' -> I d'.
Proof.
  unfold gather_cpu.
  induction deliveries as [| [q s] l IH]; intros Step d d' Id; simpl.
  - now intros [= <-].
  - rewrite cpu_body_write. unfold bind at 1 2.
    destruct (cpu_write q s) as [set |] eqn:W; [| discriminate].
    apply IH.
    + intros q0 s0 set0 d0 In0. apply Step. now right.
    + apply (Step q s); [now left | assumption | assumption].
Qed.

Lemma gather_memory_NoDup deliveries d d' :
  NoDup (keys d) -> gather_memory deliveries d = Ok d' -> NoDup (keys d').
Proof.
  apply (gather_memory_inv (fun d => NoDup (keys d))).
  intros q s set d0 _ _. apply assign_NoDup.
Qed.

Lemma gather_cpu_NoDup deliveries d d' :
  NoDup (keys d) -> gather_cpu deliveries d = Ok d' -> NoDup (keys d').
Proof.
  apply (gather_cpu_inv (fun d => NoDup (keys d))).
  intros q s set d0 _ _. apply assign_NoDup.
Qed.

(** The closing loops. *)
Lemma memory_pass_all (d : container_metrics_t) :
  NoDup (keys d) ->
  fold_left memory_pass d d = kept is_overprovisioner with_unutilized_memory d.
Proof.
  apply pass_all. intros pre k m l N.
  unfold memory_pass, is_overprovisioner, with_unutilized_memory. simpl.
  destruct (contains "overprovisioner" (container_name m)).
  - now apply dict_del_middle; [apply key_eqb_eq |].
  - now apply dict_set_middle; [apply key_eqb_eq |].
Qed.

Lemma cpu_pass_all (d : container_metrics_t) :
  NoDup (keys d) ->
  fold_left cpu_pass d d = kept is_overprovisioner with_unutilized_cpu d.
Proof.
  apply pass_all. intros pre k m l N.
  unfold cpu_pass, is_overprovisioner, with_unutilized_cpu. simpl.
  destruct (contains "overprovisioner" (container_name m)).
  - now apply dict_del_middle; [apply key_eqb_eq |].
  - now apply dict_set_middle; [apply key_eqb_eq |].
Qed.

(** What a call returns, for a table whose keys are distinct. *)
Lemma query_memory_utilization_returns deliveries d d' out :
  NoDup (keys d) ->
  query_memory_utilization deliveries d = Ok (d', out) ->
  exists d1,
    gather_memory deliveries d = Ok d1
    /\ d' = kept is_overprovisioner with_unutilized_memory d1
    /\ out = values d'.
Proof.
  intros N. unfold query_memory_utilization, bind.
  destruct (gather_memory deliveries d) as [d1 |] eqn:G; [| discriminate].
  intros [= <- <-]. exists d1.
  rewrite memory_pass_all by (eapply gather_memory_NoDup; eassumption).
  auto.
Qed.

Lemma query_cpu_utilization_returns deliveries d d' out :
  NoDup (keys d) ->
  query_cpu_utilization deliveries d = Ok (d', out) ->
  exists d1,
    gather_cpu deliveries d = Ok d1
    /\ d' = kept is_overprovisioner with_unutilized_cpu d1
    /\ out = values d'.
Proof.
  intros N. unfold query_cpu_utilization, bind.
  destruct (gather_cpu deliveries d) as [d1 |] eqn:G; [| discriminate].
  intros [= <- <-]. exists d1.
  rewrite cpu_pass_all by (eapply gather_cpu_NoDup; eassumption).
  auto.
Qed.

(** Every record returned comes from an entry the gather left, with the
    derived field set, and is not an overprovisioner. *)
Lemma In_values_kept {Vt : Type} (drop : ContainerKey * Vt -> bool)
  (f : ContainerKey * Vt -> Vt) (d : dict ContainerKey Vt) (m : Vt) :
  In m (values (kept drop f d)) ->
  exists item, In item d /\ drop item = false /\ m = f item.
Proof.
  unfold values, kept. rewrite map_map. simpl. rewrite in_map_iff.
  intros [item [<- I]]. apply filter_In in I. destruct I as [I D].
  exists item. repeat split; [assumption |].
  now destruct (drop item).
Qed.

End ClientFacts.

(** * Series with no points *)

Section EmptySeries.
Import Monitoring MetricsClient.

Lemma memory_write_ok (q : memory_query) (s : TimeSeries) :
  is_ok (memory_write q s) = has_points (q, s).
Proof.
  unfold has_points, memory_write, double_values. simpl.
  destruct q; destruct (points s); reflexivity.
Qed.

Lemma cpu_write_ok (q : cpu_query) (s : TimeSeries) :
  is_ok (cpu_write q s) = has_points (q, s).
Proof.
  unfold has_points, cpu_write, double_values. simpl.
  destruct q; destruct (points s); reflexivity.
Qed.

Lemma gather_memory_ok deliveries d :
  is_ok (gather_memory deliveries d) = forallb has_points deliveries.
Proof.
  unfold gather_memory. revert d.
  induction deliveries as [| [q s] l IH]; intros d; simpl; [reflexivity |].
  rewrite memory_body_write, <- memory_write_ok. unfold bind at 1 2.
  destruct (memory_write q s); simpl; [apply IH | reflexivity].
Qed.

Lemma gather_cpu_ok deliveries d :
  is_ok (gather_cpu deliveries d) = forallb has_points deliveries.
Proof.
  unfold gather_cpu. revert d.
  induction deliveries as [| [q s] l IH]; intros d; simpl; [reflexivity |].
  rewrite cpu_body_write, <- cpu_write_ok. unfold bind at 1 2.
  destruct (cpu_write q s); simpl; [apply IH | reflexivity].
Qed.

(** C10. On a series with no points every loop body raises (the mean
    bodies StatisticsError, the max bodies ValueError, the first-point
    bodies IndexError) whatever the table holds, and on a series with a
    point it does not; an aggregation call returns exactly when every
    series delivered to it has a point, and raises otherwise. *)
Theorem handlers_need_a_point :
  (forall q ns cn tl d,
     memory_body q
       {| namespace_name := ns; container_name_label := cn;
          top_level_controller_name_label := tl; points := [] |} d
     = Raise (memory_exception q))
  /\ (forall q ns cn tl d,
     cpu_body q
       {| namespace_name := ns; container_name_label := cn;
          top_level_controller_name_label := tl; points := [] |} d
     = Raise (cpu_exception q))
  /\ (forall q s d, is_ok (memory_body q s d) = has_points (q, s))
  /\ (forall q s d, is_ok (cpu_body q s d) = has_points (q, s))
  /\ (forall deliveries d,
     is_ok (query_memory_utilization deliveries d)
     = forallb has_points deliveries)
  /\ (forall deliveries d,
     is_ok (query_cpu_utilization deliveries d)
     = forallb has_points deliveries).
Proof.
  repeat split.
  - intros []; reflexivity.
  - intros []; reflexivity.
  - intros q s d. rewrite memory_body_write, <- memory_write_ok.
    now destruct (memory_write q s).
  - intros q s d. rewrite cpu_body_write, <- cpu_write_ok.
    now destruct (cpu_write q s).
  - intros deliveries d. rewrite <- (gather_memory_ok deliveries d).
    unfold query_memory_utilization.
    now destruct (gather_memory deliveries d).
  - intros deliveries d. rewrite <- (gather_cpu_ok deliveries d).
    unfold query_cpu_utilization.
    now destruct (gather_cpu deliveries d).
Qed.

End EmptySeries.

(** * Sorting, greatest key first *)

Section SortFacts.
Context {A K : Type}.
Variable ltb : K -> K -> bool.
Variable key : A -> K.

Hypothesis ltb_asym : forall x y, ltb x y = true -> ltb y x = false.
Hypothesis not_below_trans : forall a b c,
  not_below ltb key a b -> not_below ltb key b c -> not_below ltb key a c.

Lemma insert_descending_perm (x : A) (l : list A) :
  Permutation (insert_descending ltb key x l) (x :: l).
Proof.
  induction l as [| y l IH]; simpl; [reflexivity |].
  destruct (ltb (key x) (key y)); [| reflexivity].
  rewrite IH. apply perm_swap.
Qed.

Lemma sort_descending_perm (l : list A) :
  Permutation (sort_descending ltb key l) l.
Proof.
  induction l as [| x l IH]; simpl; [reflexivity |].
  rewrite insert_descending_perm. now constructor.
Qed.



Lemma sort_descending_length (l : list A) :
  List.length (sort_descending ltb key l) = List.length l.
Proof. apply Permutation_length, sort_descending_perm. Qed.

(** The sort is stable: the records a test on the key selects come out
    in the order they went in, provided the test does not tell apart two
    keys neither of which is below the other. *)
Lemma insert_descending_stable (p : K -> bool) (x : A) (l : list A) :
  (forall a b, ltb a b = true -> p a = true -> p b = false) ->
  List.filter (fun a => p (key a)) (insert_descending ltb key x l)
  = List.filter (fun a => p (key a)) (x :: l).
Proof.
  intros Sep. induction l as [| y l IH]; [reflexivity |].
  simpl. destruct (ltb (key x) (key y)) eqn:E; [| reflexivity].
  simpl. rewrite IH. simpl.
  destruct (p (key x)) eqn:Px; [| reflexivity].
  now rewrite (Sep _ _ E Px).
Qed.

Lemma sort_descending_stable (p : K -> bool) (l : list A) :
  (forall a b, ltb a b = true -> p a = true -> p b = false) ->
  List.filter (fun a => p (key a)) (sort_descending ltb key l)
  = List.filter (fun a => p (key a)) l.
Proof.
  intros Sep. induction l as [| x l IH]; [reflexivity |].
  simpl sort_descending. rewrite insert_descending_stable by assumption.
  simpl. now rewrite IH.
Qed.

End SortFacts.

Lemma sum_int_from (l : list Z) (a : Z) : fold_left Z.add l a = a + sum_int l.
Proof.
  unfold sum_int. revert a. induction l as [| x l IH]; intros a; simpl.
  - lia.
  - rewrite IH, (IH x). lia.
Qed.






Lemma len_sort_descending {A K : Type} (ltb : K -> K -> bool) (key : A -> K)
  (l : list A) : len (sort_descending ltb key l) = len l.
Proof. unfold len. now rewrite sort_descending_length. Qed.

Lemma len_nonempty {A : Type} (l : list A) : l <> [] -> (len l =? 0) = false.
Proof.
  intros N. apply Z.eqb_neq. unfold len. destruct l; [congruence |].
  simpl. lia.
Qed.

Lemma StronglySorted_weaken {A : Type} (R R' : A -> A -> Prop) (l : list A) :
  (forall a b, R a b -> R' a b) -> StronglySorted R l -> StronglySorted R' l.
Proof.
  intros W. induction 1 as [| x l S IH F]; constructor; [assumption |].
  eapply Forall_impl; [| exact F]. intros b. apply W.
Qed.

(** * The tables *)

Section Tables.
Import MetricsClient MetricsServer.






End Tables.

(** * What a loop body makes of several points *)

Section Reaggregation.
Import Monitoring MetricsClient.

Section MaxFrom.
Context {A : Type}.
Variable lt : A -> A -> bool.
Hypothesis lt_irrefl : forall a, lt a a = false.
Hypothesis lt_trans : forall a b c, lt a b = true -> lt b c = true -> lt a c = true.
Hypothesis ge_trans : forall a b c,
  lt a b = false -> lt b c = false -> lt a c = false.

Lemma max_from_In (best : A) (l : list A) :
  In (max_from lt best l) (best :: l).
Proof.
  revert best. induction l as [| x l IH]; intros best; simpl; [now left |].
  destruct (IH (if lt best x then x else best)) as [E | I].
  - destruct (lt best x); rewrite <- E; auto.
  - auto.
Qed.

Lemma max_from_greatest (best : A) (l : list A) (y : A) :
  In y (best :: l) -> lt (max_from lt best l) y = false.
Proof.
  revert best y. induction l as [| x l IH]; intros best y; simpl.
  - intros [<- | []]. apply lt_irrefl.
  - pose proof (IH (if lt best x then x else best)) as G.
    intros [<- | [<- | I]].
    + destruct (lt best x) eqn:E.
      * destruct (lt (max_from lt x l) best) eqn:L; [| reflexivity].
        rewrite <- (G x (or_introl eq_refl)). symmetry.
        now apply (lt_trans _ best x).
      * apply G. now left.
    + destruct (lt best x) eqn:E.
      * apply G. now left.
      * apply (ge_trans _ best x); [| exact E]. apply G. now left.
    + apply G. now right.
Qed.
End MaxFrom.

(** The max bodies write the greatest value among the points, the mean
    bodies their mean. *)
Lemma max_memory_usage_is_greatest (s : TimeSeries) set :
  memory_write max_memory_usage_q s = Ok set ->
  exists p, set = set_max_memory_usage (int64_value (value p))
    /\ In p (points s)
    /\ forall p', In p' (points s) ->
         int64_value (value p') <= int64_value (value p).
Proof.
  unfold memory_write, max_by, bind. destruct (points s) as [| x l];
    [discriminate |]. intros [= <-].
  exists (max_from
            (fun a b => int64_value (value a) <? int64_value (value b)) x l).
  split; [reflexivity |]. split; [apply max_from_In |].
  intros p' I. apply Z.ltb_ge.
  apply (max_from_greatest
           (fun a b => int64_value (value a) <? int64_value (value b)));
    [| | | exact I].
  - intros a. apply Z.ltb_irrefl.
  - intros a b c. rewrite !Z.ltb_lt. lia.
  - intros a b c. rewrite !Z.ltb_ge. lia.
Qed.

Lemma max_cpu_usage_is_greatest (s : TimeSeries) set :
  cpu_write max_cpu_usage_q s = Ok set ->
  exists p, set = set_max_cpu_usage (double_value (value p))
    /\ In p (points s)
    /\ forall p', In p' (points s) ->
         (double_value (value p') <= double_value (value p))%Q.
Proof.
  unfold cpu_write, max_by, bind. destruct (points s) as [| x l];
    [discriminate |]. intros [= <-].
  exists (max_from
            (fun a b => Qltb (double_value (value a)) (double_value (value b)))
            x l).
  split; [reflexivity |]. split; [apply max_from_In |].
  intros p' I. apply Qltb_ge.
  apply (max_from_greatest
           (fun a b => Qltb (double_value (value a)) (double_value (value b))));
    [| | | exact I].
  - intros a. apply Qltb_ge, Qle_refl.
  - intros a b c. rewrite !Qltb_lt. apply Qlt_trans.
  - intros a b c. rewrite !Qltb_ge. intros H1 H2.
    eapply Qle_trans; eassumption.
Qed.

Lemma mean_bodies_write_the_mean (s : TimeSeries) (p : Point)
  (rest : list Point) :
  points s = p :: rest ->
  let m := (sum_float (double_values s) / inject_Z (len (points s)))%Q in
  memory_write avg_memory_request_utilization_q s
    = Ok (set_avg_memory_request_utilization m)
  /\ memory_write avg_memory_usage_q s = Ok (set_avg_memory_usage m)
  /\ cpu_write avg_cpu_request_utilization_q s
    = Ok (set_avg_cpu_request_utilization m).
Proof.
  intros E. unfold memory_write, cpu_write, mean, double_values, len.
  rewrite E. simpl. rewrite length_map. repeat split.
Qed.

(** C4 (the code at the failing input). Three bodies read the first
    point and nothing else: whatever points follow the first, the write
    is the same. On the points 100, 300 the request written is 100, not
    the greatest (300); on the points 1, 3 the average CPU usage written
    is 1, not the mean (2), and the CPU request written is 1, not the
    greatest (3). *)
Theorem first_point_only :
  (forall ns cn tl p rest d,
     let s := fun ps =>
       {| namespace_name := ns; container_name_label := cn;
          top_level_controller_name_label := tl; points := ps |} in
     memory_request_body (s (p :: rest)) d = memory_request_body (s [p]) d
     /\ avg_cpu_usage_body (s (p :: rest)) d = avg_cpu_usage_body (s [p]) d
     /\ cpu_request_body (s (p :: rest)) d = cpu_request_body (s [p]) d)
  /\ (let ps := [Examples.int_point 100; Examples.int_point 300] in
      match query_memory_utilization [(memory_request_q, Examples.web ps)] []
      with
      | Ok (_, out) => map memory_request out
      | Raise _ => []
      end = [100]
      /\ max_by Z.ltb (fun point => int64_value (value point)) ps
         = Ok (Examples.int_point 300))
  /\ (let ps := [Examples.double_point 1; Examples.double_point 3] in
      match
        query_cpu_utilization
          [(avg_cpu_usage_q, Examples.web ps);
           (cpu_request_q, Examples.web ps)] []
      with
      | Ok (_, out) => map (fun c => (avg_cpu_usage c, cpu_request c)) out
      | Raise _ => []
      end = [(1, 1)]%Q
      /\ mean (map (fun point => double_value (value point)) ps) = Ok (4 # 2)
      /\ max_by Qltb (fun point => double_value (value point)) ps
         = Ok (Examples.double_point 3)).
Proof.
  split; [| split].
  - intros. repeat split.
  - vm_compute. repeat split.
  - vm_compute. repeat split.
Qed.

End Reaggregation.

(** * The derived field *)

Section Derived.
Import Monitoring MetricsClient.

Lemma memory_write_keeps_cpu q s set c :
  memory_write q s = Ok set ->
  cpu_request (set c) = cpu_request c
  /\ avg_cpu_usage (set c) = avg_cpu_usage c
  /\ avg_cpu_request_utilization (set c) = avg_cpu_request_utilization c
  /\ max_cpu_usage (set c) = max_cpu_usage c
  /\ unutilized_cpu (set c) = unutilized_cpu c
  /\ key_of (set c) = key_of c
  /\ container_name (set c) = container_name c.
Proof.
  unfold memory_write, bind. destruct q;
    match goal with |- match ?r with Ok _ => _ | Raise _ => _ end = _ -> _ =>
      destruct r; [| discriminate] end;
    intros [= <-]; repeat split.
Qed.

Lemma cpu_write_keeps_memory q s set c :
  cpu_write q s = Ok set ->
  memory_request (set c) = memory_request c
  /\ avg_memory_usage (set c) = avg_memory_usage c
  /\ avg_memory_request_utilization (set c) = avg_memory_request_utilization c
  /\ max_memory_usage (set c) = max_memory_usage c
  /\ unutilized_memory (set c) = unutilized_memory c
  /\ key_of (set c) = key_of c
  /\ container_name (set c) = container_name c.
Proof.
  unfold cpu_write, bind. destruct q;
    match goal with |- match ?r with Ok _ => _ | Raise _ => _ end = _ -> _ =>
      destruct r; [| discriminate] end;
    intros [= <-]; repeat split.
Qed.





End Derived.


(** * Fields no query wrote *)

Section Defaults.
Import Monitoring MetricsClient.

Lemma memory_query_eq_dec (a b : memory_query) : {a = b} + {a <> b}.
Proof. decide equality. Defined.

Lemma cpu_query_eq_dec (a b : cpu_query) : {a = b} + {a <> b}.
Proof. decide equality. Defined.

Lemma memory_write_other_field q q' s set c :
  memory_write q s = Ok set -> q' <> q ->
  memory_field_zero q' c -> memory_field_zero q' (set c).
Proof.
  unfold memory_write, bind. destruct q;
    match goal with |- match ?r with Ok _ => _ | Raise _ => _ end = _ -> _ =>
      destruct r; [| discriminate] end;
    intros [= <-]; destruct q'; simpl; congruence.
Qed.

Lemma cpu_write_other_field q q' s set c :
  cpu_write q s = Ok set -> q' <> q ->
  cpu_field_zero q' c -> cpu_field_zero q' (set c).
Proof.
  unfold cpu_write, bind. destruct q;
    match goal with |- match ?r with Ok _ => _ | Raise _ => _ end = _ -> _ =>
      destruct r; [| discriminate] end;
    intros [= <-]; destruct q'; simpl; congruence.
Qed.

Lemma memory_write_keeps_cpu_zero q s set c :
  memory_write q s = Ok set -> cpu_fields_zero c -> cpu_fields_zero (set c).
Proof.
  intros W [F U]. unfold cpu_fields_zero.
  destruct (memory_write_keeps_cpu q s set c W)
    as (E1 & E2 & E3 & E4 & E5 & _).
  split; [| congruence].
  intros q'. specialize (F q'). destruct q'; simpl in *; congruence.
Qed.

Lemma cpu_write_keeps_memory_zero q s set c :
  cpu_write q s = Ok set ->
  memory_fields_zero c -> memory_fields_zero (set c).
Proof.
  intros W [F U]. unfold memory_fields_zero.
  destruct (cpu_write_keeps_memory q s set c W)
    as (E1 & E2 & E3 & E4 & E5 & _).
  split; [| congruence].
  intros q'. specialize (F q'). destruct q'; simpl in *; congruence.
Qed.

Lemma gather_memory_entries deliveries d' :
  gather_memory deliveries [] = Ok d' ->
  Forall (memory_entry_ok deliveries) d'.
Proof.
  apply (gather_memory_inv (Forall (memory_entry_ok deliveries)));
    [| constructor].
  intros q s set d I W. apply assign_Forall.
  - split; [reflexivity | split].
    + split; [intros [] |]; reflexivity.
    + intros [] _; reflexivity.
  - intros c (Hk & Hc & Hq). unfold memory_entry_ok. cbn [fst snd] in *.
    destruct (memory_write_keeps_cpu q s set c W)
      as (_ & _ & _ & _ & _ & Ek & _).
    split; [congruence |].
    split; [now apply (memory_write_keeps_cpu_zero q s) |].
    intros q' Hq'. destruct (memory_query_eq_dec q' q) as [-> | Nq].
    + exfalso. now apply (Hq' s).
    + apply (memory_write_other_field q q' s); auto.
Qed.

Lemma gather_cpu_entries deliveries d' :
  gather_cpu deliveries [] = Ok d' ->
  Forall (cpu_entry_ok deliveries) d'.
Proof.
  apply (gather_cpu_inv (Forall (cpu_entry_ok deliveries)));
    [| constructor].
  intros q s set d I W. apply assign_Forall.
  - split; [reflexivity | split].
    + split; [intros [] |]; reflexivity.
    + intros [] _; reflexivity.
  - intros c (Hk & Hc & Hq). unfold cpu_entry_ok. cbn [fst snd] in *.
    destruct (cpu_write_keeps_memory q s set c W)
      as (_ & _ & _ & _ & _ & Ek & _).
    split; [congruence |].
    split; [now apply (cpu_write_keeps_memory_zero q s) |].
    intros q' Hq'. destruct (cpu_query_eq_dec q' q) as [-> | Nq].
    + exfalso. now apply (Hq' s).
    + apply (cpu_write_other_field q q' s); auto.
Qed.

(** The peak usage recorded is never negative when no usage point is. *)
Lemma gather_memory_usage_nonneg deliveries d' :
  (forall s p, In (max_memory_usage_q, s) deliveries -> In p (points s) ->
     0 <= int64_value (value p)) ->
  gather_memory deliveries [] = Ok d' ->
  Forall (fun item => 0 <= max_memory_usage (snd item)) d'.
Proof.
  intros Pos.
  apply (gather_memory_inv
           (Forall (fun item => 0 <= max_memory_usage (snd item))));
    [| constructor].
  intros q s set d I W. apply assign_Forall.
  - simpl. lia.
  - intros c Hc. simpl in *.
    destruct (memory_query_eq_dec q max_memory_usage_q) as [-> | Nq].
    + destruct (max_memory_usage_is_greatest s set W) as (p & -> & Ip & _).
      simpl. now apply (Pos s).
    + revert W. unfold memory_write, bind. destruct q; try congruence;
        match goal with
        | |- match ?r with Ok _ => _ | Raise _ => _ end = _ -> _ =>
            destruct r; [| discriminate]
        end; intros [= <-]; exact Hc.
Qed.

End Defaults.

Section DefaultsReturned.
Import Monitoring MetricsClient.

(** C9. Of a record a memory call on a new client returns: the five CPU
    fields are 0; each memory field whose query delivered no series for
    the record's key is 0; in particular, when no request-bytes series
    was delivered for the key, the request is 0 and the unutilized
    memory is max(0, - peak usage), which is 0 when no delivered usage
    point is negative. *)
Theorem unwritten_fields_stay_zero :
  forall deliveries d' out c,
    query_memory_utilization deliveries [] = Ok (d', out) ->
    In c out ->
    cpu_fields_zero c
    /\ (forall q,
          (forall s, In (q, s) deliveries -> container_key s <> key_of c) ->
          memory_field_zero q c)
    /\ ((forall s, In (memory_request_q, s) deliveries ->
           container_key s <> key_of c) ->
        memory_request c = 0
        /\ unutilized_memory c = Z.max 0 (- max_memory_usage c)
        /\ ((forall s p, In (max_memory_usage_q, s) deliveries ->
               In p (points s) -> 0 <= int64_value (value p)) ->
            unutilized_memory c = 0)).
Proof.
  intros deliveries d' out c R I.
  destruct (query_memory_utilization_returns deliveries [] d' out
              (NoDup_nil _) R) as (d1 & G & -> & ->).
  apply In_values_kept in I. destruct I as (item & I & _ & ->).
  pose proof (gather_memory_entries _ _ G) as E.
  rewrite Forall_forall in E. destruct (E item I) as (Hk & Hc & Hq).
  assert (K : key_of (with_unutilized_memory item) = fst item)
    by (rewrite <- Hk; reflexivity).
  split; [| split].
  - destruct Hc as [F U]. split; [| exact U].
    intros q. specialize (F q). destruct q; exact F.
  - intros q H. rewrite K in H. specialize (Hq q H).
    destruct q; exact Hq.
  - intros H. rewrite K in H.
    pose proof (Hq memory_request_q H) as Z0. simpl in Z0.
    unfold with_unutilized_memory. simpl. rewrite Z0, max_int_max.
    split; [reflexivity | split; [f_equal |]].
    intros Pos.
    pose proof (gather_memory_usage_nonneg _ _ Pos G) as U.
    rewrite Forall_forall in U. specialize (U item I). simpl in U. lia.
Qed.

(** On usage results alone (peaks 100 and 350, no request-bytes series):
    the record comes back with request 0 and nothing unutilized. *)
Lemma unwritten_fields_stay_zero_witness :
  MetricsClient.memory_request Examples.usage_only_record = 0
  /\ MetricsClient.unutilized_memory Examples.usage_only_record = 0.
Proof.
  pose proof (unwritten_fields_stay_zero Examples.usage_only
                Examples.usage_only_table
                (values Examples.usage_only_table)
                Examples.usage_only_record
                eq_refl (or_introl eq_refl)) as (_ & _ & H).
  assert (A : forall s, In (memory_request_q, s) Examples.usage_only ->
           container_key s <> key_of Examples.usage_only_record).
  { intros s [E | [E | []]]; discriminate E. }
  destruct (H A) as (R & _ & U). split; [exact R |].
  apply U. intros s p [E | [E | []]] Ip; [| discriminate E].
  injection E as <-. simpl in Ip.
  destruct Ip as [<- | [<- | []]]; simpl; lia.
Defined.

(** The same for a CPU call: the five memory fields are 0, and so is
    each CPU field whose query delivered no series for the key. *)
Lemma unwritten_cpu_fields_stay_zero :
  forall deliveries d' out c,
    query_cpu_utilization deliveries [] = Ok (d', out) ->
    In c out ->
    memory_fields_zero c
    /\ (forall q,
          (forall s, In (q, s) deliveries -> container_key s <> key_of c) ->
          cpu_field_zero q c).
Proof.
  intros deliveries d' out c R I.
  destruct (query_cpu_utilization_returns deliveries [] d' out
              (NoDup_nil _) R) as (d1 & G & -> & ->).
  apply In_values_kept in I. destruct I as (item & I & _ & ->).
  pose proof (gather_cpu_entries _ _ G) as E.
  rewrite Forall_forall in E. destruct (E item I) as (Hk & Hc & Hq).
  assert (K : key_of (with_unutilized_cpu item) = fst item)
    by (rewrite <- Hk; reflexivity).
  split.
  - destruct Hc as [F U]. split; [| exact U].
    intros q. specialize (F q). destruct q; exact F.
  - intros q H. rewrite K in H. specialize (Hq q H).
    destruct q; exact Hq.
Qed.

End DefaultsReturned.

(** * Substrings *)

Lemma prefix_iff (a b : string) :
  prefix a b = true <-> exists post, b = (a ++ post)%string.
Proof.
  revert b. induction a as [| ch a IH]; intros b.
  - destruct b; simpl; (split; [intros _; eexists; reflexivity | reflexivity]).
  - destruct b as [| ch' b]; simpl.
    + split; [discriminate | intros [post E]; discriminate E].
    + destruct (ascii_dec ch ch') as [-> | N].
      * rewrite IH. split; intros [post E]; exists post; congruence.
      * split; [discriminate | intros [post E]; congruence].
Qed.

Lemma prefix_contains (sub s : string) :
  prefix sub s = true -> contains sub s = true.
Proof. destruct s; cbn [contains]; intros ->; reflexivity. Qed.

(** [contains sub s] holds exactly when [sub] occurs in [s]. *)
Lemma contains_iff (sub s : string) :
  contains sub s = true
  <-> exists pre post, s = (pre ++ sub ++ post)%string.
Proof.
  split.
  - induction s as [| ch s IH]; cbn [contains].
    + destruct (prefix sub EmptyString) eqn:P; [| discriminate].
      intros _. apply prefix_iff in P. destruct P as [post E].
      now exists EmptyString, post.
    + destruct (prefix sub (String ch s)) eqn:P.
      * intros _. apply prefix_iff in P. destruct P as [post E].
        now exists EmptyString, post.
      * intros C. destruct (IH C) as (pre & post & ->).
        now exists (String ch pre), post.
  - intros (pre & post & ->). induction pre as [| ch pre IH].
    + apply prefix_contains, prefix_iff. now exists post.
    + change (String ch pre ++ sub ++ post)%string
        with (String ch (pre ++ sub ++ post)).
      cbn [contains]. rewrite IH.
      now destruct (prefix sub (String ch (pre ++ sub ++ post))).
Qed.

(** * The monitor script *)

Section MonitorFacts.
Import Monitoring Monitor.

Lemma monitor_body_write (q : memory_query) (s : TimeSeries)
  (d : container_metrics_t) :
  memory_body q s d
  = (set <- memory_write q s ;; Ok (assign s set (upsert_container s d))).
Proof.
  unfold memory_write. destruct q; simpl;
    unfold avg_memory_request_utilization_body, max_memory_usage_body,
      avg_memory_usage_body, memory_request_body, bind;
    destruct (first (points s)); reflexivity.
Qed.

(** The four bodies of the script read the first point: they raise
    IndexError on a series with no points, and only then. *)
Lemma monitor_handlers_need_a_point :
  (forall q ns cn tl d,
     memory_body q
       {| namespace_name := ns; container_name_label := cn;
          top_level_controller_name_label := tl; points := [] |} d
     = Raise IndexError)
  /\ (forall q s d,
     is_ok (memory_body q s d) = MetricsClient.has_points (q, s)).
Proof.
  split.
  - intros []; reflexivity.
  - intros q s d. rewrite monitor_body_write.
    unfold memory_write, MetricsClient.has_points. simpl.
    destruct (points s); reflexivity.
Qed.

Lemma monitor_assign_NoDup (s : TimeSeries)
  (set : ContainerMetrics -> ContainerMetrics) (d : container_metrics_t) :
  NoDup (keys d) -> NoDup (keys (assign s set (upsert_container s d))).
Proof.
  intros N. unfold assign, upsert_container.
  destruct (dict_get key_eqb (container_key s) d) as [c |].
  - now apply (NoDup_dict_set _ key_eqb_eq).
  - apply (NoDup_dict_set _ key_eqb_eq).
    now apply (NoDup_dict_set _ key_eqb_eq).
Qed.

Lemma monitor_gather_NoDup deliveries d d' :
  NoDup (keys d) -> gather_memory deliveries d = Ok d' -> NoDup (keys d').
Proof.
  unfold gather_memory. revert d.
  induction deliveries as [| [q s] l IH]; intros d N; simpl.
  - now intros [= <-].
  - rewrite monitor_body_write. unfold bind at 1 2.
    destruct (memory_write q s) as [set |]; [| discriminate].
    apply IH. now apply monitor_assign_NoDup.
Qed.

Lemma overprovisioner_pass_all (d : container_metrics_t) :
  NoDup (keys d) ->
  fold_left overprovisioner_pass d d = kept is_overprovisioner snd d.
Proof.
  apply pass_all. intros pre k m l N.
  unfold overprovisioner_pass, is_overprovisioner. simpl.
  destruct (contains "overprovisioner" (container_name m)).
  - now apply dict_del_middle; [apply key_eqb_eq |].
  - reflexivity.
Qed.

Lemma query_metrics_returns deliveries d d' :
  NoDup (keys d) ->
  query_metrics deliveries d = Ok d' ->
  exists d1,
    gather_memory deliveries d = Ok d1
    /\ d' = kept is_overprovisioner snd d1.
Proof.
  intros N. unfold query_metrics, bind.
  destruct (gather_memory deliveries d) as [d1 |] eqn:G; [| discriminate].
  intros [= <-]. exists d1.
  rewrite overprovisioner_pass_all
    by (eapply monitor_gather_NoDup; eassumption).
  auto.
Qed.

Lemma query_metrics_clean deliveries d d' :
  NoDup (keys d) ->
  query_metrics deliveries d = Ok d' -> Forall is_clean (values d').
Proof.
  intros N R. destruct (query_metrics_returns _ _ _ N R) as (d1 & _ & ->).
  rewrite Forall_forall. intros c I.
  apply In_values_kept in I. destruct I as (item & _ & D & ->).
  exact D.
Qed.

End MonitorFacts.

(** * Overprovisioner rows *)

Section Overprovisioner.
Import Monitoring.

(** C3. No record a memory call or a CPU call of the client returns, no
    record the monitor's [query_metrics] leaves in its table, and no row
    of the report the monitor prints belongs to a container whose name
    contains overprovisioner (the table the call starts from has
    distinct keys, as every dict has). *)
Theorem overprovisioner_never_returned :
  (forall deliveries d d' out,
     NoDup (keys d) ->
     MetricsClient.query_memory_utilization deliveries d = Ok (d', out) ->
     Forall MetricsClient.is_clean out)
  /\ (forall deliveries d d' out,
     NoDup (keys d) ->
     MetricsClient.query_cpu_utilization deliveries d = Ok (d', out) ->
     Forall MetricsClient.is_clean out)
  /\ (forall deliveries d d',
     NoDup (keys d) ->
     Monitor.query_metrics deliveries d = Ok d' ->
     Forall Monitor.is_clean (values d'))
  /\ (forall deliveries d t,
     NoDup (keys d) ->
     Monitor.print_utilization deliveries d = Ok t ->
     exists d' shown total,
       Monitor.query_metrics deliveries d = Ok d'
       /\ Permutation shown (values d')
       /\ Forall Monitor.is_clean shown
       /\ tabular_data t = map Monitor.report_row shown ++ [total]).
Proof.
  split; [| split; [| split]].
  - intros deliveries d d' out N R.
    destruct (query_memory_utilization_returns _ _ _ _ N R)
      as (d1 & _ & -> & ->).
    rewrite Forall_forall. intros c I.
    apply In_values_kept in I. destruct I as (item & _ & D & ->).
    exact D.
  - intros deliveries d d' out N R.
    destruct (query_cpu_utilization_returns _ _ _ _ N R)
      as (d1 & _ & -> & ->).
    rewrite Forall_forall. intros c I.
    apply In_values_kept in I. destruct I as (item & _ & D & ->).
    exact D.
  - intros deliveries d d' N R. now apply (query_metrics_clean deliveries d).
  - intros deliveries d t N. unfold Monitor.print_utilization, bind.
    destruct (Monitor.query_metrics deliveries d) as [d' |] eqn:R;
      [| discriminate].
    pose proof (query_metrics_clean _ _ _ N R) as C.
    match goal with
    | |- match ?r with Ok _ => _ | Raise _ => _ end = _ -> _ =>
        destruct r as [mu |]; [| discriminate]
    end.
    match goal with
    | |- match ?r with Ok _ => _ | Raise _ => _ end = _ -> _ =>
        destruct r as [ma |]; [| discriminate]
    end.
    intros [= <-]. exists d'.
    exists (sort_descending Z.ltb Monitor.unutilized_memory (values d')).
    eexists. split; [reflexivity |].
    split; [apply sort_descending_perm |].
    split; [| reflexivity].
    eapply Permutation_Forall; [| exact C].
    symmetry. apply sort_descending_perm.
Qed.

(** On the example deliveries, which include the sidecar: only the web
    container is returned, kept and shown. *)
Lemma overprovisioner_never_returned_witness :
  Forall MetricsClient.is_clean (values Examples.memory_table)
  /\ Forall MetricsClient.is_clean (values Examples.cpu_table)
  /\ Forall Monitor.is_clean (values Examples.monitor_table)
  /\ exists d' shown total,
       Monitor.query_metrics Examples.monitor_deliveries [] = Ok d'
       /\ Permutation shown (values d')
       /\ Forall Monitor.is_clean shown
       /\ tabular_data Examples.monitor_report
          = map Monitor.report_row shown ++ [total].
Proof.
  split; [| split; [| split]].
  - apply (proj1 overprovisioner_never_returned
             Examples.memory_deliveries [] Examples.memory_table
             (values Examples.memory_table)
             (NoDup_nil _) eq_refl).
  - apply (proj1 (proj2 overprovisioner_never_returned)
             Examples.cpu_deliveries [] Examples.cpu_table
             (values Examples.cpu_table)
             (NoDup_nil _) eq_refl).
  - apply (proj1 (proj2 (proj2 overprovisioner_never_returned))
             Examples.monitor_deliveries [] Examples.monitor_table
             (NoDup_nil _) eq_refl).
  - apply (proj2 (proj2 (proj2 overprovisioner_never_returned))
             Examples.monitor_deliveries [] Examples.monitor_report
             (NoDup_nil _) eq_refl).
Defined.

End Overprovisioner.

(** * One coroutine after another *)

Lemma for_each_app {A S : Type} (body : A -> S -> result S)
  (l1 l2 : list A) (s : S) :
  for_each body (l1 ++ l2) s
  = (s' <- for_each body l1 s ;; for_each body l2 s').
Proof.
  revert s. induction l1 as [| a l1 IH]; intros s; simpl; [reflexivity |].
  destruct (body a s); simpl; [apply IH | reflexivity].
Qed.

Lemma for_each_map {A B S : Type} (f : B -> A) (body : A -> S -> result S)
  (l : list B) (s : S) :
  for_each body (map f l) s = for_each (fun b => body (f b)) l s.
Proof.
  revert s. induction l as [| b l IH]; intros s; simpl; [reflexivity |].
  destruct (body (f b) s); simpl; [apply IH | reflexivity].
Qed.

(** The schedule in which each coroutine runs to its end before the next
    starts is the four [query_*] loops in a row. *)
Lemma gather_memory_in_a_row r1 r2 r3 r4 d :
  MetricsClient.gather_memory
    (map (pair MetricsClient.avg_memory_request_utilization_q) r1
     ++ map (pair MetricsClient.max_memory_usage_q) r2
     ++ map (pair MetricsClient.avg_memory_usage_q) r3
     ++ map (pair MetricsClient.memory_request_q) r4) d
  = (d <- MetricsClient.query_avg_memory_request_utilization r1 d ;;
     d <- MetricsClient.query_max_memory_usage r2 d ;;
     d <- MetricsClient.query_avg_memory_usage r3 d ;;
     MetricsClient.query_memory_request r4 d).
Proof.
  unfold MetricsClient.gather_memory,
    MetricsClient.query_avg_memory_request_utilization,
    MetricsClient.query_max_memory_usage,
    MetricsClient.query_avg_memory_usage,
    MetricsClient.query_memory_request.
  rewrite for_each_app, for_each_map.
  cbn [fst snd MetricsClient.memory_body].
  destruct (for_each MetricsClient.avg_memory_request_utilization_body r1 d)
    as [d1 |]; cbn [bind]; [| reflexivity].
  rewrite for_each_app, for_each_map.
  cbn [fst snd MetricsClient.memory_body].
  destruct (for_each MetricsClient.max_memory_usage_body r2 d1)
    as [d2 |]; cbn [bind]; [| reflexivity].
  rewrite for_each_app, for_each_map.
  cbn [fst snd MetricsClient.memory_body].
  destruct (for_each MetricsClient.avg_memory_usage_body r3 d2)
    as [d3 |]; cbn [bind]; [| reflexivity].
  rewrite for_each_map. reflexivity.
Qed.

Lemma gather_cpu_in_a_row r1 r2 r3 r4 d :
  MetricsClient.gather_cpu
    (map (pair MetricsClient.avg_cpu_request_utilization_q) r1
     ++ map (pair MetricsClient.max_cpu_usage_q) r2
     ++ map (pair MetricsClient.avg_cpu_usage_q) r3
     ++ map (pair MetricsClient.cpu_request_q) r4) d
  = (d <- MetricsClient.query_avg_cpu_request_utilization r1 d ;;
     d <- MetricsClient.query_max_cpu_usage r2 d ;;
     d <- MetricsClient.query_avg_cpu_usage r3 d ;;
     MetricsClient.query_cpu_request r4 d).
Proof.
  unfold MetricsClient.gather_cpu,
    MetricsClient.query_avg_cpu_request_utilization,
    MetricsClient.query_max_cpu_usage,
    MetricsClient.query_avg_cpu_usage,
    MetricsClient.query_cpu_request.
  rewrite for_each_app, for_each_map.
  cbn [fst snd MetricsClient.cpu_body].
  destruct (for_each MetricsClient.avg_cpu_request_utilization_body r1 d)
    as [d1 |]; cbn [bind]; [| reflexivity].
  rewrite for_each_app, for_each_map.
  cbn [fst snd MetricsClient.cpu_body].
  destruct (for_each MetricsClient.max_cpu_usage_body r2 d1)
    as [d2 |]; cbn [bind]; [| reflexivity].
  rewrite for_each_app, for_each_map.
  cbn [fst snd MetricsClient.cpu_body].
  destruct (for_each MetricsClient.avg_cpu_usage_body r3 d2)
    as [d3 |]; cbn [bind]; [| reflexivity].
  rewrite for_each_map. reflexivity.
Qed.

(** * The table of a gather, key by key *)

Section DictLookups.
Context {K V : Type}.
Variable eqb : K -> K -> bool.
Hypothesis eqb_eq : forall a b, eqb a b = true <-> a = b.

Lemma existsb_eqb_In (k : K) (l : list K) :
  existsb (eqb k) l = true <-> In k l.
Proof.
  rewrite existsb_exists. split.
  - intros (x & I & E). apply eqb_eq in E. now subst.
  - intros I. exists k. split; [assumption | now apply eqb_eq].
Qed.

(** With distinct keys every entry is what a lookup of its key finds. *)
Lemma In_dict_get (k : K) (v : V) (d : dict K V) :
  NoDup (keys d) -> In (k, v) d -> dict_get eqb k d = Some v.
Proof.
  induction d as [| [k' v'] d IH]; simpl; [tauto |].
  intros N [E | I].
  - injection E as -> ->. now rewrite (eqb_refl eqb eqb_eq).
  - inversion N as [| ? ? Nk Nd]; subst.
    rewrite (eqb_neq eqb eqb_eq).
    + now apply IH.
    + intros ->. apply Nk. now apply (in_map fst) in I.
Qed.

Lemma dict_get_kept (drop : K * V -> bool) (f : K * V -> V)
  (k : K) (d : dict K V) :
  NoDup (keys d) ->
  dict_get eqb k (kept drop f d)
  = match dict_get eqb k d with
    | Some v => if drop (k, v) then None else Some (f (k, v))
    | None => None
    end.
Proof.
  induction d as [| [k' v'] d IH]; simpl; [reflexivity |].
  intros N. inversion N as [| ? ? Nk Nd]; subst.
  unfold kept in *. simpl.
  destruct (eqb k k') eqn:E.
  - apply eqb_eq in E. subst k'.
    destruct (drop (k, v')) eqn:D; simpl.
    + rewrite IH by assumption.
      destruct (dict_get eqb k d) as [v |] eqn:G; [| reflexivity].
      exfalso. apply Nk. apply (dict_get_In eqb eqb_eq) in G.
      now apply (in_map fst) in G.
    + now rewrite (eqb_refl eqb eqb_eq).
  - destruct (drop (k', v')); simpl; [now apply IH |].
    rewrite E. now apply IH.
Qed.

Lemma keys_kept_NoDup (drop : K * V -> bool) (f : K * V -> V)
  (d : dict K V) : NoDup (keys d) -> NoDup (keys (kept drop f d)).
Proof.
  unfold keys, kept. rewrite map_map. simpl.
  induction d as [| [k v] d IH]; simpl; [constructor |].
  intros N. inversion N as [| ? ? Nk Nd]; subst.
  destruct (drop (k, v)); simpl; [now apply IH |].
  constructor; [| now apply IH].
  intros I. apply Nk. apply in_map_iff in I. destruct I as (x & <- & I).
  apply filter_In in I. now apply in_map.
Qed.

(** Two tables with distinct keys and the same lookups hold the same
    entries, in some order. *)
Lemma same_lookups_Permutation (d1 d2 : dict K V) :
  NoDup (keys d1) -> NoDup (keys d2) ->
  (forall k, dict_get eqb k d1 = dict_get eqb k d2) ->
  Permutation d1 d2.
Proof.
  intros N1 N2 E. apply NoDup_Permutation.
  - now apply (NoDup_map_inv fst).
  - now apply (NoDup_map_inv fst).
  - intros [k v]. split; intros I.
    + apply (dict_get_In eqb eqb_eq). rewrite <- E. now apply In_dict_get.
    + apply (dict_get_In eqb eqb_eq). rewrite E. now apply In_dict_get.
Qed.

(** The values a pass keeps, read key by key. *)
Lemma values_kept_by_key (drop : K * V -> bool) (f : K * V -> V)
  (d : dict K V) :
  NoDup (keys d) ->
  values (kept drop f d)
  = flat_map
      (fun k =>
         match dict_get eqb k d with
         | Some v => if drop (k, v) then [] else [f (k, v)]
         | None => []
         end)
      (keys d).
Proof.
  intros N.
  assert (G : forall l, (forall k v, In (k, v) l -> dict_get eqb k d = Some v)
            -> values (kept drop f l)
               = flat_map
                   (fun k =>
                      match dict_get eqb k d with
                      | Some v => if drop (k, v) then [] else [f (k, v)]
                      | None => []
                      end) (keys l)).
  { induction l as [| [k v] l IH]; intros H; [reflexivity |].
    unfold values, kept in *. simpl.
    rewrite (H k v) by now left.
    destruct (drop (k, v)); simpl; rewrite IH; auto;
      intros k0 v0 I; apply H; now right. }
  apply G. intros k v. now apply In_dict_get.
Qed.

End DictLookups.

Section Family.
Import Monitoring MetricsClient.
Context {T : Type}.
Variable eqb : T -> T -> bool.
Hypothesis eqb_eq : forall a b, eqb a b = true <-> a = b.
Variable write :
  T -> TimeSeries -> result (ContainerMetrics -> ContainerMetrics).
Variable body :
  T -> TimeSeries -> container_metrics_t -> result container_metrics_t.
Hypothesis body_write : forall q s d,
  body q s d
  = (set <- write q s ;; Ok (assign s set (upsert_container s d))).
Hypothesis write_commute : forall q1 q2 s1 s2 set1 set2 c,
  q1 <> q2 -> write q1 s1 = Ok set1 -> write q2 s2 = Ok set2 ->
  set1 (set2 c) = set2 (set1 c).

Let gather (deliveries : list (T * TimeSeries)) (d : container_metrics_t) :=
  for_each (fun delivery => body (fst delivery) (snd delivery)) deliveries d.

Lemma family_gather_ok deliveries d :
  is_ok (gather deliveries d) = forallb (fun e => is_ok (write (fst e) (snd e))) deliveries.
Proof.
  unfold gather. revert d.
  induction deliveries as [| [q s] l IH]; intros d; simpl; [reflexivity |].
  rewrite body_write. unfold bind at 1 2.
  destruct (write q s); simpl; [apply IH | reflexivity].
Qed.

Lemma family_lookup deliveries : forall d d',
  gather deliveries d = Ok d' ->
  forall k, dict_get key_eqb k d'
            = record_under write k deliveries (dict_get key_eqb k d).
Proof.
  unfold gather, record_under.
  induction deliveries as [| [q s] l IH]; intros d d'; simpl.
  - now intros [= <-].
  - rewrite body_write. unfold bind at 1 2.
    destruct (write q s) as [set |] eqn:W; [| discriminate].
    intros G k. rewrite (IH _ _ G k). f_equal.
    destruct (assign_get s set d) as [Same Other].
    unfold deliver. cbn [fst snd]. rewrite W.
    destruct (key_eqb (container_key s) k) eqn:E.
    + apply key_eqb_eq in E. subst k. rewrite Same. reflexivity.
    + rewrite Other; [reflexivity |]. intros ->.
      rewrite (proj2 (key_eqb_eq _ _) eq_refl) in E. discriminate.
Qed.

Lemma assign_keys (s : TimeSeries)
  (set : ContainerMetrics -> ContainerMetrics) (d : container_metrics_t) :
  keys (assign s set (upsert_container s d))
  = note_key (keys d) (container_key s).
Proof.
  unfold assign, upsert_container, note_key.
  destruct (dict_get key_eqb (container_key s) d) as [c |] eqn:G.
  - assert (I : In (container_key s) (keys d)).
    { apply (dict_get_In _ key_eqb_eq) in G. now apply (in_map fst) in G. }
    rewrite (proj2 (existsb_eqb_In _ key_eqb_eq _ _) I).
    now apply (keys_dict_set_in _ key_eqb_eq).
  - apply (dict_get_None _ key_eqb_eq) in G.
    destruct (existsb (key_eqb (container_key s)) (keys d)) eqn:X.
    + apply (existsb_eqb_In _ key_eqb_eq) in X. tauto.
    + rewrite (keys_dict_set_in _ key_eqb_eq).
      * now apply (keys_dict_set_notin _ key_eqb_eq).
      * rewrite (keys_dict_set_notin _ key_eqb_eq) by assumption.
        apply in_or_app. right. now left.
Qed.

Lemma family_keys deliveries : forall d d',
  gather deliveries d = Ok d' ->
  keys d' = keys_in_order deliveries (keys d).
Proof.
  unfold gather, keys_in_order.
  induction deliveries as [| [q s] l IH]; intros d d'; simpl.
  - now intros [= <-].
  - rewrite body_write. unfold bind at 1 2.
    destruct (write q s) as [set |] eqn:W; [| discriminate].
    intros G. rewrite (IH _ _ G). now rewrite assign_keys.
Qed.

Lemma family_NoDup deliveries : forall d d',
  NoDup (keys d) -> gather deliveries d = Ok d' -> NoDup (keys d').
Proof.
  unfold gather.
  induction deliveries as [| [q s] l IH]; intros d d' N; simpl.
  - now intros [= <-].
  - rewrite body_write. unfold bind at 1 2.
    destruct (write q s) as [set |]; [| discriminate].
    apply IH. now apply assign_NoDup.
Qed.

(** Deliveries of different queries may change places. *)
Lemma deliver_swap (k : ContainerKey) (acc : option ContainerMetrics)
  (e1 e2 : T * TimeSeries) :
  fst e1 <> fst e2 ->
  deliver write k (deliver write k acc e1) e2
  = deliver write k (deliver write k acc e2) e1.
Proof.
  intros N. unfold deliver.
  destruct (key_eqb (container_key (snd e1)) k) eqn:K1;
    destruct (key_eqb (container_key (snd e2)) k) eqn:K2;
    try reflexivity.
  apply key_eqb_eq in K1, K2.
  assert (F : fresh (snd e1) = fresh (snd e2)).
  { unfold fresh. unfold container_key in K1, K2. rewrite <- K2 in K1.
    injection K1 as -> -> ->. reflexivity. }
  destruct (write (fst e1) (snd e1)) as [set1 |] eqn:W1;
    destruct (write (fst e2) (snd e2)) as [set2 |] eqn:W2;
    try reflexivity.
  f_equal. destruct acc as [c |].
  - symmetry. now apply (write_commute (fst e1) (fst e2) (snd e1) (snd e2)).
  - rewrite F. symmetry.
    now apply (write_commute (fst e1) (fst e2) (snd e1) (snd e2)).
Qed.

Lemma record_under_front k (pre post : list (T * TimeSeries)) e acc :
  (forall e', In e' pre -> fst e' <> fst e) ->
  record_under write k (pre ++ e :: post) acc
  = record_under write k (e :: pre ++ post) acc.
Proof.
  unfold record_under. revert acc.
  induction pre as [| x pre IH]; intros acc H; [reflexivity |].
  simpl. rewrite IH by (intros e' I; apply H; now right).
  simpl. f_equal. apply deliver_swap. apply H. now left.
Qed.

Lemma same_streams_nil l' : same_streams eqb [] l' -> l' = [].
Proof.
  intros H. destruct l' as [| [q s] l']; [reflexivity |].
  specialize (H q). unfold stream in H. simpl in H.
  rewrite (proj2 (eqb_eq q q) eq_refl) in H. discriminate.
Qed.

Lemma stream_first q s rest l' :
  stream eqb q l' = (q, s) :: rest ->
  exists pre post,
    l' = pre ++ (q, s) :: post
    /\ (forall e', In e' pre -> fst e' <> q)
    /\ stream eqb q post = rest.
Proof.
  unfold stream. induction l' as [| [q' s'] l' IH]; simpl; [discriminate |].
  destruct (eqb q' q) eqn:E.
  - apply eqb_eq in E. subst q'. intros [= -> <-].
    exists [], l'. repeat split. intros e' [].
  - intros H. destruct (IH H) as (pre & post & -> & Hpre & Hpost).
    exists ((q', s') :: pre), post. repeat split; [| assumption].
    intros e' [<- | I]; [| now apply Hpre].
    simpl. intros ->. rewrite (proj2 (eqb_eq q q) eq_refl) in E.
    discriminate.
Qed.

Lemma stream_app q (l1 l2 : list (T * TimeSeries)) :
  stream eqb q (l1 ++ l2) = stream eqb q l1 ++ stream eqb q l2.
Proof. unfold stream. apply filter_app. Qed.

Lemma stream_cons q q' s (l : list (T * TimeSeries)) :
  stream eqb q' ((q, s) :: l)
  = if eqb q q' then (q, s) :: stream eqb q' l else stream eqb q' l.
Proof. reflexivity. Qed.

Lemma stream_none q (pre : list (T * TimeSeries)) :
  (forall e', In e' pre -> fst e' <> q) -> stream eqb q pre = [].
Proof.
  unfold stream. induction pre as [| x pre IH]; intros H; [reflexivity |].
  simpl. destruct (eqb (fst x) q) eqn:E.
  - apply eqb_eq in E. exfalso. apply (H x); [now left | assumption].
  - apply IH. intros e' I. apply H. now right.
Qed.

Lemma same_streams_split q s rest l' :
  same_streams eqb ((q, s) :: rest) l' ->
  exists pre post,
    l' = pre ++ (q, s) :: post
    /\ (forall e', In e' pre -> fst e' <> q)
    /\ same_streams eqb rest (pre ++ post).
Proof.
  intros H.
  assert (Hq : stream eqb q l' = (q, s) :: stream eqb q rest).
  { rewrite <- (H q). unfold stream. simpl.
    now rewrite (proj2 (eqb_eq q q) eq_refl). }
  destruct (stream_first _ _ _ _ Hq) as (pre & post & -> & Hpre & Hpost).
  exists pre, post. repeat split; [assumption |].
  intros q'. specialize (H q'). rewrite stream_app in *.
  rewrite !stream_cons in H.
  destruct (eqb q q') eqn:E.
  - apply eqb_eq in E. subst q'.
    rewrite (stream_none q pre Hpre). simpl. now rewrite Hpost.
  - exact H.
Qed.

Lemma same_streams_Permutation l : forall l',
  same_streams eqb l l' -> Permutation l l'.
Proof.
  induction l as [| [q s] rest IH]; intros l' H.
  - now rewrite (same_streams_nil _ H).
  - destruct (same_streams_split _ _ _ _ H) as (pre & post & -> & _ & H').
    apply Permutation_cons_app. now apply IH.
Qed.

Lemma same_streams_record k l : forall l' acc,
  same_streams eqb l l' ->
  record_under write k l acc = record_under write k l' acc.
Proof.
  induction l as [| [q s] rest IH]; intros l' acc H.
  - now rewrite (same_streams_nil _ H).
  - destruct (same_streams_split _ _ _ _ H) as (pre & post & -> & Hpre & H').
    rewrite record_under_front by exact Hpre.
    unfold record_under in *. simpl. now apply IH.
Qed.

End Family.

(** * The two families of the client *)

Section Families.
Import Monitoring MetricsClient.

Lemma memory_query_eqb_eq (a b : memory_query) :
  memory_query_eqb a b = true <-> a = b.
Proof. destruct a, b; simpl; split; congruence. Qed.

Lemma cpu_query_eqb_eq (a b : cpu_query) :
  cpu_query_eqb a b = true <-> a = b.
Proof. destruct a, b; simpl; split; congruence. Qed.

Ltac open_writes :=
  unfold memory_write, cpu_write, bind;
  repeat match goal with
         | |- match ?r with Ok _ => _ | Raise _ => _ end = _ -> _ =>
             destruct r; [| discriminate]; intros [= <-]
         end.

(** The four queries of a family write four different fields. *)
Lemma memory_write_commute q1 q2 s1 s2 set1 set2 c :
  q1 <> q2 -> memory_write q1 s1 = Ok set1 -> memory_write q2 s2 = Ok set2 ->
  set1 (set2 c) = set2 (set1 c).
Proof.
  intros N. revert set1 set2.
  destruct q1, q2; try congruence; intros set1 set2;
    open_writes; reflexivity.
Qed.

Lemma cpu_write_commute q1 q2 s1 s2 set1 set2 c :
  q1 <> q2 -> cpu_write q1 s1 = Ok set1 -> cpu_write q2 s2 = Ok set2 ->
  set1 (set2 c) = set2 (set1 c).
Proof.
  intros N. revert set1 set2.
  destruct q1, q2; try congruence; intros set1 set2;
    open_writes; reflexivity.
Qed.

(** A later series of the same query overwrites what an earlier one
    wrote. *)
Lemma memory_write_overwrites q s1 s2 set1 set2 c :
  memory_write q s1 = Ok set1 -> memory_write q s2 = Ok set2 ->
  set2 (set1 c) = set2 c.
Proof. revert set1 set2. destruct q; intros set1 set2; open_writes; reflexivity. Qed.

Lemma cpu_write_overwrites q s1 s2 set1 set2 c :
  cpu_write q s1 = Ok set1 -> cpu_write q s2 = Ok set2 ->
  set2 (set1 c) = set2 c.
Proof. revert set1 set2. destruct q; intros set1 set2; open_writes; reflexivity. Qed.

Lemma forallb_Permutation {A : Type} (p : A -> bool) (l l' : list A) :
  Permutation l l' -> forallb p l = forallb p l'.
Proof.
  induction 1; simpl; try congruence.
  now rewrite !andb_assoc, (andb_comm (p y)).
Qed.

(** X1. The record a gather leaves under a key is what the deliveries
    for that key, taken in order, make of the record that was there (or
    of a fresh one); deliveries for other keys do not touch it. *)
Theorem gather_builds_records_by_key :
  (forall deliveries d d' k,
     gather_memory deliveries d = Ok d' ->
     dict_get key_eqb k d'
     = record_under memory_write k deliveries (dict_get key_eqb k d))
  /\ (forall deliveries d d' k,
     gather_cpu deliveries d = Ok d' ->
     dict_get key_eqb k d'
     = record_under cpu_write k deliveries (dict_get key_eqb k d)).
Proof.
  split; intros deliveries d d' k G.
  - now apply (family_lookup memory_write memory_body memory_body_write
                 deliveries d d').
  - now apply (family_lookup cpu_write cpu_body cpu_body_write
                 deliveries d d').
Qed.

Lemma gather_builds_records_by_key_witness :
  dict_get key_eqb Examples.web_key Examples.memory_gathered
  = record_under memory_write Examples.web_key Examples.memory_deliveries
      None.
Proof.
  apply (proj1 gather_builds_records_by_key
           Examples.memory_deliveries [] Examples.memory_gathered
           Examples.web_key).
  reflexivity.
Defined.

Lemma memory_has_points_ok (deliveries : list (memory_query * TimeSeries)) :
  forallb (fun e => is_ok (memory_write (fst e) (snd e))) deliveries
  = forallb has_points deliveries.
Proof.
  induction deliveries as [| [q s] l IH]; simpl; [reflexivity |].
  now rewrite IH, memory_write_ok.
Qed.

Lemma cpu_has_points_ok (deliveries : list (cpu_query * TimeSeries)) :
  forallb (fun e => is_ok (cpu_write (fst e) (snd e))) deliveries
  = forallb has_points deliveries.
Proof.
  induction deliveries as [| [q s] l IH]; simpl; [reflexivity |].
  now rewrite IH, cpu_write_ok.
Qed.

(** Two schedules with the same streams: the gathers return together and
    leave the same record under every key. *)
Lemma gather_memory_same_streams deliveries deliveries' d g :
  same_streams memory_query_eqb deliveries deliveries' ->
  gather_memory deliveries d = Ok g ->
  exists g',
    gather_memory deliveries' d = Ok g'
    /\ forall k, dict_get key_eqb k g = dict_get key_eqb k g'.
Proof.
  intros S G.
  pose proof (same_streams_Permutation _ memory_query_eqb_eq _ _ S) as P.
  pose proof (gather_memory_ok deliveries d) as O1.
  pose proof (gather_memory_ok deliveries' d) as O2.
  rewrite G in O1. simpl in O1.
  rewrite <- (forallb_Permutation _ _ _ P), <- O1 in O2.
  destruct (gather_memory deliveries' d) as [g' |] eqn:G'; [| discriminate].
  exists g'. split; [reflexivity |]. intros k.
  rewrite (family_lookup memory_write memory_body memory_body_write
             _ _ _ G k).
  rewrite (family_lookup memory_write memory_body memory_body_write
             _ _ _ G' k).
  now apply (same_streams_record memory_query_eqb memory_query_eqb_eq
               memory_write memory_write_commute).
Qed.

Lemma gather_cpu_same_streams deliveries deliveries' d g :
  same_streams cpu_query_eqb deliveries deliveries' ->
  gather_cpu deliveries d = Ok g ->
  exists g',
    gather_cpu deliveries' d = Ok g'
    /\ forall k, dict_get key_eqb k g = dict_get key_eqb k g'.
Proof.
  intros S G.
  pose proof (same_streams_Permutation _ cpu_query_eqb_eq _ _ S) as P.
  pose proof (gather_cpu_ok deliveries d) as O1.
  pose proof (gather_cpu_ok deliveries' d) as O2.
  rewrite G in O1. simpl in O1.
  rewrite <- (forallb_Permutation _ _ _ P), <- O1 in O2.
  destruct (gather_cpu deliveries' d) as [g' |] eqn:G'; [| discriminate].
  exists g'. split; [reflexivity |]. intros k.
  rewrite (family_lookup cpu_write cpu_body cpu_body_write _ _ _ G k).
  rewrite (family_lookup cpu_write cpu_body cpu_body_write _ _ _ G' k).
  now apply (same_streams_record cpu_query_eqb cpu_query_eqb_eq
               cpu_write cpu_write_commute).
Qed.

(** The closing loop keeps equal lookups equal. *)
Lemma kept_same_lookups (f : ContainerKey * ContainerMetrics -> ContainerMetrics)
  (g g' : container_metrics_t) :
  NoDup (keys g) -> NoDup (keys g') ->
  (forall k, dict_get key_eqb k g = dict_get key_eqb k g') ->
  (forall k, dict_get key_eqb k (kept is_overprovisioner f g)
             = dict_get key_eqb k (kept is_overprovisioner f g'))
  /\ Permutation (values (kept is_overprovisioner f g))
       (values (kept is_overprovisioner f g')).
Proof.
  intros N N' E.
  assert (L : forall k, dict_get key_eqb k (kept is_overprovisioner f g)
                        = dict_get key_eqb k (kept is_overprovisioner f g')).
  { intros k. rewrite !(dict_get_kept _ key_eqb_eq) by assumption.
    now rewrite E. }
  split; [exact L |].
  unfold values. apply Permutation_map.
  apply (same_lookups_Permutation _ key_eqb_eq);
    [now apply keys_kept_NoDup | now apply keys_kept_NoDup | exact L].
Qed.

(** X2. The order in which the event loop hands the series of the four
    queries to their loop bodies does not matter: two schedules that
    give each query the same series in the same order make a call return
    together, leave the same record under every key, and return the same
    records (in a possibly different order). *)
Theorem interleaving_does_not_matter :
  (forall deliveries deliveries' d d1 out1,
     NoDup (keys d) ->
     same_streams memory_query_eqb deliveries deliveries' ->
     query_memory_utilization deliveries d = Ok (d1, out1) ->
     exists d2 out2,
       query_memory_utilization deliveries' d = Ok (d2, out2)
       /\ (forall k, dict_get key_eqb k d1 = dict_get key_eqb k d2)
       /\ Permutation out1 out2)
  /\ (forall deliveries deliveries' d d1 out1,
     NoDup (keys d) ->
     same_streams cpu_query_eqb deliveries deliveries' ->
     query_cpu_utilization deliveries d = Ok (d1, out1) ->
     exists d2 out2,
       query_cpu_utilization deliveries' d = Ok (d2, out2)
       /\ (forall k, dict_get key_eqb k d1 = dict_get key_eqb k d2)
       /\ Permutation out1 out2).
Proof.
  split; intros deliveries deliveries' d d1 out1 N S R.
  - destruct (query_memory_utilization_returns _ _ _ _ N R)
      as (g & G & -> & ->).
    destruct (gather_memory_same_streams _ _ _ _ S G) as (g' & G' & E).
    pose proof (gather_memory_NoDup _ _ _ N G) as Ng.
    pose proof (gather_memory_NoDup _ _ _ N G') as Ng'.
    exists (kept is_overprovisioner with_unutilized_memory g').
    exists (values (kept is_overprovisioner with_unutilized_memory g')).
    split; [| now apply kept_same_lookups].
    unfold query_memory_utilization, bind. rewrite G'.
    now rewrite memory_pass_all.
  - destruct (query_cpu_utilization_returns _ _ _ _ N R)
      as (g & G & -> & ->).
    destruct (gather_cpu_same_streams _ _ _ _ S G) as (g' & G' & E).
    pose proof (gather_cpu_NoDup _ _ _ N G) as Ng.
    pose proof (gather_cpu_NoDup _ _ _ N G') as Ng'.
    exists (kept is_overprovisioner with_unutilized_cpu g').
    exists (values (kept is_overprovisioner with_unutilized_cpu g')).
    split; [| now apply kept_same_lookups].
    unfold query_cpu_utilization, bind. rewrite G'.
    now rewrite cpu_pass_all.
Qed.

Lemma interleaving_does_not_matter_witness :
  exists d2 out2,
    query_memory_utilization Examples.memory_deliveries_reordered []
    = Ok (d2, out2)
    /\ (forall k, dict_get key_eqb k Examples.memory_table
                  = dict_get key_eqb k d2)
    /\ Permutation (values Examples.memory_table) out2.
Proof.
  apply (proj1 interleaving_does_not_matter
           Examples.memory_deliveries Examples.memory_deliveries_reordered
           [] Examples.memory_table (values Examples.memory_table)).
  - constructor.
  - intros []; reflexivity.
  - reflexivity.
Defined.

Lemma flat_map_same {A B : Type} (f g : A -> list B) (l : list A) :
  (forall a, In a l -> f a = g a) -> flat_map f l = flat_map g l.
Proof.
  induction l as [| a l IH]; intros H; simpl; [reflexivity |].
  rewrite (H a) by now left. f_equal. apply IH. intros b I. apply H.
  now right.
Qed.

Lemma gather_memory_keys_new deliveries g :
  gather_memory deliveries [] = Ok g ->
  keys g = keys_in_order deliveries [].
Proof.
  intros G.
  apply (family_keys memory_write memory_body memory_body_write
           deliveries [] g G).
Qed.

Lemma gather_cpu_keys_new deliveries g :
  gather_cpu deliveries [] = Ok g ->
  keys g = keys_in_order deliveries [].
Proof.
  intros G.
  apply (family_keys cpu_write cpu_body cpu_body_write deliveries [] g G).
Qed.

Lemma memory_call_answer deliveries d' out :
  query_memory_utilization deliveries [] = Ok (d', out) ->
  out = memory_answer deliveries.
Proof.
  intros R.
  destruct (query_memory_utilization_returns deliveries [] d' out
              (NoDup_nil _) R) as (g & G & -> & ->).
  pose proof (gather_memory_NoDup deliveries [] g (NoDup_nil _) G) as Ng.
  rewrite (values_kept_by_key _ key_eqb_eq) by assumption.
  unfold memory_answer.
  rewrite <- (gather_memory_keys_new _ _ G).
  apply flat_map_same. intros k _.
  now rewrite (family_lookup memory_write memory_body memory_body_write
                 _ _ _ G k).
Qed.

Lemma cpu_call_answer deliveries d' out :
  query_cpu_utilization deliveries [] = Ok (d', out) ->
  out = cpu_answer deliveries.
Proof.
  intros R.
  destruct (query_cpu_utilization_returns deliveries [] d' out
              (NoDup_nil _) R) as (g & G & -> & ->).
  pose proof (gather_cpu_NoDup deliveries [] g (NoDup_nil _) G) as Ng.
  rewrite (values_kept_by_key _ key_eqb_eq) by assumption.
  unfold cpu_answer.
  rewrite <- (gather_cpu_keys_new _ _ G).
  apply flat_map_same. intros k _.
  now rewrite (family_lookup cpu_write cpu_body cpu_body_write
                 _ _ _ G k).
Qed.

(** X3. A call on a new client returns what a computation key by key
    gives: the keys in the order in which their first series arrived,
    for each the record its deliveries build, without the
    overprovisioners, the unutilized value derived. *)
Theorem call_answers_key_by_key :
  (forall deliveries d' out,
     query_memory_utilization deliveries [] = Ok (d', out) ->
     out = memory_answer deliveries)
  /\ (forall deliveries d' out,
     query_cpu_utilization deliveries [] = Ok (d', out) ->
     out = cpu_answer deliveries).
Proof.
  split; intros deliveries d' out R.
  - now apply (memory_call_answer deliveries d').
  - now apply (cpu_call_answer deliveries d').
Qed.

Lemma call_answers_key_by_key_witness :
  values Examples.memory_table = memory_answer Examples.memory_deliveries
  /\ values Examples.cpu_table = cpu_answer Examples.cpu_deliveries.
Proof.
  split.
  - apply (proj1 call_answers_key_by_key Examples.memory_deliveries
             Examples.memory_table (values Examples.memory_table) eq_refl).
  - apply (proj2 call_answers_key_by_key Examples.cpu_deliveries
             Examples.cpu_table (values Examples.cpu_table) eq_refl).
Defined.

Lemma map_fst_filter {A B : Type} (p : A -> bool) (l : list (A * B)) :
  map fst (List.filter (fun item => p (fst item)) l)
  = List.filter p (map fst l).
Proof.
  induction l as [| [a b] l IH]; simpl; [reflexivity |].
  destruct (p a); simpl; now rewrite IH.
Qed.

Lemma filter_same {A : Type} (p q : A -> bool) (l : list A) :
  (forall a, In a l -> p a = q a) -> List.filter p l = List.filter q l.
Proof.
  induction l as [| a l IH]; intros H; simpl; [reflexivity |].
  rewrite (H a) by now left.
  rewrite IH by (intros b I; apply H; now right). reflexivity.
Qed.

(** What the gather of a new client leaves has, under each key, a record
    that carries the names of the key. *)
Lemma kept_identities
  (f : ContainerKey * ContainerMetrics -> ContainerMetrics)
  (g : container_metrics_t) :
  (forall item, key_of (f item) = key_of (snd item)) ->
  Forall (fun item => key_of (snd item) = fst item) g ->
  map key_of (values (kept is_overprovisioner f g))
  = List.filter key_is_clean (keys g).
Proof.
  intros Hf Hg. unfold values, kept, keys. rewrite !map_map.
  rewrite <- map_fst_filter.
  rewrite Forall_forall in Hg.
  rewrite (filter_same (fun item => negb (is_overprovisioner item))
             (fun item => key_is_clean (fst item))).
  - apply map_ext_in. intros item I. apply filter_In in I.
    simpl. rewrite Hf. apply Hg. tauto.
  - intros item I. unfold is_overprovisioner, key_is_clean.
    rewrite <- (Hg item I). reflexivity.
Qed.

(** X4. The records a call on a new client returns are one for each key
    a series arrived for and whose container is not an overprovisioner:
    their identities, in the order returned, are those keys in the
    order first seen, so no two records share an identity and nothing
    but overprovisioners is left out. *)
Theorem call_returns_one_record_per_clean_key :
  (forall deliveries d' out,
     query_memory_utilization deliveries [] = Ok (d', out) ->
     map key_of out
     = List.filter key_is_clean (keys_in_order deliveries [])
     /\ NoDup (map key_of out))
  /\ (forall deliveries d' out,
     query_cpu_utilization deliveries [] = Ok (d', out) ->
     map key_of out
     = List.filter key_is_clean (keys_in_order deliveries [])
     /\ NoDup (map key_of out)).
Proof.
  split; intros deliveries d' out R.
  - destruct (query_memory_utilization_returns deliveries [] d' out
                (NoDup_nil _) R) as (g & G & -> & ->).
    pose proof (gather_memory_NoDup deliveries [] g (NoDup_nil _) G) as Ng.
    pose proof (gather_memory_entries _ _ G) as E.
    assert (I : map key_of
                  (values (kept is_overprovisioner with_unutilized_memory g))
                = List.filter key_is_clean (keys g)).
    { apply kept_identities; [reflexivity |].
      eapply Forall_impl; [| exact E]. now intros item (H & _). }
    rewrite I. split.
    + now rewrite (gather_memory_keys_new _ _ G).
    + now apply NoDup_filter.
  - destruct (query_cpu_utilization_returns deliveries [] d' out
                (NoDup_nil _) R) as (g & G & -> & ->).
    pose proof (gather_cpu_NoDup deliveries [] g (NoDup_nil _) G) as Ng.
    pose proof (gather_cpu_entries _ _ G) as E.
    assert (I : map key_of
                  (values (kept is_overprovisioner with_unutilized_cpu g))
                = List.filter key_is_clean (keys g)).
    { apply kept_identities; [reflexivity |].
      eapply Forall_impl; [| exact E]. now intros item (H & _). }
    rewrite I. split.
    + now rewrite (gather_cpu_keys_new _ _ G).
    + now apply NoDup_filter.
Qed.

Lemma call_returns_one_record_per_clean_key_witness :
  map key_of (values Examples.memory_table)
  = List.filter key_is_clean (keys_in_order Examples.memory_deliveries [])
  /\ NoDup (map key_of (values Examples.memory_table)).
Proof.
  apply (proj1 call_returns_one_record_per_clean_key
           Examples.memory_deliveries Examples.memory_table
           (values Examples.memory_table) eq_refl).
Defined.

(** X5. [upsert_container] finds or creates: the record it returns is
    the one the table then holds under the key of the series; every
    other key keeps what it had; a second call changes nothing and
    returns the same record; a key already there keeps its record and
    the table is untouched, a new key gets a fresh record, all fields 0,
    placed last. *)
Theorem upsert_container_finds_or_creates :
  forall (s : TimeSeries) (d : container_metrics_t),
    let d1 := fst (upsert_container s d) in
    let c := snd (upsert_container s d) in
    dict_get key_eqb (container_key s) d1 = Some c
    /\ (forall k, k <> container_key s ->
          dict_get key_eqb k d1 = dict_get key_eqb k d)
    /\ upsert_container s d1 = (d1, c)
    /\ match dict_get key_eqb (container_key s) d with
       | Some c0 => d1 = d /\ c = c0
       | None =>
           c = fresh s /\ keys d1 = keys d ++ [container_key s]
           /\ memory_fields_zero c /\ cpu_fields_zero c
       end.
Proof.
  intros s d. unfold upsert_container.
  destruct (dict_get key_eqb (container_key s) d) as [c0 |] eqn:G; simpl.
  - rewrite G. repeat split; auto.
  - rewrite (dict_get_set_same _ key_eqb_eq).
    split; [reflexivity |]. split.
    + intros k N. apply (dict_get_set_other _ key_eqb_eq). congruence.
    + split; [reflexivity |]. split; [reflexivity |]. split.
      * apply (keys_dict_set_notin _ key_eqb_eq).
        now apply (dict_get_None _ key_eqb_eq).
      * split; (split; [intros [] |]; reflexivity).
Qed.

Lemma record_under_keeps
  {T : Type}
  (write : T -> TimeSeries -> result (ContainerMetrics -> ContainerMetrics))
  (R : ContainerMetrics -> ContainerMetrics -> Prop) :
  (forall c, R c c) ->
  (forall q s set c c', write q s = Ok set -> R c c' -> R c (set c')) ->
  forall k deliveries c,
  exists c', record_under write k deliveries (Some c) = Some c' /\ R c c'.
Proof.
  intros Rrefl Rset k deliveries c. unfold record_under.
  assert (G : forall c', R c c' ->
            exists c'', fold_left (deliver write k) deliveries (Some c')
                        = Some c'' /\ R c c'').
  { induction deliveries as [| [q s] l IH]; intros c' H; cbn [fold_left].
    - now exists c'.
    - unfold deliver at 2. cbn [fst snd].
      destruct (key_eqb (container_key s) k); [| now apply IH].
      destruct (write q s) as [set |] eqn:W; [| now apply IH].
      apply IH. now apply (Rset q s). }
  now apply G.
Qed.

Lemma cpu_write_same_memory q s set c c' :
  cpu_write q s = Ok set -> same_memory_fields c c' ->
  same_memory_fields c (set c').
Proof.
  intros W (H1 & H2 & H3 & H4 & H5 & H6).
  destruct (cpu_write_keeps_memory q s set c' W)
    as (E1 & E2 & E3 & E4 & E5 & E6 & _).
  unfold same_memory_fields. repeat split; congruence.
Qed.

Lemma memory_write_same_cpu q s set c c' :
  memory_write q s = Ok set -> same_cpu_fields c c' ->
  same_cpu_fields c (set c').
Proof.
  intros W (H1 & H2 & H3 & H4 & H5 & H6).
  destruct (memory_write_keeps_cpu q s set c' W)
    as (E1 & E2 & E3 & E4 & E5 & E6 & _).
  unfold same_cpu_fields. repeat split; congruence.
Qed.

(** X6. A client used for both families: a call for one family leaves,
    in every record the table already held (overprovisioners apart,
    which it deletes), the names and the five fields of the other
    family as they were, and returns that record. *)
Theorem call_keeps_the_other_family :
  (forall deliveries d d' out k c,
     NoDup (keys d) ->
     query_cpu_utilization deliveries d = Ok (d', out) ->
     dict_get key_eqb k d = Some c ->
     contains "overprovisioner" (container_name c) = false ->
     exists c', dict_get key_eqb k d' = Some c' /\ In c' out
                /\ same_memory_fields c c')
  /\ (forall deliveries d d' out k c,
     NoDup (keys d) ->
     query_memory_utilization deliveries d = Ok (d', out) ->
     dict_get key_eqb k d = Some c ->
     contains "overprovisioner" (container_name c) = false ->
     exists c', dict_get key_eqb k d' = Some c' /\ In c' out
                /\ same_cpu_fields c c').
Proof.
  split; intros deliveries d d' out k c N R Gk Clean.
  - destruct (query_cpu_utilization_returns _ _ _ _ N R)
      as (g & G & -> & ->).
    pose proof (gather_cpu_NoDup _ _ _ N G) as Ng.
    destruct (record_under_keeps cpu_write same_memory_fields) with
      (k := k) (deliveries := deliveries) (c := c) as (c1 & L & S).
    { intros c0. unfold same_memory_fields. repeat split. }
    { intros q s set c0 c0'. apply cpu_write_same_memory. }
    assert (Gk' : dict_get key_eqb k g = Some c1).
    { rewrite (family_lookup cpu_write cpu_body cpu_body_write _ _ _ G k).
      now rewrite Gk. }
    assert (Name : container_name c1 = container_name c).
    { destruct S as (Sk & _). unfold key_of in Sk. congruence. }
    exists (with_unutilized_cpu (k, c1)).
    assert (L' : dict_get key_eqb k
                   (kept is_overprovisioner with_unutilized_cpu g)
                 = Some (with_unutilized_cpu (k, c1))).
    { rewrite (dict_get_kept _ key_eqb_eq) by assumption. rewrite Gk'.
      unfold is_overprovisioner. simpl. now rewrite Name, Clean. }
    split; [exact L' |]. split.
    + apply (dict_get_In _ key_eqb_eq) in L'.
      now apply (in_map snd) in L'.
    + exact S.
  - destruct (query_memory_utilization_returns _ _ _ _ N R)
      as (g & G & -> & ->).
    pose proof (gather_memory_NoDup _ _ _ N G) as Ng.
    destruct (record_under_keeps memory_write same_cpu_fields) with
      (k := k) (deliveries := deliveries) (c := c) as (c1 & L & S).
    { intros c0. unfold same_cpu_fields. repeat split. }
    { intros q s set c0 c0'. apply memory_write_same_cpu. }
    assert (Gk' : dict_get key_eqb k g = Some c1).
    { rewrite (family_lookup memory_write memory_body memory_body_write
                 _ _ _ G k).
      now rewrite Gk. }
    assert (Name : container_name c1 = container_name c).
    { destruct S as (Sk & _). unfold key_of in Sk. congruence. }
    exists (with_unutilized_memory (k, c1)).
    assert (L' : dict_get key_eqb k
                   (kept is_overprovisioner with_unutilized_memory g)
                 = Some (with_unutilized_memory (k, c1))).
    { rewrite (dict_get_kept _ key_eqb_eq) by assumption. rewrite Gk'.
      unfold is_overprovisioner. simpl. now rewrite Name, Clean. }
    split; [exact L' |]. split.
    + apply (dict_get_In _ key_eqb_eq) in L'.
      now apply (in_map snd) in L'.
    + exact S.
Qed.

Lemma call_keeps_the_other_family_witness :
  exists c', dict_get key_eqb Examples.web_key Examples.both_table = Some c'
             /\ In c' (values Examples.both_table)
             /\ same_memory_fields Examples.web_after_memory c'.
Proof.
  apply (proj1 call_keeps_the_other_family
           Examples.cpu_deliveries Examples.memory_table
           Examples.both_table (values Examples.both_table)
           Examples.web_key Examples.web_after_memory).
  - repeat constructor. simpl. tauto.
  - reflexivity.
  - reflexivity.
  - reflexivity.
Defined.

Lemma kept_twice {K V : Type} (drop : K * V -> bool) (f : K * V -> V)
  (l : dict K V) :
  (forall item, drop item = false -> drop (fst item, f item) = false) ->
  (forall item, f (fst item, f item) = f item) ->
  kept drop f (kept drop f l) = kept drop f l.
Proof.
  intros Hd Hf. unfold kept.
  induction l as [| item l IH]; simpl; [reflexivity |].
  destruct (drop item) eqn:D; simpl; [exact IH |].
  rewrite (Hd item D). simpl. rewrite Hf. f_equal. exact IH.
Qed.

(** X7. Asking again without new series changes nothing: on the table a
    call left, a call that is delivered no series returns the same table
    and the same records (the closing loop finds no overprovisioner and
    derives the same unutilized values). *)
Theorem call_again_returns_the_same :
  (forall deliveries d d' out,
     NoDup (keys d) ->
     query_memory_utilization deliveries d = Ok (d', out) ->
     query_memory_utilization [] d' = Ok (d', out))
  /\ (forall deliveries d d' out,
     NoDup (keys d) ->
     query_cpu_utilization deliveries d = Ok (d', out) ->
     query_cpu_utilization [] d' = Ok (d', out)).
Proof.
  split; intros deliveries d d' out N R.
  - destruct (query_memory_utilization_returns _ _ _ _ N R)
      as (g & G & -> & ->).
    pose proof (gather_memory_NoDup _ _ _ N G) as Ng.
    unfold query_memory_utilization. simpl.
    rewrite memory_pass_all by now apply keys_kept_NoDup.
    now rewrite kept_twice.
  - destruct (query_cpu_utilization_returns _ _ _ _ N R)
      as (g & G & -> & ->).
    pose proof (gather_cpu_NoDup _ _ _ N G) as Ng.
    unfold query_cpu_utilization. simpl.
    rewrite cpu_pass_all by now apply keys_kept_NoDup.
    now rewrite kept_twice.
Qed.

Lemma call_again_returns_the_same_witness :
  query_memory_utilization [] Examples.memory_table
  = Ok (Examples.memory_table, values Examples.memory_table).
Proof.
  apply (proj1 call_again_returns_the_same
           Examples.memory_deliveries [] Examples.memory_table
           (values Examples.memory_table)).
  - constructor.
  - reflexivity.
Defined.

Lemma same_key_same_fresh (s1 s2 : TimeSeries) :
  container_key s1 = container_key s2 -> fresh s1 = fresh s2.
Proof.
  unfold container_key, fresh. intros [= -> -> ->]. reflexivity.
Qed.

Lemma body_twice_lookup
  (set1 set2 : ContainerMetrics -> ContainerMetrics) (s1 s2 : TimeSeries)
  (d : container_metrics_t) :
  container_key s1 = container_key s2 ->
  (forall c, set2 (set1 c) = set2 c) ->
  forall k,
    dict_get key_eqb k
      (assign s2 set2
         (upsert_container s2 (assign s1 set1 (upsert_container s1 d))))
    = dict_get key_eqb k (assign s2 set2 (upsert_container s2 d)).
Proof.
  intros K O k.
  destruct (assign_get s2 set2 (assign s1 set1 (upsert_container s1 d)))
    as [Same2 Other2].
  destruct (assign_get s2 set2 d) as [Same Other].
  destruct (assign_get s1 set1 d) as [Same1 Other1].
  destruct (key_eqb k (container_key s2)) eqn:E.
  - apply key_eqb_eq in E. subst k.
    rewrite Same2, Same. rewrite <- K at 1. rewrite Same1, O.
    rewrite K, (same_key_same_fresh _ _ K). reflexivity.
  - assert (N : k <> container_key s2).
    { intros ->. rewrite (proj2 (key_eqb_eq _ _) eq_refl) in E.
      discriminate. }
    rewrite Other2, Other by assumption. apply Other1. congruence.
Qed.

(** X8. The last series wins: when a query is answered with two series
    for the same container, the record ends as if only the later one
    had arrived (the earlier one must have a point, or its loop body
    raises). *)
Theorem later_series_overwrites :
  (forall q s1 s2 d d2,
     container_key s1 = container_key s2 ->
     has_points (q, s1) = true ->
     memory_body q s2 d = Ok d2 ->
     exists d1 d12,
       memory_body q s1 d = Ok d1 /\ memory_body q s2 d1 = Ok d12
       /\ forall k, dict_get key_eqb k d12 = dict_get key_eqb k d2)
  /\ (forall q s1 s2 d d2,
     container_key s1 = container_key s2 ->
     has_points (q, s1) = true ->
     cpu_body q s2 d = Ok d2 ->
     exists d1 d12,
       cpu_body q s1 d = Ok d1 /\ cpu_body q s2 d1 = Ok d12
       /\ forall k, dict_get key_eqb k d12 = dict_get key_eqb k d2).
Proof.
  split; intros q s1 s2 d d2 K P.
  - rewrite !memory_body_write. rewrite <- memory_write_ok in P.
    destruct (memory_write q s1) as [set1 |] eqn:W1; [| discriminate].
    destruct (memory_write q s2) as [set2 |] eqn:W2; [| discriminate].
    simpl. intros [= <-].
    eexists. eexists. split; [reflexivity |].
    rewrite memory_body_write, W2. simpl. split; [reflexivity |].
    apply body_twice_lookup; [assumption |].
    intros c. now apply (memory_write_overwrites q s1 s2).
  - rewrite !cpu_body_write. rewrite <- cpu_write_ok in P.
    destruct (cpu_write q s1) as [set1 |] eqn:W1; [| discriminate].
    destruct (cpu_write q s2) as [set2 |] eqn:W2; [| discriminate].
    simpl. intros [= <-].
    eexists. eexists. split; [reflexivity |].
    rewrite cpu_body_write, W2. simpl. split; [reflexivity |].
    apply body_twice_lookup; [assumption |].
    intros c. now apply (cpu_write_overwrites q s1 s2).
Qed.

Lemma later_series_overwrites_witness :
  exists d1 d12,
    memory_body memory_request_q Examples.earlier_request [] = Ok d1
    /\ memory_body memory_request_q Examples.later_request d1 = Ok d12
    /\ forall k,
         dict_get key_eqb k d12
         = dict_get key_eqb k
             [(Examples.web_key,
               set_memory_request 500 (fresh Examples.later_request))].
Proof.
  apply (proj1 later_series_overwrites memory_request_q
           Examples.earlier_request Examples.later_request []
           [(Examples.web_key,
             set_memory_request 500 (fresh Examples.later_request))]).
  - reflexivity.
  - reflexivity.
  - reflexivity.
Defined.

End Families.

(** * More on the tables *)

Section MoreTables.
Import MetricsClient MetricsServer.


(** A list already in descending order is left as it is. *)
Lemma sort_descending_sorted_same {A K : Type} (ltb : K -> K -> bool)
  (key : A -> K) (l : list A) :
  StronglySorted (not_below ltb key) l -> sort_descending ltb key l = l.
Proof.
  induction 1 as [| x l S IH F]; simpl; [reflexivity |].
  rewrite IH. destruct l as [| y l]; [reflexivity |].
  simpl. inversion F as [| ? ? Hy _]; subst.
  unfold not_below in Hy. now rewrite Hy.
Qed.

(** X9. The table sort is stable: among the records shown, those with
    one and the same unutilized value stand in the order in which the
    list handed to the formatter had them. *)
Theorem table_keeps_order_of_ties (metrics : list ContainerMetrics) :
  metrics <> [] ->
  (exists sorted total,
     format_memory_metrics_as_table metrics
     = Ok {| tabular_data := map memory_row sorted ++ [total];
             headers := memory_headers |}
     /\ forall u,
          List.filter (fun c => unutilized_memory c =? u) sorted
          = List.filter (fun c => unutilized_memory c =? u) metrics)
  /\ (exists sorted total,
     format_cpu_metrics_as_table metrics
     = Ok {| tabular_data := map cpu_row sorted ++ [total];
             headers := cpu_headers |}
     /\ forall u,
          List.filter (fun c => Qeq_bool (unutilized_cpu c) u) sorted
          = List.filter (fun c => Qeq_bool (unutilized_cpu c) u) metrics).
Proof.
  intros N. split.
  - exists (sort_descending Z.ltb unutilized_memory metrics). eexists.
    split.
    + unfold format_memory_metrics_as_table, div_float_int.
      rewrite len_sort_descending, (len_nonempty metrics N).
      unfold bind. reflexivity.
    + intros u.
      apply (sort_descending_stable Z.ltb unutilized_memory
               (fun k => k =? u)).
      intros a b L E. apply Z.ltb_lt in L. apply Z.eqb_eq in E.
      apply Z.eqb_neq. lia.
  - exists (sort_descending Qltb unutilized_cpu metrics). eexists.
    split.
    + unfold format_cpu_metrics_as_table, div_float_int.
      rewrite len_sort_descending, (len_nonempty metrics N).
      unfold bind. reflexivity.
    + intros u.
      apply (sort_descending_stable Qltb unutilized_cpu
               (fun k => Qeq_bool k u)).
      intros a b L E. apply Qltb_lt in L. apply Qeq_bool_iff in E.
      destruct (Qeq_bool b u) eqn:B; [| reflexivity].
      apply Qeq_bool_iff in B. rewrite E, B in L.
      exfalso. exact (Qlt_irrefl _ L).
Qed.

Lemma table_keeps_order_of_ties_witness :
  (exists sorted total,
     format_memory_metrics_as_table Examples.three_containers
     = Ok {| tabular_data := map memory_row sorted ++ [total];
             headers := memory_headers |}
     /\ forall u,
          List.filter (fun c => unutilized_memory c =? u) sorted
          = List.filter (fun c => unutilized_memory c =? u)
              Examples.three_containers)
  /\ (exists sorted total,
     format_cpu_metrics_as_table Examples.three_containers
     = Ok {| tabular_data := map cpu_row sorted ++ [total];
             headers := cpu_headers |}
     /\ forall u,
          List.filter (fun c => Qeq_bool (unutilized_cpu c) u) sorted
          = List.filter (fun c => Qeq_bool (unutilized_cpu c) u)
              Examples.three_containers).
Proof.
  apply (table_keeps_order_of_ties Examples.three_containers).
  discriminate.
Defined.

(** X10. A list that is already in descending order of the unutilized
    value is shown row for row in the order given. *)
Theorem sorted_list_is_shown_as_given (metrics : list ContainerMetrics) :
  metrics <> [] ->
  (StronglySorted by_unutilized_memory metrics ->
   exists total,
     format_memory_metrics_as_table metrics
     = Ok {| tabular_data := map memory_row metrics ++ [total];
             headers := memory_headers |})
  /\ (StronglySorted by_unutilized_cpu metrics ->
   exists total,
     format_cpu_metrics_as_table metrics
     = Ok {| tabular_data := map cpu_row metrics ++ [total];
             headers := cpu_headers |}).
Proof.
  intros N. split; intros S.
  - assert (E : sort_descending Z.ltb unutilized_memory metrics = metrics).
    { apply sort_descending_sorted_same.
      eapply StronglySorted_weaken; [| exact S].
      intros a b. unfold by_unutilized_memory, not_below.
      now rewrite Z.ltb_ge. }
    eexists. unfold format_memory_metrics_as_table, div_float_int.
    rewrite E, (len_nonempty metrics N). unfold bind. reflexivity.
  - assert (E : sort_descending Qltb unutilized_cpu metrics = metrics).
    { apply sort_descending_sorted_same.
      eapply StronglySorted_weaken; [| exact S].
      intros a b. unfold by_unutilized_cpu, not_below.
      now rewrite Qltb_ge. }
    eexists. unfold format_cpu_metrics_as_table, div_float_int.
    rewrite E, (len_nonempty metrics N). unfold bind. reflexivity.
Qed.

Lemma sorted_list_is_shown_as_given_witness :
  exists total,
    format_memory_metrics_as_table (rev Examples.two_containers)
    = Ok {| tabular_data :=
              map memory_row (rev Examples.two_containers) ++ [total];
            headers := memory_headers |}.
Proof.
  apply (proj1 (sorted_list_is_shown_as_given
                  (rev Examples.two_containers) ltac:(discriminate))).
  repeat constructor; unfold by_unutilized_memory; simpl; vm_compute;
    discriminate.
Defined.

End MoreTables.

(** * More on the colours *)

Section MoreColours.
Import MetricsServer.

Lemma severity_cases (c : color) :
  (severity c = 2 <-> c = red) /\ (severity c = 1 <-> c = yellow)
  /\ (severity c = 0 <-> c = green).
Proof. destruct c; simpl; repeat split; intros; congruence || lia. Qed.

(** X11. The colours are monotone: more unutilized memory or CPU is
    never shown in a milder colour, and a higher utilization ratio is
    never shown in a more alarming one. *)
Theorem colours_are_monotone :
  (forall v w : Z, v <= w ->
     severity (memory_bytes_color v) <= severity (memory_bytes_color w))
  /\ (forall v w : Q, (v <= w)%Q ->
     severity (cpu_color v) <= severity (cpu_color w))
  /\ (forall v w : Q, (v <= w)%Q ->
     severity (percentage_color w) <= severity (percentage_color v)).
Proof.
  split; [| split]; intros v w L.
  - pose proof (value_in_mb_mono v w L) as M. unfold memory_bytes_color.
    destruct (Z.gtb_spec (value_in_mb v) 200);
      destruct (Z.gtb_spec (value_in_mb v) 100);
      destruct (Z.gtb_spec (value_in_mb w) 200);
      destruct (Z.gtb_spec (value_in_mb w) 100); simpl; lia.
  - pose proof (value_in_milicores_mono v w L) as M. unfold cpu_color.
    destruct (Z.gtb_spec (value_in_milicores v) 1000);
      destruct (Z.gtb_spec (value_in_milicores v) 100);
      destruct (Z.gtb_spec (value_in_milicores w) 1000);
      destruct (Z.gtb_spec (value_in_milicores w) 100); simpl; lia.
  - destruct (percentage_color_tiers v) as (Rv & Yv & Gv).
    destruct (percentage_color_tiers w) as (Rw & Yw & Gw).
    rewrite double_0_3, double_0_6 in *.
    destruct (percentage_color v), (percentage_color w);
      simpl; try lia; exfalso;
      repeat match goal with
             | H : ?c = ?c <-> _ |- _ => apply proj1 in H; specialize (H eq_refl)
             | H : _ = _ <-> _ |- _ => clear H
             end;
      repeat match goal with H : _ /\ _ |- _ => destruct H end;
      unfold Qle, Qlt in *; cbn [Qnum Qden] in *; nia.
Qed.

Lemma colours_are_monotone_witness :
  severity (memory_bytes_color (150 * 1024 ^ 2))
  <= severity (memory_bytes_color (250 * 1024 ^ 2))
  /\ severity (percentage_color (3 # 4))
     <= severity (percentage_color (1 # 4)).
Proof.
  split.
  - apply (proj1 colours_are_monotone). lia.
  - apply (proj2 (proj2 colours_are_monotone)). unfold Qle. simpl. lia.
Defined.

(** X12. What the whole number shown is worth. For less than 2 ^ 53
    bytes the MiB shown round down: they are at most the value and miss
    it by less than one MiB; further up the division rounds and the
    number shown can overstate (at 2 ^ 63 - 1 bytes it does). The
    millicores shown are the rounded product truncated: they exceed
    value * 1000 by at most one part in 2 ^ 53 and fall short of it by
    less than one and that part; they can overstate too (the double
    0.009 is shown as 9). *)
Theorem shown_value_rounds_down :
  (forall value : Z, 0 <= value < 2 ^ 53 ->
     0 <= value_in_mb value
     /\ value_in_mb value * 1024 ^ 2 <= value
        < (value_in_mb value + 1) * 1024 ^ 2)
  /\ 2 ^ 63 - 1 < value_in_mb (2 ^ 63 - 1) * 1024 ^ 2
  /\ (forall value : Q,
     (0 <= value)%Q -> in_range (value * inject_Z 1000) = true ->
     0 <= value_in_milicores value
     /\ (inject_Z (value_in_milicores value)
         <= value * inject_Z 1000 * (1 + (1 # 2 ^ 53)))%Q
     /\ (value * inject_Z 1000 * (1 - (1 # 2 ^ 53))
         < inject_Z (value_in_milicores value + 1))%Q)
  /\ (binary64 (9 # 1000) * inject_Z 1000
      < inject_Z (value_in_milicores (binary64 (9 # 1000))))%Q.
Proof.
  split; [| split; [| split]].
  - intros value P. rewrite value_in_mb_exact by lia.
    rewrite Z.quot_div_nonneg by lia.
    pose proof (Z.div_mod value (1024 ^ 2) ltac:(lia)) as E.
    pose proof (Z.mod_pos_bound value (1024 ^ 2) ltac:(lia)) as B.
    split; [apply Z.div_pos; lia | lia].
  - vm_compute. reflexivity.
  - intros value P _. now apply milicores_shown.
  - vm_compute. reflexivity.
Qed.

Lemma shown_value_rounds_down_witness :
  (0 <= value_in_mb 209715201
   /\ value_in_mb 209715201 * 1024 ^ 2 <= 209715201
      < (value_in_mb 209715201 + 1) * 1024 ^ 2)
  /\ (inject_Z (value_in_milicores (binary64 (1001 # 1000)))
      <= binary64 (1001 # 1000) * inject_Z 1000 * (1 + (1 # 2 ^ 53)))%Q.
Proof.
  split.
  - apply (proj1 shown_value_rounds_down).
    vm_compute. split; [discriminate | reflexivity].
  - apply (proj1 (proj2 (proj2 shown_value_rounds_down))
             (binary64 (1001 # 1000))).
    + vm_compute. discriminate.
    + vm_compute. reflexivity.
Defined.

End MoreColours.

(** * More on the filter *)

Section MoreFilter.
Import Monitoring.

Lemma contains_app_l (sub a b : string) :
  contains sub a = true -> contains sub (a ++ b) = true.
Proof.
  rewrite !contains_iff. intros (pre & post & ->).
  exists pre, (post ++ b)%string. now rewrite !append_assoc.
Qed.

Lemma contains_app_r (sub a b : string) :
  contains sub b = true -> contains sub (a ++ b) = true.
Proof.
  rewrite !contains_iff. intros (pre & post & ->).
  exists (a ++ pre)%string, post. now rewrite !append_assoc.
Qed.

Lemma append_empty_r (s : string) : (s ++ EmptyString)%string = s.
Proof. induction s as [| ch s IH]; simpl; [reflexivity | now rewrite IH]. Qed.

Lemma contains_self (s : string) : contains s s = true.
Proof.
  apply contains_iff. exists EmptyString, EmptyString. simpl.
  now rewrite append_empty_r.
Qed.

Lemma join_contains (sep x : string) (l : list string) :
  In x l -> contains x (join sep l) = true.
Proof.
  induction l as [| y l IH]; [intros [] |].
  intros [-> | I].
  - destruct l; simpl; [apply contains_self |].
    apply contains_app_l, contains_self.
  - destruct l as [| z l]; [destruct I |].
    change (join sep (y :: z :: l))
      with (y ++ sep ++ join sep (z :: l))%string.
    now apply contains_app_r, contains_app_r, IH.
Qed.

Lemma truthy_nonempty (namespaces : option (list string)) :
  MetricsClient.truthy namespaces = false
  <-> MetricsClient.namespaces_list namespaces = [].
Proof.
  destruct namespaces as [[| x l] |]; simpl; split; congruence.
Qed.

(** X13. The filter a query sends begins with the metric filter it was
    given and names every namespace of the allow-list; the client's
    always carries the exclusion of kube-system. An allow-list that is
    absent or empty restricts nothing: the client then sends the metric
    filter and the exclusion, the monitor the metric filter alone. *)
Theorem filter_names_what_was_asked :
  (forall project namespaces aligner reducer query_filter,
     let f :=
       filter (MetricsClient.query project namespaces aligner reducer
                 query_filter) in
     prefix query_filter f = true
     /\ contains (" AND resource.labels.namespace_name != "
                    ++ MetricsClient.quoted "kube-system") f = true
     /\ (forall ns, In ns (MetricsClient.namespaces_list namespaces) ->
           contains (MetricsClient.namespace_clause ns) f = true)
     /\ (MetricsClient.namespaces_list namespaces = [] ->
           f = (query_filter ++ " AND resource.labels.namespace_name != "
                  ++ MetricsClient.quoted "kube-system")%string))
  /\ (forall project namespaces duration_days aligner reducer query_filter,
     let f :=
       filter (Monitor.query project namespaces duration_days aligner
                 reducer query_filter) in
     prefix query_filter f = true
     /\ (forall ns, In ns (MetricsClient.namespaces_list namespaces) ->
           contains (MetricsClient.namespace_clause ns) f = true)
     /\ (MetricsClient.namespaces_list namespaces = [] ->
           f = query_filter)).
Proof.
  split.
  - intros project namespaces aligner reducer query_filter f.
    subst f. rewrite client_filter.
    split; [apply prefix_iff; eexists; reflexivity |].
    split; [| split].
    + apply contains_app_r. rewrite <- append_assoc.
      apply contains_app_l, contains_self.
    + intros ns I.
      destruct (MetricsClient.truthy namespaces) eqn:Tr.
      * do 3 apply contains_app_r. apply contains_app_r.
        apply contains_app_l, join_contains. now apply in_map.
      * apply truthy_nonempty in Tr. rewrite Tr in I. destruct I.
    + intros E. apply truthy_nonempty in E. rewrite E.
      now rewrite append_empty_r.
  - intros project namespaces duration_days aligner reducer query_filter f.
    subst f. unfold Monitor.query. cbn [filter].
    destruct (MetricsClient.truthy namespaces) eqn:Tr.
    + split; [apply prefix_iff; eexists; reflexivity |]. split.
      * intros ns I. do 2 apply contains_app_r.
        apply contains_app_l, join_contains. now apply in_map.
      * intros E. apply truthy_nonempty in E. congruence.
    + split.
      * apply prefix_iff. exists EmptyString.
        now rewrite append_empty_r.
      * split; [| reflexivity].
        intros ns I. apply truthy_nonempty in Tr. rewrite Tr in I.
        destruct I.
Qed.

Lemma filter_names_what_was_asked_witness :
  contains (MetricsClient.namespace_clause "ns-b")
    (filter (MetricsClient.query "p" (Some ["ns-a"; "ns-b"]%string)
               ALIGN_MAX REDUCE_MAX (MetricsClient.metric_type "m")))
  = true
  /\ filter (Monitor.query "p" (Some []) 7 ALIGN_MAX REDUCE_MAX
               (MetricsClient.metric_type "m"))
     = MetricsClient.metric_type "m".
Proof.
  split.
  - apply (proj1 filter_names_what_was_asked "p"%string
             (Some ["ns-a"; "ns-b"]%string) ALIGN_MAX REDUCE_MAX
             (MetricsClient.metric_type "m")).
    simpl. tauto.
  - apply (proj2 filter_names_what_was_asked "p"%string (Some []) 7
             ALIGN_MAX REDUCE_MAX (MetricsClient.metric_type "m")).
    reflexivity.
Defined.

End MoreFilter.

(** * The handler of the HTTP endpoint *)

Section Handler.
Import Monitoring MetricsClient MetricsServer.

Lemma memory_call_with_points deliveries :
  forallb has_points deliveries = true ->
  exists d,
    query_memory_utilization deliveries [] = Ok (d, memory_answer deliveries).
Proof.
  intros P. pose proof (gather_memory_ok deliveries []) as O.
  rewrite P in O. unfold query_memory_utilization in *.
  destruct (gather_memory deliveries []) as [g |] eqn:G; [| discriminate].
  simpl. eexists. f_equal. f_equal.
  apply (memory_call_answer deliveries (fold_left memory_pass g g)).
  unfold query_memory_utilization. now rewrite G.
Qed.

Lemma cpu_call_with_points deliveries :
  forallb has_points deliveries = true ->
  exists d,
    query_cpu_utilization deliveries [] = Ok (d, cpu_answer deliveries).
Proof.
  intros P. pose proof (gather_cpu_ok deliveries []) as O.
  rewrite P in O. unfold query_cpu_utilization in *.
  destruct (gather_cpu deliveries []) as [g |] eqn:G; [| discriminate].
  simpl. eexists. f_equal. f_equal.
  apply (cpu_call_answer deliveries (fold_left cpu_pass g g)).
  unfold query_cpu_utilization. now rewrite G.
Qed.

Lemma memory_call_without_points deliveries d :
  forallb has_points deliveries = false ->
  is_ok (query_memory_utilization deliveries d) = false.
Proof.
  intros P. rewrite <- P, <- (gather_memory_ok deliveries d).
  unfold query_memory_utilization.
  now destruct (gather_memory deliveries d).
Qed.

Lemma cpu_call_without_points deliveries d :
  forallb has_points deliveries = false ->
  is_ok (query_cpu_utilization deliveries d) = false.
Proof.
  intros P. rewrite <- P, <- (gather_cpu_ok deliveries d).
  unfold query_cpu_utilization.
  now destruct (gather_cpu deliveries d).
Qed.

Lemma format_memory_rows (metrics : list ContainerMetrics) :
  metrics <> [] ->
  exists t, format_memory_metrics_as_table metrics = Ok t
            /\ List.length (tabular_data t) = S (List.length metrics).
Proof.
  intros N. unfold format_memory_metrics_as_table, div_float_int.
  rewrite len_sort_descending, (len_nonempty metrics N). unfold bind.
  eexists. split; [reflexivity |]. simpl.
  rewrite length_app, length_map, sort_descending_length. simpl. lia.
Qed.

Lemma format_cpu_rows (metrics : list ContainerMetrics) :
  metrics <> [] ->
  exists t, format_cpu_metrics_as_table metrics = Ok t
            /\ List.length (tabular_data t) = S (List.length metrics).
Proof.
  intros N. unfold format_cpu_metrics_as_table, div_float_int.
  rewrite len_sort_descending, (len_nonempty metrics N). unfold bind.
  eexists. split; [reflexivity |]. simpl.
  rewrite length_app, length_map, sort_descending_length. simpl. lia.
Qed.

(** X14. The endpoint, when every series the backend delivers for the
    family asked for has a point: the json format answers with the
    records of the key-by-key computation, as they are; the csv format
    answers None; the table format answers a table of one row per
    record and the Total row, unless no record is left (nothing
    delivered, or overprovisioners only), and then it raises
    ZeroDivisionError. When a series has no point the endpoint raises
    in every format. The deliveries of the other family play no part. *)
Theorem endpoint_answers :
  forall memory_deliveries cpu_deliveries,
    (forallb has_points memory_deliveries = true ->
       get_metrics memory json memory_deliveries cpu_deliveries
       = Ok (Records (memory_answer memory_deliveries))
       /\ get_metrics memory csv memory_deliveries cpu_deliveries
          = Ok ReturnedNone
       /\ (memory_answer memory_deliveries = [] ->
           get_metrics memory table memory_deliveries cpu_deliveries
           = Raise ZeroDivisionError)
       /\ (memory_answer memory_deliveries <> [] ->
           exists t,
             get_metrics memory table memory_deliveries cpu_deliveries
             = Ok (Response t)
             /\ List.length (tabular_data t)
                = S (List.length (memory_answer memory_deliveries))))
    /\ (forallb has_points memory_deliveries = false ->
        forall output_format,
          is_ok (get_metrics memory output_format memory_deliveries
                   cpu_deliveries) = false)
    /\ (forallb has_points cpu_deliveries = true ->
       get_metrics cpu json memory_deliveries cpu_deliveries
       = Ok (Records (cpu_answer cpu_deliveries))
       /\ get_metrics cpu csv memory_deliveries cpu_deliveries
          = Ok ReturnedNone
       /\ (cpu_answer cpu_deliveries = [] ->
           get_metrics cpu table memory_deliveries cpu_deliveries
           = Raise ZeroDivisionError)
       /\ (cpu_answer cpu_deliveries <> [] ->
           exists t,
             get_metrics cpu table memory_deliveries cpu_deliveries
             = Ok (Response t)
             /\ List.length (tabular_data t)
                = S (List.length (cpu_answer cpu_deliveries))))
    /\ (forallb has_points cpu_deliveries = false ->
        forall output_format,
          is_ok (get_metrics cpu output_format memory_deliveries
                   cpu_deliveries) = false).
Proof.
  intros ms cs. split; [| split; [| split]].
  - intros P. destruct (memory_call_with_points ms P) as (d & R).
    unfold get_metrics. rewrite R. simpl.
    split; [reflexivity | split; [reflexivity | split]].
    + intros ->. reflexivity.
    + intros N. destruct (format_memory_rows _ N) as (t & F & L).
      exists t. now rewrite F.
  - intros P fmt. unfold get_metrics.
    pose proof (memory_call_without_points ms [] P) as O.
    now destruct (query_memory_utilization ms []).
  - intros P. destruct (cpu_call_with_points cs P) as (d & R).
    unfold get_metrics. rewrite R. simpl.
    split; [reflexivity | split; [reflexivity | split]].
    + intros ->. reflexivity.
    + intros N. destruct (format_cpu_rows _ N) as (t & F & L).
      exists t. now rewrite F.
  - intros P fmt. unfold get_metrics.
    pose proof (cpu_call_without_points cs [] P) as O.
    now destruct (query_cpu_utilization cs []).
Qed.

Lemma endpoint_answers_witness :
  get_metrics memory json Examples.memory_deliveries Examples.cpu_deliveries
  = Ok (Records (memory_answer Examples.memory_deliveries))
  /\ (exists t,
        get_metrics memory table Examples.memory_deliveries
          Examples.cpu_deliveries = Ok (Response t)
        /\ List.length (tabular_data t)
           = S (List.length (memory_answer Examples.memory_deliveries)))
  /\ get_metrics memory table
       [(memory_request_q, Examples.sidecar [Examples.int_point 4096])]
       Examples.cpu_deliveries
     = Raise ZeroDivisionError
  /\ is_ok (get_metrics memory json
              [(memory_request_q, Examples.no_points)]
              Examples.cpu_deliveries) = false.
Proof.
  split; [| split; [| split]].
  - apply (proj1 (endpoint_answers Examples.memory_deliveries
                    Examples.cpu_deliveries)).
    reflexivity.
  - apply (proj1 (endpoint_answers Examples.memory_deliveries
                    Examples.cpu_deliveries)); [reflexivity |].
    vm_compute. discriminate.
  - apply (proj1 (endpoint_answers
                    [(memory_request_q,
                      Examples.sidecar [Examples.int_point 4096])]
                    Examples.cpu_deliveries)); reflexivity.
  - apply (proj1 (proj2 (endpoint_answers
                           [(memory_request_q, Examples.no_points)]
                           Examples.cpu_deliveries))).
    reflexivity.
Defined.

End Handler.

(** * The report of the script *)

Section MonitorReport.
Import Monitoring Monitor.

Lemma monitor_gather_raises deliveries : forall d,
  forallb MetricsClient.has_points deliveries = false ->
  gather_memory deliveries d = Raise IndexError.
Proof.
  unfold gather_memory.
  induction deliveries as [| [q s] l IH]; intros d; simpl; [discriminate |].
  rewrite monitor_body_write.
  unfold memory_write, MetricsClient.has_points. simpl.
  destruct (points s) as [| p ps]; simpl; [reflexivity |].
  apply IH.
Qed.

Lemma monitor_gather_ok deliveries : forall d,
  forallb MetricsClient.has_points deliveries = true ->
  is_ok (gather_memory deliveries d) = true.
Proof.
  unfold gather_memory.
  induction deliveries as [| [q s] l IH]; intros d; simpl; [reflexivity |].
  rewrite monitor_body_write.
  unfold memory_write, MetricsClient.has_points. simpl.
  destruct (points s) as [| p ps]; simpl; [discriminate |].
  apply IH.
Qed.



(** X16. The script needs a point in every series: when each series
    delivered has one the queries return, and when one has none the
    queries, and with them the report, raise IndexError, whatever the
    containers already recorded. *)
Theorem report_needs_a_point_per_series deliveries d :
  (forallb MetricsClient.has_points deliveries = true ->
   is_ok (query_metrics deliveries d) = true)
  /\ (forallb MetricsClient.has_points deliveries = false ->
      query_metrics deliveries d = Raise IndexError
      /\ print_utilization deliveries d = Raise IndexError).
Proof.
  split; intros P.
  - pose proof (monitor_gather_ok deliveries d P) as O.
    unfold query_metrics.
    now destruct (gather_memory deliveries d).
  - assert (Q : query_metrics deliveries d = Raise IndexError).
    { unfold query_metrics.
      now rewrite (monitor_gather_raises deliveries d P). }
    split; [exact Q |].
    unfold print_utilization. now rewrite Q.
Qed.

Lemma report_needs_a_point_per_series_witness :
  is_ok (query_metrics Examples.monitor_deliveries []) = true
  /\ print_utilization
       (Examples.monitor_deliveries
        ++ [(max_memory_usage_q, Examples.no_points)]) []
     = Raise IndexError.
Proof.
  split.
  - apply (proj1 (report_needs_a_point_per_series
                    Examples.monitor_deliveries [])).
    reflexivity.
  - apply (proj2 (report_needs_a_point_per_series
                    (Examples.monitor_deliveries
                     ++ [(max_memory_usage_q, Examples.no_points)]) [])).
    reflexivity.
Defined.

End MonitorReport.
